(** * The Firebird wire protocol engine of pyfirebirdsql

    A shallow embedding of [firebirdsql/wireprotocol.py]: the framed byte
    channel, the XDR packer, the BLR parameter encoder, the response
    readers and the status-vector parser, with the properties the
    specification states about them.

    Byte strings are lists of byte values ([list Z]); the session is an
    explicit state (socket inbox, trace of socket events, handles) threaded
    through a state-and-exception monad. *)

From Stdlib Require Import ZArith List Lia Bool String Ascii.
From Stdlib Require Import DecimalString.
From stdpp Require Import base gmap strings list.

Local Open Scope Z_scope.

(** ** Byte strings *)

Module Bytes.

(** A byte string is represented by the list of its byte values.

    [bs(l)] of [firebirdsql.utils] builds a byte string from a list of
    numbers, [bytes(l)]: it raises [ValueError] when one of them is outside
    [range(256)].  [bs l] stands for the call on a list of literals in
    range, which cannot fail; where the source computes one of the numbers,
    the call is [bs_checked] (with the monad, below), which raises as the
    source does. *)
Definition bytes := list Z.

Definition bs (l : list Z) : bytes := l.

(** Python's [len]. *)
Definition len {A} (b : list A) : Z := Z.of_nat (length b).

(** Python's [bs([x]) * k]. *)
Definition rep (x : Z) (k : Z) : bytes := replicate (Z.to_nat k) x.

(** Python's slice [b[i:j]] for [0 <= i], [0 <= j]. *)
Definition slice (b : bytes) (i j : Z) : bytes :=
  take (Z.to_nat j - Z.to_nat i) (drop (Z.to_nat i) b).

(** Big-endian digits of a non-negative number, [n] bytes wide. *)
Fixpoint be_digits (n : nat) (v : Z) : bytes :=
  match n with
  | O => []
  | S k => be_digits k (v / 256) ++ [v mod 256]
  end.

(** Modelled from the spec: [bint_to_bytes] of [firebirdsql.utils] (not part
    of the sources at hand) is the big-endian signed encoding of the XDR
    codec: the [nbytes]-byte two's complement of [val], most significant
    byte first. *)
Definition bint_to_bytes (val : Z) (nbytes : nat) : bytes :=
  be_digits nbytes (val mod 2 ^ (8 * Z.of_nat nbytes)).

(** Modelled from the spec: [int_to_bytes] of [firebirdsql.utils] writes a
    number least significant byte first (used inside parameter blocks). *)
Fixpoint int_to_bytes (val : Z) (nbytes : nat) : bytes :=
  match nbytes with
  | O => []
  | S k => (val mod 256) :: int_to_bytes (val / 256) k
  end.

(** The unsigned big-endian value of a byte string. *)
Definition be_value (b : bytes) : Z :=
  fold_left (fun acc x => acc * 256 + x) b 0.

(** Modelled from the spec: [bytes_to_bint] of [firebirdsql.utils] reads a
    big-endian signed integer (the XDR codec's unpack). *)
Definition bytes_to_bint (b : bytes) : Z :=
  let u := be_value b in
  let w := 2 ^ (8 * len b) in
  if decide (2 * u < w) then u else u - w.

(** The unsigned variant, [bytes_to_bint(b, u=True)]. *)
Definition bytes_to_ubint (b : bytes) : Z := be_value b.

End Bytes.
Export Bytes.

(** ** Date and time conversion ([convert_date], [convert_time],
       [convert_timestamp]) *)

Record date := mkdate { year : Z; month : Z; day : Z }.
Record time := mktime { hour : Z; minute : Z; second : Z; microsecond : Z }.
Record datetime := mkdatetime { dt_date : date; dt_time : time }.

(** Python's [//] and [%] are floor division and its remainder: [Z.div]
    and [Z.modulo] for the positive divisors used here. *)
Definition convert_date (v : date) : bytes :=
  let i := month v + 9 in
  let jy := year v + (i / 12) - 1 in
  let jm := i mod 12 in
  let c := jy / 100 in
  let jy := jy - 100 * c in
  let j := (146097 * c) / 4 + (1461 * jy) / 4 + (153 * jm + 2) / 5
           + day v - 678882 in
  bint_to_bytes j 4.

Definition convert_time (v : time) : bytes :=
  let t := (hour v * 3600 + minute v * 60 + second v) * 10000
           + microsecond v / 100 in
  bint_to_bytes t 4.

Definition convert_timestamp (v : datetime) : bytes :=
  convert_date (dt_date v) ++ convert_time (dt_time v).

(** The Julian offset as the specification writes it. *)
Definition julian_offset (y m d : Z) : Z :=
  let i := m + 9 in
  let jy0 := y + i / 12 - 1 in
  let jm := i mod 12 in
  let c := jy0 / 100 in
  let jy := jy0 - 100 * c in
  146097 * c / 4 + 1461 * jy / 4 + (153 * jm + 2) / 5 + d - 678882.

Definition time_ticks (h m s us : Z) : Z :=
  (h * 3600 + m * 60 + s) * 10000 + us / 100.

(** The four bytes of a value, most significant first, as two's complement. *)
Definition be4 (x : Z) : bytes :=
  let u := x mod 2 ^ 32 in
  [u / 16777216; (u / 65536) mod 256; (u / 256) mod 256; u mod 256].

(** ** What the engine takes from its collaborators

    The constants of [firebirdsql.consts], the message catalogue of
    [firebirdsql.fberrmsgs] and the character-set conversions are not part
    of the sources at hand: they are parameters of the development. *)

Class Externals := {
  isc_arg_end : Z;
  isc_arg_gds : Z;
  isc_arg_string : Z;
  isc_arg_number : Z;
  isc_arg_interpreted : Z;
  isc_arg_sql_state : Z;
  MAX_CHAR_LENGTH : Z;
  BLOB_SEGMENT_SIZE : Z;
  (** [messages]: gds code to message template. *)
  messages : gmap Z string;
  (** [str(b)] of a byte string. *)
  str_of_bytes : bytes -> string;
  (** [self.str_to_bytes(s)]: encoding in the session's character set. *)
  str_to_bytes : string -> bytes;
}.

(** The values of Firebird's [ibase.h], with the catalogue entries and the
    Latin-1 conversions used in the examples. *)
Definition latin1_of_string (s : string) : bytes :=
  map (fun a => Z.of_nat (nat_of_ascii a)) (list_ascii_of_string s).

Definition string_of_latin1 (b : bytes) : string :=
  string_of_list_ascii (map (fun x => ascii_of_nat (Z.to_nat x)) b).

Definition firebird : Externals := {|
  isc_arg_end := 0;
  isc_arg_gds := 1;
  isc_arg_string := 2;
  isc_arg_number := 4;
  isc_arg_interpreted := 5;
  isc_arg_sql_state := 19;
  MAX_CHAR_LENGTH := 32767;
  BLOB_SEGMENT_SIZE := 32000;
  messages := {[ 335544344 := "I/O error for file @1"%string;
                 335544436 := "SQL error code = @1"%string;
                 335544569 := "Dynamic SQL Error"%string ]};
  str_of_bytes := string_of_latin1;
  str_to_bytes := latin1_of_string;
|}.

(** ** Errors, the session and its monad *)

(** The exceptions the engine can raise.  [OperationalError] carries its
    arguments (message, gds codes, SQL code).  [NameError] stands for
    Python's [UnboundLocalError] (a [NameError]), [ValueError] for the one
    [socket.recv] and [xdrlib] raise on a negative size and [bs] on a
    number that is not a byte, [TypeError] for the comparison of a
    non-numeric exponent with 0, [ConversionError] for
    [xdrlib.ConversionError] ([pack_int] of [None] or of a number that does
    not fit 32 bits).  [Diverged] is not a Python exception: it marks a loop
    of the model that ran out of fuel. *)
Inductive error :=
  | OperationalError (message : string) (gds_codes : gset Z) (sql_code : Z)
  | InternalError
  | DisconnectByPeer
  | NameError
  | ValueError
  | TypeError
  | ConversionError
  | Diverged.

Definition is_operational (e : error) : Prop :=
  match e with OperationalError _ _ _ => True | _ => False end.

Inductive result (A : Type) :=
  | Ok (a : A)
  | Raise (e : error).
Arguments Ok {A} a.
Arguments Raise {A} e.

(** What the network delivers to the socket, in order: a chunk of bytes, or
    a period as long as the read deadline in which nothing arrives.  The
    end of the list is the closure of the stream by the peer. *)
Inductive arrival :=
  | Data (b : bytes)
  | Quiet.

(** What happened on the socket: a packet handed to [sock.send], or the
    bytes one [sock.recv] returned. *)
Inductive event :=
  | Sent (b : bytes)
  | Received (b : bytes).

Record session := mksession {
  inbox : list arrival;
  trace : list event;
  timeout : option Z;
  db_handle : option Z;
}.

Definition set_inbox (i : list arrival) (s : session) : session :=
  mksession i (trace s) (timeout s) (db_handle s).

Definition log (e : event) (s : session) : session :=
  mksession (inbox s) (trace s ++ [e]) (timeout s) (db_handle s).

Definition M (A : Type) : Type := session -> result A * session.

Definition ret {A} (a : A) : M A := fun s => (Ok a, s).
Definition raise {A} (e : error) : M A := fun s => (Raise e, s).
Definition bind {A B} (c : M A) (k : A -> M B) : M B :=
  fun s => match c s with
           | (Ok a, s') => k a s'
           | (Raise e, s') => (Raise e, s')
           end.

Notation "'let*' x ':=' c 'in' k" := (bind c (fun x => k))
  (at level 10, x pattern, c at level 100, k at level 200).
Notation "c ';;' k" := (bind c (fun _ => k))
  (at level 100, k at level 200, right associativity).

(** [bs(l)] on computed numbers: the byte string, or [ValueError] when a
    number is outside [range(256)]. *)
Definition bs_checked (l : list Z) : M bytes :=
  if decide (Forall (fun x => 0 <= x < 256) l) then ret (bs l)
  else raise ValueError.

(** The packets sent and the bytes received so far. *)
Definition sent_packets (t : list event) : list bytes :=
  omap (fun e => match e with Sent b => Some b | Received _ => None end) t.

Definition received_bytes (t : list event) : bytes :=
  concat (omap (fun e => match e with Received b => Some b | Sent _ => None end) t).

Definition inbox_bytes (i : list arrival) : bytes :=
  concat (omap (fun a => match a with Data b => Some b | Quiet => None end) i).

(** ** The framed byte channel *)

(** [self.sock.send(b)]. *)
Definition sock_send (b : bytes) : M unit :=
  fun s => (Ok tt, log (Sent b) s).

Fixpoint drop_quiet (i : list arrival) : list arrival :=
  match i with
  | Quiet :: rest => drop_quiet rest
  | _ => i
  end.

(** [select.select([sock], [], [], self.timeout)[0] == []], consulted only
    when a timeout is configured: nothing arrives within the deadline. *)
Definition select_expires : M bool :=
  fun s => match timeout s, inbox s with
           | Some _, Quiet :: rest => (Ok true, set_inbox rest s)
           | _, _ => (Ok false, s)
           end.

(** [self.sock.recv(n)]: blocks until something arrives, returns at most
    [n] bytes of it, and the empty string once the peer has closed.  A
    negative size is a [ValueError]. *)
Definition sock_recv (n : Z) : M bytes :=
  fun s =>
    if decide (n < 0) then (Raise ValueError, s) else
    match drop_quiet (inbox s) with
    | Data c :: rest =>
        if decide (len c <= n)
        then (Ok c, log (Received c) (set_inbox rest s))
        else (Ok (take (Z.to_nat n) c),
              log (Received (take (Z.to_nat n) c))
                  (set_inbox (Data (drop (Z.to_nat n) c) :: rest) s))
    | _ => (Ok [], set_inbox [] s)
    end.

(** The loop of [recv_channel]: [n] bytes are still wanted, [r] holds what
    has arrived.  Every turn either leaves the loop or receives at least one
    byte, so [S (Z.to_nat n)] turns are enough. *)
Fixpoint recv_loop (fuel : nat) (n : Z) (r : bytes) : M bytes :=
  match fuel with
  | O => ret r
  | S fuel' =>
      if decide (n = 0) then ret r else
      let* expired := select_expires in
      if (expired : bool) then ret r else
      let* b := sock_recv n in
      match b with
      | [] => ret r
      | _ => recv_loop fuel' (n - len b) (r ++ b)
      end
  end.

Definition recv_channel (nbytes : Z) (word_alignment : bool) : M bytes :=
  let n := nbytes in
  let n := if word_alignment && negb (n mod 4 =? 0)
           then n + (4 - nbytes mod 4) else n in
  let* r := recv_loop (S (Z.to_nat n)) n (bs []) in
  if decide (len r < nbytes)
  then raise (OperationalError "Can not recv() packets" ∅ 0)
  else ret (take (Z.to_nat nbytes) r).

(** The bytes that arrive before the stream closes or, when a timeout is
    configured, before a deadline passes with nothing to read. *)
Fixpoint arriving_in (tmo : option Z) (i : list arrival) : bytes :=
  match i with
  | [] => []
  | Data [] :: _ => []
  | Data c :: rest => c ++ arriving_in tmo rest
  | Quiet :: rest =>
      match tmo with
      | Some _ => []
      | None => arriving_in tmo rest
      end
  end.

Definition arriving (s : session) : bytes := arriving_in (timeout s) (inbox s).

(** The number of padding bytes [recv_channel] asks for after [n] bytes. *)
Definition padding (n : Z) (word_alignment : bool) : Z :=
  if word_alignment && negb (n mod 4 =? 0) then 4 - n mod 4 else 0.

(** [reads s b s']: from [s] to [s'] the bytes [b], and nothing else, were
    taken from the socket, and nothing was sent. *)
Record reads (s : session) (b : bytes) (s' : session) : Prop := mkreads {
  reads_arriving : arriving s = b ++ arriving s';
  reads_timeout : timeout s' = timeout s;
  reads_db_handle : db_handle s' = db_handle s;
  reads_trace : exists evs, trace s' = trace s ++ evs
                            /\ sent_packets evs = []
                            /\ received_bytes evs = b;
}.

(** The bytes the inbox still holds: a bound on the turns of every reading
    loop, each of which consumes at least one word. *)
Definition pending (s : session) : nat := length (inbox_bytes (inbox s)).

(** ** The XDR packer ([xdrlib.Packer]) *)

Definition Packer := bytes.

Definition new_Packer : Packer := [].

Definition get_buffer (p : Packer) : bytes := p.

(** [pack_int] is [struct.pack('>l', x)]: a number outside the signed
    32-bit range is a conversion error. *)
Definition pack_int (x : Z) (p : Packer) : M Packer :=
  if decide (- 2 ^ 31 <= x < 2 ^ 31)
  then ret (p ++ bint_to_bytes x 4)
  else raise ConversionError.

(** [pack_int] of a handle, which may be [None]: not a number. *)
Definition pack_handle (h : option Z) (p : Packer) : M Packer :=
  match h with
  | Some x => pack_int x p
  | None => raise ConversionError
  end.

Definition pack_uint (x : Z) (p : Packer) : M Packer :=
  if decide (0 <= x < 2 ^ 32)
  then ret (p ++ bint_to_bytes x 4)
  else raise ConversionError.

Definition pack_fstring (n : Z) (s : bytes) (p : Packer) : M Packer :=
  if decide (n < 0) then raise ValueError else
  let data := take (Z.to_nat n) s in
  let n := ((n + 3) / 4) * 4 in
  ret (p ++ data ++ rep 0 (n - len data)).

(** [pack_string], [pack_opaque] and [pack_bytes] are one function. *)
Definition pack_bytes (s : bytes) (p : Packer) : M Packer :=
  let n := len s in
  let* p := pack_uint n p in
  pack_fstring n s p.

Definition pack_string := pack_bytes.

(** ** Python strings *)

(** [str(n)] of an integer. *)
Definition str_of_Z (n : Z) : string := NilZero.string_of_int (Z.to_int n).

(** [s.replace(old, new)] for a non-empty [old]: every occurrence, left to
    right, without overlap.  [skip] counts the characters of an occurrence
    still to be passed over. *)
Fixpoint replace_from (old new : string) (skip : nat) (s : string) : string :=
  match s with
  | EmptyString => EmptyString
  | String c s' =>
      match skip with
      | S k => replace_from old new k s'
      | O =>
          if String.prefix old s
          then (new ++ replace_from old new (String.length old - 1) s')%string
          else String c (replace_from old new 0 s')
      end
  end.

Definition replace (old new s : string) : string := replace_from old new 0 s.

(** Reading a local variable that may not have been assigned yet. *)
Definition load {A} (x : option A) : M A :=
  match x with
  | Some v => ret v
  | None => raise NameError
  end.

(** ** Operation codes (the class attributes of [WireProtocol]) *)

Definition buffer_length : Z := 1024.

Definition op_connect : Z := 1.
Definition op_exit : Z := 2.
Definition op_accept : Z := 3.
Definition op_reject : Z := 4.
Definition op_protocol : Z := 5.
Definition op_disconnect : Z := 6.
Definition op_response : Z := 9.
Definition op_attach : Z := 19.
Definition op_create : Z := 20.
Definition op_detach : Z := 21.
Definition op_transaction : Z := 29.
Definition op_commit : Z := 30.
Definition op_rollback : Z := 31.
Definition op_open_blob : Z := 35.
Definition op_get_segment : Z := 36.
Definition op_put_segment : Z := 37.
Definition op_close_blob : Z := 39.
Definition op_info_database : Z := 40.
Definition op_info_transaction : Z := 42.
Definition op_que_events : Z := 48.
Definition op_cancel_events : Z := 49.
Definition op_commit_retaining : Z := 50.
Definition op_event : Z := 52.
Definition op_connect_request : Z := 53.
Definition op_aux_connect : Z := 53.
Definition op_create_blob2 : Z := 57.
Definition op_allocate_statement : Z := 62.
Definition op_execute : Z := 63.
Definition op_exec_immediate : Z := 64.
Definition op_fetch : Z := 65.
Definition op_fetch_response : Z := 66.
Definition op_free_statement : Z := 67.
Definition op_prepare_statement : Z := 68.
Definition op_info_sql : Z := 70.
Definition op_dummy : Z := 71.
Definition op_execute2 : Z := 76.
Definition op_sql_response : Z := 78.
Definition op_drop_database : Z := 81.
Definition op_service_attach : Z := 82.
Definition op_service_detach : Z := 83.
Definition op_service_info : Z := 84.
Definition op_service_start : Z := 85.
Definition op_rollback_retaining : Z := 86.

(** A reader that returns either its own payload or, on [op_response], the
    triple of [_parse_op_response]. *)
Inductive reply (A : Type) :=
  | Payload (a : A)
  | Response (r : Z * bytes * bytes).
Arguments Payload {A} a.
Arguments Response {A} r.

(** A column descriptor: its [io_length()] and its [value] decoder. *)
Record xsqlvar (V : Type) := mkxsqlvar {
  io_length : Z;
  value : bytes -> V;
}.
Arguments io_length {V} x.
Arguments value {V} x b.
Arguments mkxsqlvar {V} io_length value.

Section Engine.
Context {X : Externals}.

(** ** The status vector parser ([_parse_status_vector]) *)

(** The local variables of [_parse_status_vector]; [gds_code] and [num_arg]
    are unbound until their first assignment. *)
Record sv_locals := mklocals {
  sql_code : Z;
  gds_codes : gset Z;
  message : string;
  gds_code : option Z;
  num_arg : option Z;
}.

Definition sv_initial : sv_locals := mklocals 0 ∅ "" None None.

(** The body of the [while] loop for the tag [n], up to the read of the next
    tag. *)
Definition sv_item (n : Z) (l : sv_locals) : M sv_locals :=
  if decide (n = isc_arg_gds) then
    let* b := recv_channel 4 false in
    let gds_code := bytes_to_bint b in
    if decide (gds_code <> 0) then
      ret (mklocals (sql_code l) (gds_codes l ∪ {[ gds_code ]})
             (message l ++ default "@1"%string (messages !! gds_code))
             (Some gds_code) (Some 0))
    else
      ret (mklocals (sql_code l) (gds_codes l) (message l)
             (Some gds_code) (num_arg l))
  else if decide (n = isc_arg_number) then
    let* b := recv_channel 4 false in
    let num := bytes_to_bint b in
    let* g := load (gds_code l) in
    let sql_code := if decide (g = 335544436) then num else sql_code l in
    let* a := load (num_arg l) in
    let num_arg := a + 1 in
    ret (mklocals sql_code (gds_codes l)
           (replace ("@" ++ str_of_Z num_arg) (str_of_Z num) (message l))
           (gds_code l) (Some num_arg))
  else if decide (n = isc_arg_string \/ n = isc_arg_interpreted
                  \/ n = isc_arg_sql_state) then
    let* b := recv_channel 4 false in
    let nbytes := bytes_to_bint b in
    let* raw := recv_channel nbytes true in
    let s := str_of_bytes raw in
    let* a := load (num_arg l) in
    let num_arg := a + 1 in
    ret (mklocals (sql_code l) (gds_codes l)
           (replace ("@" ++ str_of_Z num_arg) s (message l))
           (gds_code l) (Some num_arg))
  else if decide (n = isc_arg_sql_state) then
    let* b := recv_channel 4 false in
    let nbytes := bytes_to_bint b in
    let* raw := recv_channel nbytes true in
    ret l
  else ret l.

Fixpoint sv_loop (fuel : nat) (n : Z) (l : sv_locals)
  : M (gset Z * Z * string) :=
  match fuel with
  | O => raise Diverged
  | S fuel' =>
      if decide (n = isc_arg_end)
      then ret (gds_codes l, sql_code l, message l)
      else
        let* l := sv_item n l in
        let* b := recv_channel 4 false in
        sv_loop fuel' (bytes_to_bint b) l
  end.

Definition _parse_status_vector : M (gset Z * Z * string) :=
  fun s =>
    (let* b := recv_channel 4 false in
     sv_loop (S (pending s)) (bytes_to_bint b) sv_initial) s.

(** ** [op_response] *)

Definition _parse_op_response : M (Z * bytes * bytes) :=
  let* b := recv_channel 16 false in
  let h := bytes_to_bint (slice b 0 4) in
  let oid := slice b 4 12 in
  let buf_len := bytes_to_bint (drop 12 b) in
  let* buf := recv_channel buf_len true in
  let* sv := _parse_status_vector in
  let '(gds_codes, sql_code, message) := sv in
  if decide (sql_code <> 0 \/ message <> ""%string)
  then raise (OperationalError message gds_codes sql_code)
  else ret (h, oid, buf).

(** ** Response readers *)

(** Every reader begins with
    [b = recv_channel(4); while bytes_to_bint(b) == op_dummy: b = recv_channel(4)].
    Each turn of the loop consumes a word of the inbox. *)
Fixpoint skip_dummy (fuel : nat) (b : bytes) : M bytes :=
  match fuel with
  | O => raise Diverged
  | S fuel' =>
      if decide (bytes_to_bint b = op_dummy)
      then let* b := recv_channel 4 false in skip_dummy fuel' b
      else ret b
  end.

Definition read_opcode : M bytes :=
  fun s => (let* b := recv_channel 4 false in skip_dummy (S (pending s)) b) s.

Definition _op_response : M (Z * bytes * bytes) :=
  let* b := read_opcode in
  if decide (bytes_to_bint b <> op_response) then raise InternalError
  else _parse_op_response.

(** [_parse_op_event]: [b[-4:]] is the last word of the 4096 bytes; the
    table of event names is left empty by the source. *)
Definition _parse_op_event : M (Z * Z * list (string * Z)) :=
  let* b := recv_channel 4096 false in
  let db_handle := bytes_to_bint (slice b 0 4) in
  let event_id := bytes_to_bint (drop (length b - 4) b) in
  ret (db_handle, event_id, []).

Definition _op_event : M (reply (Z * Z * list (string * Z))) :=
  let* b := read_opcode in
  if decide (bytes_to_bint b = op_response) then
    let* r := _parse_op_response in ret (Response r)
  else if decide (bytes_to_bint b = op_exit \/ bytes_to_bint b = op_exit) then
    raise DisconnectByPeer
  else if decide (bytes_to_bint b <> op_event) then raise InternalError
  else let* r := _parse_op_event in ret (Payload r).

Section Rows.
Context {V : Type}.

(** The [for i in range(len(xsqlda))] loop of [_op_fetch_response]: [xs]
    are the descriptors from index [i] on, [r] the row under construction. *)
Fixpoint fetch_columns (xs : list (xsqlvar V)) (i : nat) (r : list (option V))
  : M (list (option V)) :=
  match xs with
  | [] => ret r
  | x :: xs' =>
      let* ln :=
        if decide (io_length x < 0)
        then let* b := recv_channel 4 false in ret (bytes_to_bint b)
        else ret (io_length x) in
      let* raw_value := recv_channel ln true in
      let* ind := recv_channel 4 false in
      let r := if decide (ind = rep 0 4)
               then <[ i := Some (value x raw_value) ]> r
               else r in
      fetch_columns xs' (S i) r
  end.

(** The [while count:] loop; every turn consumes a trailer of 12 bytes. *)
Fixpoint fetch_rows (fuel : nat) (xsqlda : list (xsqlvar V))
    (status count : Z) (rows : list (list (option V)))
  : M (list (list (option V)) * bool) :=
  match fuel with
  | O => raise Diverged
  | S fuel' =>
      if decide (count = 0)
      then ret (rows, bool_decide (status <> 100))
      else
        let r := replicate (length xsqlda) None in
        let* r := fetch_columns xsqlda 0 r in
        let rows := rows ++ [r] in
        let* b := recv_channel 12 false in
        let op := bytes_to_bint (slice b 0 4) in
        let status := bytes_to_bint (slice b 4 8) in
        let count := bytes_to_bint (drop 8 b) in
        fetch_rows fuel' xsqlda status count rows
  end.

Definition _op_fetch_response (stmt_handle : option Z)
    (xsqlda : list (xsqlvar V))
  : M (reply (list (list (option V)) * bool)) :=
  let* b := read_opcode in
  if decide (bytes_to_bint b = op_response) then
    let* r := _parse_op_response in ret (Response r)
  else if decide (bytes_to_bint b <> op_fetch_response) then
    raise InternalError
  else
    let* b := recv_channel 8 false in
    let status := bytes_to_bint (slice b 0 4) in
    let count := bytes_to_bint (slice b 4 8) in
    fun s =>
      (let* r := fetch_rows (S (pending s)) xsqlda status count [] in
       ret (Payload r)) s.

(** The [for] loop of [_op_sql_response], which appends to [r]. *)
Fixpoint sql_columns (xs : list (xsqlvar V)) (r : list (option V))
  : M (list (option V)) :=
  match xs with
  | [] => ret r
  | x :: xs' =>
      let* ln :=
        if decide (io_length x < 0)
        then let* b := recv_channel 4 false in ret (bytes_to_bint b)
        else ret (io_length x) in
      let* raw_value := recv_channel ln true in
      let* ind := recv_channel 4 false in
      let r := if decide (ind = rep 0 4)
               then r ++ [Some (value x raw_value)]
               else r ++ [None] in
      sql_columns xs' r
  end.

Definition _op_sql_response (xsqlda : list (xsqlvar V))
  : M (list (option V)) :=
  let* b := read_opcode in
  if decide (bytes_to_bint b <> op_sql_response) then raise InternalError
  else
    let* b := recv_channel 4 false in
    let count := bytes_to_bint (slice b 0 4) in
    if decide (count = 0) then ret []
    else sql_columns xsqlda [].

End Rows.

(** ** The operation issuers *)

Definition get_db_handle : M (option Z) := fun s => (Ok (db_handle s), s).

Definition invalid_db_handle (who : string) : error :=
  OperationalError (who ++ " Invalid db handle") ∅ 0.

Definition _op_drop_database : M unit :=
  let* db := get_db_handle in
  if decide (db = None) then raise (invalid_db_handle "_op_drop_database()") else
  let p := new_Packer in
  let* p := pack_int op_drop_database p in
  let* p := pack_handle db p in
  sock_send (get_buffer p).

Definition _op_service_info (param item : bytes) (buffer_length : Z) : M unit :=
  let* db := get_db_handle in
  if decide (db = None) then raise (invalid_db_handle "_op_service_info()") else
  let p := new_Packer in
  let* p := pack_int op_service_info p in
  let* p := pack_handle db p in
  let* p := pack_int 0 p in
  let* p := pack_bytes param p in
  let* p := pack_bytes item p in
  let* p := pack_int buffer_length p in
  sock_send (get_buffer p).

Definition _op_service_start (param : bytes) : M unit :=
  let* db := get_db_handle in
  if decide (db = None) then raise (invalid_db_handle "_op_service_start()") else
  let p := new_Packer in
  let* p := pack_int op_service_start p in
  let* p := pack_handle db p in
  let* p := pack_int 0 p in
  let* p := pack_bytes param p in
  sock_send (get_buffer p).

Definition _op_service_detach : M unit :=
  let* db := get_db_handle in
  if decide (db = None) then raise (invalid_db_handle "_op_service_detach()") else
  let p := new_Packer in
  let* p := pack_int op_service_detach p in
  let* p := pack_handle db p in
  sock_send (get_buffer p).

Definition _op_info_database (b : bytes) : M unit :=
  let* db := get_db_handle in
  if decide (db = None) then raise (invalid_db_handle "_op_info_database()") else
  let p := new_Packer in
  let* p := pack_int op_info_database p in
  let* p := pack_handle db p in
  let* p := pack_int 0 p in
  let* p := pack_bytes b p in
  let* p := pack_int buffer_length p in
  sock_send (get_buffer p).

Definition _op_transaction (tpb : bytes) : M unit :=
  let* db := get_db_handle in
  if decide (db = None) then raise (invalid_db_handle "_op_transaction()") else
  let p := new_Packer in
  let* p := pack_int op_transaction p in
  let* p := pack_handle db p in
  let* p := pack_bytes tpb p in
  sock_send (get_buffer p).

Definition _op_commit (trans_handle : option Z) : M unit :=
  let p := new_Packer in
  let* p := pack_int op_commit p in
  let* p := pack_handle trans_handle p in
  sock_send (get_buffer p).

Definition _op_commit_retaining (trans_handle : option Z) : M unit :=
  let p := new_Packer in
  let* p := pack_int op_commit_retaining p in
  let* p := pack_handle trans_handle p in
  sock_send (get_buffer p).

Definition _op_rollback (trans_handle : option Z) : M unit :=
  let p := new_Packer in
  let* p := pack_int op_rollback p in
  let* p := pack_handle trans_handle p in
  sock_send (get_buffer p).

Definition _op_rollback_retaining (trans_handle : option Z) : M unit :=
  let p := new_Packer in
  let* p := pack_int op_rollback_retaining p in
  let* p := pack_handle trans_handle p in
  sock_send (get_buffer p).

Definition _op_allocate_statement : M unit :=
  let* db := get_db_handle in
  if decide (db = None) then raise (invalid_db_handle "_op_allocate_statement()") else
  let p := new_Packer in
  let* p := pack_int op_allocate_statement p in
  let* p := pack_handle db p in
  sock_send (get_buffer p).

Definition _op_info_transaction (trans_handle : option Z) (b : bytes) : M unit :=
  let p := new_Packer in
  let* p := pack_int op_info_transaction p in
  let* p := pack_handle trans_handle p in
  let* p := pack_int 0 p in
  let* p := pack_bytes b p in
  let* p := pack_int buffer_length p in
  sock_send (get_buffer p).

Definition _op_free_statement (stmt_handle : option Z) (mode : Z) : M unit :=
  let p := new_Packer in
  let* p := pack_int op_free_statement p in
  let* p := pack_handle stmt_handle p in
  let* p := pack_int mode p in
  sock_send (get_buffer p).

Definition _op_info_sql (stmt_handle : option Z) (vars : bytes) : M unit :=
  let p := new_Packer in
  let* p := pack_int op_info_sql p in
  let* p := pack_handle stmt_handle p in
  let* p := pack_int 0 p in
  let* p := pack_bytes vars p in
  let* p := pack_int buffer_length p in
  sock_send (get_buffer p).

Definition _op_exec_immediate (trans_handle : option Z) (query : string) : M unit :=
  let* db := get_db_handle in
  if decide (db = None) then raise (invalid_db_handle "_op_exec_immediate()") else
  let desc_items := bs [] in
  let p := new_Packer in
  let* p := pack_int op_exec_immediate p in
  let* p := pack_handle trans_handle p in
  let* p := pack_handle db p in
  let* p := pack_int 3 p in
  let* p := pack_string (str_to_bytes query) p in
  let* p := pack_bytes desc_items p in
  let* p := pack_int buffer_length p in
  sock_send (get_buffer p).

Definition _op_fetch (stmt_handle : option Z) (blr : bytes) : M unit :=
  let p := new_Packer in
  let* p := pack_int op_fetch p in
  let* p := pack_handle stmt_handle p in
  let* p := pack_bytes blr p in
  let* p := pack_int 0 p in
  let* p := pack_int 400 p in
  sock_send (get_buffer p).

Definition _op_detach : M unit :=
  let* db := get_db_handle in
  if decide (db = None) then raise (invalid_db_handle "_op_detach()") else
  let p := new_Packer in
  let* p := pack_int op_detach p in
  let* p := pack_handle db p in
  sock_send (get_buffer p).

Definition _op_open_blob (blob_id : bytes) (trans_handle : option Z) : M unit :=
  let p := new_Packer in
  let* p := pack_int op_open_blob p in
  let* p := pack_handle trans_handle p in
  sock_send (get_buffer p ++ blob_id).

Definition _op_create_blob2 (trans_handle : option Z) : M unit :=
  let p := new_Packer in
  let* p := pack_int op_create_blob2 p in
  let* p := pack_int 0 p in
  let* p := pack_handle trans_handle p in
  let* p := pack_int 0 p in
  let* p := pack_int 0 p in
  sock_send (get_buffer p).

Definition _op_get_segment (blob_handle : option Z) : M unit :=
  let p := new_Packer in
  let* p := pack_int op_get_segment p in
  let* p := pack_handle blob_handle p in
  let* p := pack_int buffer_length p in
  let* p := pack_int 0 p in
  sock_send (get_buffer p).

Definition _op_put_segment (blob_handle : option Z) (b : bytes) : M unit :=
  let p := new_Packer in
  let* p := pack_int op_put_segment p in
  let* p := pack_handle blob_handle p in
  let* p := pack_int (len b) p in
  let* p := pack_int (len b) p in
  sock_send (get_buffer p ++ b).


Definition _op_close_blob (blob_handle : option Z) : M unit :=
  let p := new_Packer in
  let* p := pack_int op_close_blob p in
  let* p := pack_handle blob_handle p in
  sock_send (get_buffer p).

(** The [for name, n in event_names.items()] loop of [_op_que_events], with
    [event_names.items()] as the list of its pairs. *)
Fixpoint que_events_params (event_names : list (string * Z)) (params : bytes)
  : M bytes :=
  match event_names with
  | [] => ret params
  | (name, n) :: rest =>
      let* b := bs_checked [Z.of_nat (String.length name)] in
      let params := params ++ b in
      let params := params ++ str_to_bytes name in
      let params := params ++ int_to_bytes n 4 in
      que_events_params rest params
  end.

Definition _op_que_events (event_names : list (string * Z)) (ast args event_id : Z)
  : M unit :=
  let* db := get_db_handle in
  if decide (db = None) then raise (invalid_db_handle "_op_que_events()") else
  let params := bs [1] in
  let* params := que_events_params event_names params in
  let p := new_Packer in
  let* p := pack_int op_que_events p in
  let* p := pack_handle db p in
  let* p := pack_bytes params p in
  let* p := pack_int ast p in
  let* p := pack_int args p in
  let* p := pack_int event_id p in
  sock_send (get_buffer p).

Definition _op_cancel_events (event_id : Z) : M unit :=
  let* db := get_db_handle in
  if decide (db = None) then raise (invalid_db_handle "_op_cancel_events()") else
  let p := new_Packer in
  let* p := pack_int op_cancel_events p in
  let* p := pack_handle db p in
  let* p := pack_int event_id p in
  sock_send (get_buffer p).

(** [_op_connect_request] sends its packet and reads the answer itself. *)
Definition _op_connect_request : M (Z * Z * Z * string) :=
  let* db := get_db_handle in
  if decide (db = None) then raise (invalid_db_handle "_op_connect_request()") else
  let p := new_Packer in
  let* p := pack_int op_connect_request p in
  let* p := pack_int 1 p in
  let* p := pack_handle db p in
  let* p := pack_int 0 p in
  sock_send (get_buffer p) ;;
  let* b := read_opcode in
  if decide (bytes_to_bint b <> op_response) then raise InternalError else
  let* b := recv_channel 4 false in
  let h := bytes_to_bint b in
  recv_channel 8 false ;;
  let* b := recv_channel 4 false in
  let ln := bytes_to_bint b in
  let ln := ln + ln mod 4 in
  let* b := recv_channel 2 false in
  let family := bytes_to_bint b in
  let* b := recv_channel 2 false in
  let port := bytes_to_ubint b in
  let* b := recv_channel 4 false in
  let ip_address := String.concat "." (map str_of_Z b) in
  let ln := ln - 8 in
  recv_channel ln false ;;
  let* sv := _parse_status_vector in
  let '(gds_codes, sql_code, message) := sv in
  if decide (sql_code <> 0 \/ message <> ""%string)
  then raise (OperationalError message gds_codes sql_code)
  else ret (h, port, family, ip_address).

(** ** The BLR encoder *)

(** The loop of [_create_blob]: [i] is the offset of the next segment.  With
    a positive segment size every turn advances [i], so [length b] turns
    are enough. *)
Fixpoint put_segments (fuel : nat) (blob_handle : Z) (b : bytes) (i : Z)
  : M unit :=
  if decide (i < len b) then
    match fuel with
    | O => raise Diverged
    | S fuel' =>
        _op_put_segment (Some blob_handle) (slice b i (i + BLOB_SEGMENT_SIZE)) ;;
        _op_response ;;
        put_segments fuel' blob_handle b (i + BLOB_SEGMENT_SIZE)
    end
  else ret tt.

Definition _create_blob (trans_handle : option Z) (b : bytes) : M bytes :=
  _op_create_blob2 trans_handle ;;
  let* r := _op_response in
  let '(blob_handle, blob_id, buf) := r in
  put_segments (length b) blob_handle b 0 ;;
  _op_close_blob (Some blob_handle) ;;
  _op_response ;;
  ret blob_id.

(** A parameter value, by its runtime type.  [PText] is a text string
    (encoded by [str_to_bytes]), [PBytes] a byte string.  [PDecimal] is a
    finite [decimal.Decimal] by its [as_tuple()], or a finite float by the
    tuple of [decimal.Decimal(str(p))].  [PNonFinite] is a [Decimal] that is
    not a number or is infinite, or a float that is not a number or is
    [float("-inf")]: the exponent of its [as_tuple()] is one of the letters
    [n], [N] and [F].  [POther] is a value of any other type, by its
    [__repr__()]. *)
Inductive param :=
  | PText (s : string)
  | PBytes (b : bytes)
  | PInt (n : Z)
  | PFloatInf
  | PDecimal (sign : bool) (digits : list Z) (exponent : Z)
  | PNonFinite (sign : bool) (digits : list Z)
  | PDate (d : date)
  | PTime (t : time)
  | PDateTime (d : datetime)
  | PBool (b : bool)
  | PNone
  | POther (repr : string).

(** [for i in range(ln): v += digits[i] * (10 ** (ln - i - 1))]. *)
Fixpoint digits_value (ln : Z) (digits : list Z) (i : Z) (v : Z) : Z :=
  match digits with
  | [] => v
  | d :: rest => digits_value ln rest (i + 1) (v + d * 10 ^ (ln - i - 1))
  end.

(** One turn of the [for p in params] loop of [params_to_blr]. *)
Definition blr_param (trans_handle : option Z) (acc : bytes * bytes)
    (p : param) : M (bytes * bytes) :=
  let '(blr, values) := acc in
  let p := match p with
           | PText s => PBytes (str_to_bytes s)
           | _ => p
           end in
  let* vb :=
    match p with
    | PText _ => ret (bs [], blr)
    | PBytes p =>
        if decide (len p > MAX_CHAR_LENGTH) then
          let* v := _create_blob trans_handle p in
          ret (v, blr ++ bs [9; 0])
        else
          let v := p in
          let nbytes := len v in
          let pad_length := Z.land (4 - nbytes) 3 in
          let v := v ++ rep 0 pad_length in
          let* tag := bs_checked [14; Z.land nbytes 255; Z.shiftr nbytes 8] in
          ret (v, blr ++ tag)
    | PInt p => ret (bint_to_bytes p 4, blr ++ bs [8; 0])
    | PFloatInf => ret ([127; 128; 0; 0], blr ++ bs [10])
    | PDecimal sign digits exponent =>
        let ln := len digits in
        let v := digits_value ln digits 0 0 in
        let v := if sign then v * -1 else v in
        let v := bint_to_bytes v 8 in
        let exponent := if decide (exponent < 0) then exponent + 256
                        else exponent in
        let* tag := bs_checked [16; exponent] in
        ret (v, blr ++ tag)
    | PNonFinite sign digits =>
        let ln := len digits in
        let v := digits_value ln digits 0 0 in
        let v := if sign then v * -1 else v in
        let v := bint_to_bytes v 8 in
        (* [exponent < 0] on a letter *)
        raise TypeError
    | PDate p => ret (convert_date p, blr ++ bs [12])
    | PTime p => ret (convert_time p, blr ++ bs [13])
    | PDateTime p => ret (convert_timestamp p, blr ++ bs [35])
    | PBool p =>
        ret (if p then bs [1; 0; 0; 0] else bs [0; 0; 0; 0], blr ++ bs [23])
    | PNone | POther _ =>
        let v := match p with
                 | POther repr => str_to_bytes repr
                 | _ => bs []
                 end in
        let nbytes := len v in
        let pad_length := Z.land (4 - nbytes) 3 in
        let v := v ++ rep 0 pad_length in
        let* tag := bs_checked [14; Z.land nbytes 255; Z.shiftr nbytes 8] in
        ret (v, blr ++ tag)
    end in
  let '(v, blr) := vb in
  let values := values ++ v in
  let blr := blr ++ bs [7; 0] in
  let values := values ++ (match p with
                           | PNone => bs [255; 255; 255; 255]
                           | _ => rep 0 4
                           end) in
  ret (blr, values).

Fixpoint blr_params (trans_handle : option Z) (params : list param)
    (acc : bytes * bytes) : M (bytes * bytes) :=
  match params with
  | [] => ret acc
  | p :: rest =>
      let* acc := blr_param trans_handle acc p in
      blr_params trans_handle rest acc
  end.

Definition params_to_blr (trans_handle : option Z) (params : list param)
  : M (bytes * bytes) :=
  let ln := len params * 2 in
  let* blr := bs_checked [5; 2; 4; 0; Z.land ln 255; Z.shiftr ln 8] in
  let values := bs [] in
  let* acc := blr_params trans_handle params (blr, values) in
  let '(blr, values) := acc in
  let blr := blr ++ bs [255; 76] in
  ret (blr, values).

Definition _op_execute (stmt_handle trans_handle : option Z)
    (params : list param) : M unit :=
  let p := new_Packer in
  let* p := pack_int op_execute p in
  let* p := pack_handle stmt_handle p in
  let* p := pack_handle trans_handle p in
  if decide (len params = 0) then
    let* p := pack_bytes (bs []) p in
    let* p := pack_int 0 p in
    let* p := pack_int 0 p in
    sock_send (get_buffer p)
  else
    let* bv := params_to_blr trans_handle params in
    let '(blr, values) := bv in
    let* p := pack_bytes blr p in
    let* p := pack_int 0 p in
    let* p := pack_int 1 p in
    sock_send (get_buffer p ++ values).

Definition _op_execute2 (stmt_handle trans_handle : option Z)
    (params : list param) (output_blr : bytes) : M unit :=
  let p := new_Packer in
  let* p := pack_int op_execute2 p in
  let* p := pack_handle stmt_handle p in
  let* p := pack_handle trans_handle p in
  (if decide (len params = 0) then
     let* p := pack_bytes (bs []) p in
     let* p := pack_int 0 p in
     let* p := pack_int 0 p in
     sock_send (get_buffer p)
   else
     let* bv := params_to_blr trans_handle params in
     let '(blr, values) := bv in
     let* p := pack_bytes blr p in
     let* p := pack_int 0 p in
     let* p := pack_int 1 p in
     sock_send (get_buffer p ++ values)) ;;
  let p := new_Packer in
  let* p := pack_bytes output_blr p in
  let* p := pack_int 0 p in
  sock_send (get_buffer p).

(** ** Invocations of the issuers, by the handle they need *)

(** The issuers that check [self.db_handle], with their arguments. *)
Inductive db_issue :=
  | IDetach
  | IDropDatabase
  | ITransaction (tpb : bytes)
  | IAllocateStatement
  | IInfoDatabase (b : bytes)
  | IExecImmediate (trans_handle : option Z) (query : string)
  | IQueEvents (event_names : list (string * Z)) (ast args event_id : Z)
  | ICancelEvents (event_id : Z)
  | IConnectRequest
  | IServiceInfo (param item : bytes) (buffer_length : Z)
  | IServiceStart (param : bytes)
  | IServiceDetach.

Definition issue_db (i : db_issue) : M unit :=
  match i with
  | IDetach => _op_detach
  | IDropDatabase => _op_drop_database
  | ITransaction tpb => _op_transaction tpb
  | IAllocateStatement => _op_allocate_statement
  | IInfoDatabase b => _op_info_database b
  | IExecImmediate th q => _op_exec_immediate th q
  | IQueEvents names ast args id => _op_que_events names ast args id
  | ICancelEvents id => _op_cancel_events id
  | IConnectRequest => _op_connect_request ;; ret tt
  | IServiceInfo param item n => _op_service_info param item n
  | IServiceStart param => _op_service_start param
  | IServiceDetach => _op_service_detach
  end.

(** The issuers that end a transaction, by its handle. *)
Inductive trans_issue :=
  | ICommit
  | IRollback
  | ICommitRetaining
  | IRollbackRetaining.

Definition issue_trans (i : trans_issue) (trans_handle : option Z) : M unit :=
  match i with
  | ICommit => _op_commit trans_handle
  | IRollback => _op_rollback trans_handle
  | ICommitRetaining => _op_commit_retaining trans_handle
  | IRollbackRetaining => _op_rollback_retaining trans_handle
  end.

(** The tags of the status vector are distinct 32-bit words. *)
Definition tags_ok : Prop :=
  NoDup [isc_arg_end; isc_arg_gds; isc_arg_string; isc_arg_number;
         isc_arg_interpreted; isc_arg_sql_state]
  /\ Forall (fun t => - 2 ^ 31 <= t < 2 ^ 31)
       [isc_arg_end; isc_arg_gds; isc_arg_string; isc_arg_number;
        isc_arg_interpreted; isc_arg_sql_state].

End Engine.

(** ** Sessions used in the examples *)

(** A fresh session, without handles or timeout, to which the bytes [b]
    arrive in one piece before the peer closes. *)
Definition incoming (b : bytes) : session := mksession [Data b] [] None None.

(** The zero bytes [pack_fstring] adds after [n] bytes. *)
Definition xdr_pad (n : Z) : Z := (n + 3) / 4 * 4 - n.

(** [k] keepalive frames. *)
Definition dummies (k : nat) : bytes := concat (replicate k (be4 op_dummy)).

(** ** What the server sends and what a run leaves on the trace *)

Section Wire.
Context {X : Externals}.

(** An [op_response] frame that reports success: object handle, object
    id, buffer, and the status vector [isc_arg_gds, 0, isc_arg_end]. *)
Definition response_body (h : Z) (oid buf : bytes) : bytes :=
  be4 h ++ oid ++ be4 (len buf) ++ buf
  ++ rep 0 (padding (len buf) true)
  ++ be4 isc_arg_gds ++ be4 0 ++ be4 isc_arg_end.

Definition ok_response (r : Z * bytes * bytes) : bytes :=
  let '(h, oid, buf) := r in be4 op_response ++ response_body h oid buf.

Definition wf_response (r : Z * bytes * bytes) : Prop :=
  let '(h, oid, buf) := r in
  - 2 ^ 31 <= h < 2 ^ 31 /\ len oid = 8 /\ len buf < 2 ^ 31.

End Wire.

(** [runs s evs s']: from [s] to [s'] the socket events [evs] happened, in
    this order, and the bytes received are the next to arrive in [s]. *)
Record runs (s : session) (evs : list event) (s' : session) : Prop := mkruns {
  runs_trace : trace s' = trace s ++ evs;
  runs_arriving : arriving s = received_bytes evs ++ arriving s';
  runs_timeout : timeout s' = timeout s;
  runs_db_handle : db_handle s' = db_handle s;
}.

(** A trace made of exchanges: each packet sent is followed by the reading
    of exactly the given answer, before the next packet is sent. *)
Fixpoint exchanges (l : list (bytes * bytes)) (t : list event) : Prop :=
  match l with
  | [] => t = []
  | (p, r) :: l' =>
      exists evs t', t = Sent p :: evs ++ t'
                     /\ sent_packets evs = [] /\ received_bytes evs = r
                     /\ exchanges l' t'
  end.

(** ** The segments and packets of a BLOB spill *)

Section Spill.
Context {X : Externals}.

(** The segments [_create_blob] cuts from [b], from offset [i] on. *)
Fixpoint segments_from (fuel : nat) (b : bytes) (i : Z) : list bytes :=
  match fuel with
  | O => []
  | S fuel' =>
      if decide (i < len b)
      then slice b i (i + BLOB_SEGMENT_SIZE)
           :: segments_from fuel' b (i + BLOB_SEGMENT_SIZE)
      else []
  end.

Definition segments (b : bytes) : list bytes := segments_from (length b) b 0.

End Spill.

Definition create_blob2_packet (trans_handle : Z) : bytes :=
  be4 op_create_blob2 ++ be4 0 ++ be4 trans_handle ++ be4 0 ++ be4 0.

Definition put_segment_packet (blob_handle : Z) (seg : bytes) : bytes :=
  be4 op_put_segment ++ be4 blob_handle ++ be4 (len seg) ++ be4 (len seg) ++ seg.

Definition close_blob_packet (blob_handle : Z) : bytes :=
  be4 op_close_blob ++ be4 blob_handle.

(** The parameters of the examples: a character limit of 4 bytes and
    segments of 3, so that short byte strings spill. *)
Definition tiny : Externals := {|
  isc_arg_end := 0;
  isc_arg_gds := 1;
  isc_arg_string := 2;
  isc_arg_number := 4;
  isc_arg_interpreted := 5;
  isc_arg_sql_state := 19;
  MAX_CHAR_LENGTH := 4;
  BLOB_SEGMENT_SIZE := 3;
  messages := ∅;
  str_of_bytes := string_of_latin1;
  str_to_bytes := latin1_of_string;
|}.

(** ** The encoding table of the BLR encoder, as the specification gives it *)

Section Table.
Context {X : Externals}.

(** A byte string followed by zeros up to the next multiple of 4. *)
Definition zero_padded (v : bytes) : bytes := v ++ rep 0 ((4 - len v) mod 4).

(** The number a tuple of decimal digits denotes. *)
Definition mantissa (digits : list Z) : Z :=
  fold_left (fun a d => 10 * a + d) digits 0.

(** The bytes a text or byte-string parameter stands for. *)
Definition string_form (p : param) : option bytes :=
  match p with
  | PText s => Some (str_to_bytes s)
  | PBytes b => Some b
  | _ => None
  end.

(** The parameter is a byte string longer than [MAX_CHAR_LENGTH]. *)
Definition spills (p : param) : bool :=
  match string_form p with
  | Some b => bool_decide (len b > MAX_CHAR_LENGTH)
  | None => false
  end.

(** The BLR tag group of each variant. *)
Definition tag_group (p : param) : bytes :=
  match p with
  | PText _ | PBytes _ =>
      let b := default [] (string_form p) in
      if spills p then [9; 0] else [14; len b mod 256; len b / 256]
  | PInt _ => [8; 0]
  | PFloatInf => [10]
  | PDecimal _ _ exponent =>
      [16; if decide (exponent < 0) then exponent + 256 else exponent]
  | PNonFinite _ _ => []
  | PDate _ => [12]
  | PTime _ => [13]
  | PDateTime _ => [35]
  | PBool _ => [23]
  | PNone => [14; 0; 0]
  | POther repr =>
      [14; len (str_to_bytes repr) mod 256; len (str_to_bytes repr) / 256]
  end.

(** The value bytes of each variant that does not spill. *)
Definition value_bytes (p : param) : bytes :=
  match p with
  | PText _ | PBytes _ => zero_padded (default [] (string_form p))
  | PInt n => bint_to_bytes n 4
  | PFloatInf => [127; 128; 0; 0]
  | PDecimal sign digits _ =>
      bint_to_bytes (if sign then - mantissa digits else mantissa digits) 8
  | PNonFinite _ _ => []
  | PDate d => convert_date d
  | PTime t => convert_time t
  | PDateTime d => convert_timestamp d
  | PBool b => if b then [1; 0; 0; 0] else [0; 0; 0; 0]
  | PNone => []
  | POther repr => zero_padded (str_to_bytes repr)
  end.

(** The null indicator that follows the value bytes. *)
Definition null_indicator (p : param) : bytes :=
  match p with
  | PNone => [255; 255; 255; 255]
  | _ => [0; 0; 0; 0]
  end.

(** The descriptor of a parameter list. *)
Definition blr_prelude (n : Z) : bytes :=
  [5; 2; 4; 0; (2 * n) mod 256; (2 * n) / 256].

Definition blr_descriptor (params : list param) : bytes :=
  blr_prelude (len params)
  ++ concat (map (fun p => tag_group p ++ [7; 0]) params)
  ++ [255; 76].

End Table.

(** ** The payload of a fetch response, as the server lays it out *)

(** One column of one row on the wire: the value bytes, the bytes that pad
    them to a word boundary, and the 4-byte null indicator. *)
Record cell := mkcell {
  cell_raw : bytes;
  cell_pad : bytes;
  cell_ind : bytes;
}.

(** A row on the wire with the trailer that follows it. *)
Record wire_row := mkwire_row {
  row_cells : list cell;
  row_op : Z;
  row_status : Z;
  row_count : Z;
}.

Section FetchWire.
Context {V : Type}.

Definition enc_cell (x : xsqlvar V) (c : cell) : bytes :=
  (if decide (io_length x < 0) then be4 (len (cell_raw c)) else [])
  ++ cell_raw c ++ cell_pad c ++ cell_ind c.

Definition wf_cell (x : xsqlvar V) (c : cell) : Prop :=
  (0 <= io_length x -> len (cell_raw c) = io_length x)
  /\ len (cell_raw c) < 2 ^ 31
  /\ len (cell_pad c) = padding (len (cell_raw c)) true
  /\ len (cell_ind c) = 4.

(** The value of a column: present when the indicator is all zero. *)
Definition dec_cell (x : xsqlvar V) (c : cell) : option V :=
  if decide (cell_ind c = [0; 0; 0; 0]) then Some (value x (cell_raw c))
  else None.

Definition enc_cells (xsqlda : list (xsqlvar V)) (cs : list cell) : bytes :=
  concat (zip_with enc_cell xsqlda cs).

Definition enc_wire_row (xsqlda : list (xsqlvar V)) (r : wire_row) : bytes :=
  enc_cells xsqlda (row_cells r)
  ++ be4 (row_op r) ++ be4 (row_status r) ++ be4 (row_count r).

Definition wf_wire_row (xsqlda : list (xsqlvar V)) (r : wire_row) : Prop :=
  Forall2 wf_cell xsqlda (row_cells r)
  /\ - 2 ^ 31 <= row_op r < 2 ^ 31
  /\ - 2 ^ 31 <= row_status r < 2 ^ 31
  /\ - 2 ^ 31 <= row_count r < 2 ^ 31.

Definition dec_row (xsqlda : list (xsqlvar V)) (r : wire_row) : list (option V) :=
  zip_with dec_cell xsqlda (row_cells r).

(** The rows that follow a count: none after 0, and after any other count a
    row whose trailer's count announces the rest. *)
Fixpoint chained (count : Z) (rows : list wire_row) : Prop :=
  match rows with
  | [] => count = 0
  | r :: rest => count <> 0 /\ chained (row_count r) rest
  end.

(** The status of the last trailer, or of the header when no row follows. *)
Definition final_status (status : Z) (rows : list wire_row) : Z :=
  fold_left (fun _ r => row_status r) rows status.

End FetchWire.

(** ** A gds code with its arguments, as the server lays them out *)

(** An argument of a gds code: a number, or a string under one of the tags
    [isc_arg_string], [isc_arg_interpreted], [isc_arg_sql_state], with the
    bytes that pad it to a word boundary. *)
Inductive sv_arg :=
  | ArgNumber (n : Z)
  | ArgString (tag : Z) (body pad : bytes).

Section ErrorWire.
Context {X : Externals}.

Definition enc_arg (a : sv_arg) : bytes :=
  match a with
  | ArgNumber n => be4 isc_arg_number ++ be4 n
  | ArgString tag body pad => be4 tag ++ be4 (len body) ++ body ++ pad
  end.

Definition wf_arg (a : sv_arg) : Prop :=
  match a with
  | ArgNumber n => - 2 ^ 31 <= n < 2 ^ 31
  | ArgString tag body pad =>
      tag ∈ [isc_arg_string; isc_arg_interpreted; isc_arg_sql_state]
      /\ len body < 2 ^ 31 /\ len pad = padding (len body) true
  end.

(** The text an argument puts in the place of its placeholder. *)
Definition arg_text (a : sv_arg) : string :=
  match a with
  | ArgNumber n => str_of_Z n
  | ArgString _ body _ => str_of_bytes body
  end.

(** The message after the arguments took the places of [@k+1], [@k+2],
    and so on, in this order. *)
Fixpoint substitute (m : string) (k : Z) (texts : list string) : string :=
  match texts with
  | [] => m
  | t :: rest => substitute (replace ("@" ++ str_of_Z (k + 1)) t m) (k + 1) rest
  end.

(** The last number among the arguments, [d] when there is none. *)
Definition last_number (args : list sv_arg) (d : Z) : Z :=
  fold_left (fun acc a => match a with ArgNumber n => n | _ => acc end) args d.

(** A status vector of one gds code with its arguments. *)
Definition error_vector (g : Z) (args : list sv_arg) : bytes :=
  be4 isc_arg_gds ++ be4 g ++ concat (map enc_arg args) ++ be4 isc_arg_end.

(** What the parser makes of it. *)
Definition error_sql_code (g : Z) (args : list sv_arg) : Z :=
  if decide (g = 335544436) then last_number args 0 else 0.

Definition error_message (g : Z) (args : list sv_arg) : string :=
  substitute (default "@1"%string (messages !! g)) 0 (map arg_text args).

(** An [op_response] frame whose status vector carries the code [g]. *)
Definition failed_response (r : Z * bytes * bytes) (g : Z) (args : list sv_arg)
  : bytes :=
  let '(h, oid, buf) := r in
  be4 op_response ++ be4 h ++ oid ++ be4 (len buf) ++ buf
  ++ rep 0 (padding (len buf) true) ++ error_vector g args.

(** Read a tag, then go on with the loop. *)
Definition sv_next (fuel : nat) (l : sv_locals) : M (gset Z * Z * string) :=
  let* b := recv_channel 4 false in sv_loop fuel (bytes_to_bint b) l.

End ErrorWire.

(** ** The packets of the issuers *)

(** The opcode each issuer of the [db_handle] group puts first. *)
Definition db_opcode (i : db_issue) : Z :=
  match i with
  | IDetach => op_detach
  | IDropDatabase => op_drop_database
  | ITransaction _ => op_transaction
  | IAllocateStatement => op_allocate_statement
  | IInfoDatabase _ => op_info_database
  | IExecImmediate _ _ => op_exec_immediate
  | IQueEvents _ _ _ _ => op_que_events
  | ICancelEvents _ => op_cancel_events
  | IConnectRequest => op_connect_request
  | IServiceInfo _ _ _ => op_service_info
  | IServiceStart _ => op_service_start
  | IServiceDetach => op_service_detach
  end.

Definition trans_opcode (i : trans_issue) : Z :=
  match i with
  | ICommit => op_commit
  | IRollback => op_rollback
  | ICommitRetaining => op_commit_retaining
  | IRollbackRetaining => op_rollback_retaining
  end.

Definition int32 (x : Z) : Prop := - 2 ^ 31 <= x < 2 ^ 31.

Section IssueArguments.
Context {X : Externals}.

(** Arguments the XDR packer accepts: numbers in the signed 32-bit range,
    byte strings shorter than 2^32; for [_op_que_events], names of fewer
    than 256 characters (the length goes into one byte) and counts of 32
    bits.  [_op_connect_request] is left out, it reads its answer itself. *)
Definition db_issue_ok (i : db_issue) : Prop :=
  match i with
  | IDetach | IDropDatabase | IAllocateStatement | IServiceDetach => True
  | ITransaction tpb => len tpb < 2 ^ 32
  | IInfoDatabase b => len b < 2 ^ 32
  | IExecImmediate th q =>
      (exists t, th = Some t /\ int32 t) /\ len (str_to_bytes q) < 2 ^ 32
  | IQueEvents names ast args id =>
      Forall (fun e => Z.of_nat (String.length (fst e)) < 256 /\ int32 (snd e))
        names
      /\ len (fold_left (fun params '(name, n) =>
                           params ++ bs [Z.of_nat (String.length name)]
                                  ++ str_to_bytes name ++ int_to_bytes n 4)
                        names (bs [1])) < 2 ^ 32
      /\ int32 ast /\ int32 args /\ int32 id
  | ICancelEvents id => int32 id
  | IConnectRequest => False
  | IServiceInfo param item n =>
      len param < 2 ^ 32 /\ len item < 2 ^ 32 /\ int32 n
  | IServiceStart param => len param < 2 ^ 32
  end.

End IssueArguments.

(** ** Connection parameters ([pack_cnct_param], inside [uid]) *)

Section Connect.
(** [CNCT_specific_data] of [firebirdsql.consts]. *)
Variable CNCT_specific_data : Z.

(** The [while len(v) > 254] loop: [b] is the output so far, [v] what is
    left of the value, [i] the number of the next chunk.  Every turn
    removes 254 bytes, so [length v] turns are enough. *)
Fixpoint cnct_loop (fuel : nat) (k : Z) (b v : bytes) (i : Z)
  : M (bytes * bytes * Z) :=
  if decide (len v > 254) then
    match fuel with
    | O => raise Diverged
    | S fuel' =>
        let* h := bs_checked [k; 255; i] in
        cnct_loop fuel' k (b ++ h ++ slice v 0 254) (drop 254 v) (i + 1)
    end
  else ret (b, v, i).

Definition pack_cnct_param (k : Z) (v : bytes) : M bytes :=
  if decide (k <> CNCT_specific_data) then
    let* h := bs_checked ([k] ++ [len v]) in
    ret (h ++ v)
  else
    let* r := cnct_loop (length v) k (bs []) v 0 in
    let '(b, v, i) := r in
    let* h := bs_checked [k; len v + 1; i] in
    ret (b ++ h ++ v).

(** The chunks numbered from [i], each behind its three-byte header. *)
Fixpoint cnct_frames (k : Z) (i : Z) (chunks : list bytes) : bytes :=
  match chunks with
  | [] => []
  | c :: rest => [k; len c + 1; i] ++ c ++ cnct_frames k (i + 1) rest
  end.

End Connect.

(** A time of day as [datetime.time] admits it. *)
Definition valid_time (t : time) : Prop :=
  0 <= hour t < 24 /\ 0 <= minute t < 60 /\ 0 <= second t < 60
  /\ 0 <= microsecond t < 1000000.

(** A date as [datetime.date] admits it. *)
Definition valid_date (d : date) : Prop :=
  1 <= year d <= 9999 /\ 1 <= month d <= 12 /\ 1 <= day d <= 31.

Section Encodable.
Context {X : Externals}.

(** The parameter values [params_to_blr] encodes: an integer of 32 bits; a
    finite decimal whose mantissa fits 64 bits and whose exponent fits the
    one byte the descriptor has for it; a date and a time of day as
    [datetime] admits them; a string that does not spill, or the [repr] of
    another value, of fewer than 65536 bytes (its length goes into two
    bytes).  On the others the encoder raises. *)
Definition param_ok (p : param) : Prop :=
  match p with
  | PText _ | PBytes _ =>
      spills p = false -> len (default [] (string_form p)) < 65536
  | PInt n => int32 n
  | PDecimal _ digits exponent =>
      - 256 <= exponent < 256
      /\ Forall (fun d => 0 <= d <= 9) digits /\ mantissa digits < 2 ^ 63
  | PNonFinite _ _ => False
  | PDate d => valid_date d
  | PTime t => valid_time t
  | PDateTime d => valid_date (dt_date d) /\ valid_time (dt_time d)
  | POther repr => len (str_to_bytes repr) < 65536
  | PFloatInf | PBool _ | PNone => True
  end.

End Encodable.

(** ** Waiting for an event ([_wait_for_event]) *)

(** What [_wait_for_event] takes from its collaborators: [bytes_to_int] of
    [firebirdsql.utils] and [bytes_to_str] of the connection. *)
Class EventCodec := {
  bytes_to_int : bytes -> Z;
  connection_bytes_to_str : bytes -> string;
}.

(** The little-endian value of a byte string and the Latin-1 reading, used
    in the examples. *)
Definition le_value (b : bytes) : Z :=
  fold_right (fun x acc => x + 256 * acc) 0 b.

Definition little_endian : EventCodec := {|
  bytes_to_int := le_value;
  connection_bytes_to_str := string_of_latin1;
|}.

(** How a call of [_wait_for_event] ends when it does not raise one of the
    session's errors: with the pair [(event_id, event_names)], with the
    [IndexError] of [b[0]] on an empty buffer, or with the failure of
    [assert byte_to_int(b[0]) == 1]. *)
Inductive waited :=
  | Waited (event_id : Z) (event_names : gmap string Z)
  | IndexError
  | AssertionError.

Section Events.
Context {X : Externals} {C : EventCodec}.

(** The [while i < len(b)] loop over the event buffer.  A length byte is
    not negative, so every turn advances [i] by at least 5: [length b]
    turns are enough. *)
Fixpoint event_names_loop (fuel : nat) (b : bytes) (i : Z)
    (event_names : gmap string Z) : M (gmap string Z) :=
  if decide (i < len b) then
    match fuel with
    | O => raise Diverged
    | S fuel' =>
        let ln := nth (Z.to_nat i) b 0 in
        let s := connection_bytes_to_str (slice b (i + 1) (i + 1 + ln)) in
        let n := bytes_to_int (slice b (i + 1 + ln) (i + 1 + ln + 4)) in
        event_names_loop fuel' b (i + (ln + 5)) (<[ s := n ]> event_names)
    end
  else ret event_names.

(** The [op_event] arm. *)
Definition wait_event_arm (event_names : gmap string Z) : M waited :=
  let* b := recv_channel 4 false in
  let db_handle := bytes_to_int b in
  let* b := recv_channel 4 false in
  let ln := bytes_to_bint b in
  let* b := recv_channel ln true in
  match b with
  | [] => ret IndexError
  | b0 :: _ =>
      if decide (b0 = 1) then
        let* event_names := event_names_loop (length b) b 1 event_names in
        recv_channel 8 false ;;
        let* b := recv_channel 4 false in
        let event_id := bytes_to_bint b in
        ret (Waited event_id event_names)
      else ret AssertionError
  end.

(** The [while True] loop; only the [op_dummy] arm goes round again, and
    every turn consumes a word of the inbox.  ([recv_channel] returns bytes
    or raises, the test [b4 is None] never holds.) *)
Fixpoint wait_loop (fuel : nat) (event_id : Z) (event_names : gmap string Z)
  : M waited :=
  match fuel with
  | O => raise Diverged
  | S fuel' =>
      let* b4 := recv_channel 4 false in
      let op := bytes_to_bint b4 in
      if decide (op = op_dummy) then wait_loop fuel' event_id event_names
      else if decide (op = op_exit \/ op = op_disconnect)
      then ret (Waited event_id event_names)
      else if decide (op = op_event) then wait_event_arm event_names
      else raise InternalError
  end.

Definition _wait_for_event (timeout : option Z) : M waited :=
  fun s => wait_loop (S (pending s)) 0 ∅ s.

(** The parameter block [_op_que_events] builds from the event names, when
    the length of every name fits a byte. *)
Definition event_block (event_names : list (string * Z)) : bytes :=
  fold_left (fun params '(name, n) =>
               params ++ bs [Z.of_nat (String.length name)]
                      ++ str_to_bytes name ++ int_to_bytes n 4)
            event_names (bs [1]).

(** An event name and count that survive the block: the name has as many
    bytes as characters, fewer than 256, and both conversions invert. *)
Definition event_entry_ok (e : string * Z) : Prop :=
  Z.of_nat (String.length (fst e)) = len (str_to_bytes (fst e))
  /\ len (str_to_bytes (fst e)) < 256
  /\ connection_bytes_to_str (str_to_bytes (fst e)) = fst e
  /\ bytes_to_int (int_to_bytes (snd e) 4) = snd e.

End Events.

(** One entry of the parameter block of [_op_que_events]. *)
Definition entry_bytes {X : Externals} (e : string * Z) : bytes :=
  bs [Z.of_nat (String.length (fst e))]
  ++ str_to_bytes (fst e) ++ int_to_bytes (snd e) 4.

(** * Properties *)

(** ** Byte strings and the codec *)

Lemma len_app {A} (a b : list A) : len (a ++ b) = len a + len b.
Proof. unfold len. rewrite length_app. lia. Qed.

Lemma len_nonneg {A} (a : list A) : 0 <= len a.
Proof. unfold len. lia. Qed.

Lemma len_rep x k : 0 <= k -> len (rep x k) = k.
Proof. intros. unfold len, rep. rewrite length_replicate. lia. Qed.

Lemma length_be_digits n v : length (be_digits n v) = n.
Proof.
  revert v. induction n as [|n IH]; intros v; simpl; [done|].
  rewrite length_app, IH. simpl. lia.
Qed.

Lemma length_bint_to_bytes v n : length (bint_to_bytes v n) = n.
Proof. apply length_be_digits. Qed.

Lemma bint_to_bytes_4 x : bint_to_bytes x 4 = be4 x.
Proof.
  unfold bint_to_bytes, be4. cbn [be_digits app].
  change (2 ^ (8 * Z.of_nat 4)) with 4294967296.
  change (2 ^ 32) with 4294967296.
  set (u := x mod 4294967296).
  assert (Hu : 0 <= u < 4294967296) by (apply Z.mod_pos_bound; lia).
  rewrite !Z.div_div by lia.
  change (256 * 256 * 256) with 16777216. change (256 * 256) with 65536.
  f_equal. rewrite Z.mod_small; [done|].
  split; [apply Z.div_pos; lia | apply Z.div_lt_upper_bound; lia].
Qed.

Lemma length_be4 x : length (be4 x) = 4%nat.
Proof. reflexivity. Qed.

Lemma bytes_to_bint_be4 x :
  - 2 ^ 31 <= x < 2 ^ 31 -> bytes_to_bint (be4 x) = x.
Proof.
  intros Hx. unfold bytes_to_bint, be4, be_value, len.
  cbn [fold_left length].
  change (2 ^ (8 * Z.of_nat 4)) with 4294967296.
  change (2 ^ 32) with 4294967296 in *. change (2 ^ 31) with 2147483648 in *.
  set (u := x mod 4294967296).
  assert (Hu : 0 <= u < 4294967296) by (apply Z.mod_pos_bound; lia).
  assert (E : (((0 * 256 + u / 16777216) * 256 + u / 65536 mod 256) * 256
               + u / 256 mod 256) * 256 + u mod 256 = u).
  { assert (A1 : u / 65536 = u / 256 / 256)
      by (rewrite Z.div_div by lia; reflexivity).
    assert (A2 : u / 16777216 = u / 256 / 256 / 256)
      by (rewrite !Z.div_div by lia; reflexivity).
    rewrite A1, A2.
    pose proof (Z.div_mod u 256 ltac:(lia)) as H1.
    pose proof (Z.div_mod (u / 256) 256 ltac:(lia)) as H2.
    pose proof (Z.div_mod (u / 256 / 256) 256 ltac:(lia)) as H3.
    assert (0 <= u / 256 / 256 / 256 < 256).
    { rewrite <- A2.
      split; [apply Z.div_pos; lia | apply Z.div_lt_upper_bound; lia]. }
    assert (A3 : (u / 256 / 256) mod 256 = u / 256 / 256 - 256 * (u / 256 / 256 / 256)) by lia.
    lia. }
  rewrite E.
  destruct (Z_lt_le_dec x 0) as [Hneg|Hpos].
  - assert (u = x + 4294967296).
    { unfold u. symmetry. apply Z.mod_unique_pos with (q := -1); lia. }
    case_decide; lia.
  - assert (u = x) by (unfold u; apply Z.mod_small; lia).
    case_decide; lia.
Qed.

(** ** The monad *)

Lemma bind_ok {A B} (c : M A) (k : A -> M B) s a s' :
  c s = (Ok a, s') -> bind c k s = k a s'.
Proof. unfold bind. intros ->. reflexivity. Qed.

Lemma bind_raise {A B} (c : M A) (k : A -> M B) s e s' :
  c s = (Raise e, s') -> bind c k s = (Raise e, s').
Proof. unfold bind. intros ->. reflexivity. Qed.

(** ** The framed byte channel *)

Lemma sent_packets_app t1 t2 :
  sent_packets (t1 ++ t2) = sent_packets t1 ++ sent_packets t2.
Proof. unfold sent_packets. apply omap_app. Qed.

Lemma received_bytes_app t1 t2 :
  received_bytes (t1 ++ t2) = received_bytes t1 ++ received_bytes t2.
Proof. unfold received_bytes. rewrite omap_app. apply concat_app. Qed.

Lemma reads_refl s : reads s [] s.
Proof.
  constructor; try reflexivity.
  exists []. rewrite app_nil_r. done.
Qed.

Lemma reads_trans s1 b1 s2 b2 s3 :
  reads s1 b1 s2 -> reads s2 b2 s3 -> reads s1 (b1 ++ b2) s3.
Proof.
  intros [A1 T1 D1 (e1 & E1 & S1 & R1)] [A2 T2 D2 (e2 & E2 & S2 & R2)].
  constructor.
  - rewrite A1, A2. apply app_assoc.
  - congruence.
  - congruence.
  - exists (e1 ++ e2). rewrite E2, E1, sent_packets_app, received_bytes_app.
    rewrite S1, S2, R1, R2, app_assoc. done.
Qed.

Lemma arriving_in_drop_quiet i : arriving_in None (drop_quiet i) = arriving_in None i.
Proof.
  induction i as [|[c|] i IH]; simpl; auto.
Qed.

(** One [sock.recv(n)] when the deadline has not passed: it returns nothing
    only if nothing more arrives, and otherwise a non-empty prefix, at most
    [n] bytes long, of what arrives. *)
Lemma sock_recv_spec n s :
  0 < n ->
  (forall rest, inbox s = Quiet :: rest -> timeout s = None) ->
  exists b s1, sock_recv n s = (Ok b, s1)
    /\ timeout s1 = timeout s /\ db_handle s1 = db_handle s
    /\ (exists evs, trace s1 = trace s ++ evs /\ sent_packets evs = []
                    /\ received_bytes evs = b)
    /\ ((b = [] /\ arriving s = [])
        \/ (b <> [] /\ len b <= n /\ arriving s = b ++ arriving s1)).
Proof.
  intros Hn Hq. destruct s as [i tr tmo db]. unfold sock_recv, arriving.
  cbn [inbox timeout db_handle trace] in *.
  destruct (decide (n < 0)) as [?|_]; [lia|].
  assert (E : arriving_in tmo i = arriving_in tmo (drop_quiet i)).
  { destruct i as [|[c|] rest]; try reflexivity.
    rewrite (Hq rest eq_refl). symmetry. apply (arriving_in_drop_quiet (Quiet :: rest)). }
  rewrite E. clear E.
  assert (Hd : forall rest, drop_quiet i <> Quiet :: rest).
  { clear. induction i as [|[c|] i IH]; simpl; intros rest; first [done | apply IH]. }
  destruct (drop_quiet i) as [|[c|] rest].
  - eexists _, _. split; [reflexivity|]. cbn.
    split; [done|]. split; [done|].
    split; [exists []; rewrite app_nil_r; done|]. auto.
  - destruct (decide (len c <= n)) as [Hc|Hc].
    + eexists _, _. split; [reflexivity|]. cbn.
      split; [done|]. split; [done|].
      split; [exists [Received c]; cbn; rewrite app_nil_r; done|].
      destruct c as [|x c]; [left; done|right]. done.
    + eexists _, _. split; [reflexivity|]. cbn.
      split; [done|]. split; [done|].
      split; [eexists [Received _]; cbn; rewrite app_nil_r; done|].
      right. unfold len in *.
      assert (Hlen : (Z.to_nat n < length c)%nat) by lia.
      destruct c as [|x c]; [simpl in Hlen; lia|].
      split.
      { destruct (Z.to_nat n) eqn:En; [lia|]. done. }
      split.
      { rewrite length_take. lia. }
      destruct (drop (Z.to_nat n) (x :: c)) eqn:Ed.
      { apply (f_equal length) in Ed. rewrite length_drop in Ed. simpl in *. lia. }
      rewrite <- Ed. rewrite app_assoc, take_drop. done.
  - exfalso. eapply Hd. reflexivity.
Qed.

Lemma select_expires_cases s :
  (exists s1, select_expires s = (Ok true, s1) /\ arriving s = []
     /\ timeout s1 = timeout s /\ db_handle s1 = db_handle s /\ trace s1 = trace s)
  \/ (select_expires s = (Ok false, s)
      /\ forall rest, inbox s = Quiet :: rest -> timeout s = None).
Proof.
  destruct s as [i tr tmo db]. unfold select_expires, arriving. cbn.
  destruct tmo as [t|]; [|right; done].
  destruct i as [|[c|] rest]; try (right; done).
  left. eexists. split; [reflexivity|]. done.
Qed.

Lemma recv_loop_spec fuel : forall n r s,
  0 <= n -> (Z.to_nat n <= fuel)%nat ->
  exists s', recv_loop fuel n r s = (Ok (r ++ take (Z.to_nat n) (arriving s)), s')
    /\ timeout s' = timeout s /\ db_handle s' = db_handle s
    /\ (exists evs, trace s' = trace s ++ evs /\ sent_packets evs = []
                    /\ received_bytes evs = take (Z.to_nat n) (arriving s))
    /\ ((Z.to_nat n <= length (arriving s))%nat ->
        arriving s' = drop (Z.to_nat n) (arriving s)).
Proof.
  induction fuel as [|fuel IH]; intros n r s Hn Hf.
  - replace (Z.to_nat n) with 0%nat by lia. simpl. rewrite app_nil_r.
    exists s. split; [done|]. split; [done|]. split; [done|].
    split; [|done]. exists []. rewrite app_nil_r. done.
  - cbn [recv_loop]. destruct (decide (n = 0)) as [->|Hn0].
    { simpl. rewrite app_nil_r.
      exists s. split; [done|]. split; [done|]. split; [done|].
      split; [|done]. exists []. rewrite app_nil_r. done. }
    destruct (select_expires_cases s) as [(s1 & E & A & T & D & Tr)|[E Hq]].
    { rewrite (bind_ok _ _ _ _ _ E). rewrite A. rewrite take_nil, app_nil_r.
      exists s1. split; [done|]. split; [done|]. split; [done|].
      split; [exists []; rewrite app_nil_r; done|].
      simpl. lia. }
    rewrite (bind_ok _ _ _ _ _ E).
    destruct (sock_recv_spec n s ltac:(lia) Hq)
      as (b & s1 & Er & T & D & (e1 & Tr & S1 & R1) & Hb).
    rewrite (bind_ok _ _ _ _ _ Er).
    destruct Hb as [[-> A]|(Hne & Hle & A)].
    { rewrite A, take_nil, app_nil_r.
      exists s1. split; [done|]. split; [done|]. split; [done|].
      split; [exists e1; done|]. simpl. lia. }
    destruct (IH (n - len b) (r ++ b) s1) as (s' & El & T' & D' & (e2 & Tr' & S2 & R2) & A').
    { pose proof (len_nonneg b). lia. }
    { assert (0 < len b) by (unfold len; destruct b; [done|cbn [length]; lia]).
      clear - Hn Hf H Hle. lia. }
    assert (Hsplit : take (Z.to_nat n) (arriving s)
                     = b ++ take (Z.to_nat (n - len b)) (arriving s1)).
    { rewrite A. rewrite take_app. rewrite take_ge by (unfold len in Hle; lia).
      f_equal. f_equal. unfold len in *. lia. }
    exists s'. split.
    { destruct b as [|x b]; [done|]. rewrite El, Hsplit, app_assoc. done. }
    split; [congruence|]. split; [congruence|].
    split.
    { exists (e1 ++ e2). rewrite Tr', Tr, sent_packets_app, received_bytes_app.
      rewrite S1, S2, R1, R2, Hsplit, app_assoc. done. }
    intros Hav. rewrite A' .
    { rewrite A. rewrite drop_app. rewrite (drop_ge b) by (unfold len in Hle; lia).
      simpl. f_equal. unfold len in *. lia. }
    rewrite A in Hav. rewrite length_app in Hav. unfold len in *. lia.
Qed.

Lemma padding_range n al : 0 <= padding n al < 4.
Proof.
  unfold padding. destruct (al && negb (n mod 4 =? 0)) eqn:E; [|lia].
  apply andb_true_iff in E as [_ E]. apply negb_true_iff, Z.eqb_neq in E.
  pose proof (Z.mod_pos_bound n 4 ltac:(lia)). lia.
Qed.

(** What [recv_channel] does, whatever arrives. *)
Lemma recv_channel_spec n al s :
  0 <= n ->
  let want := Z.to_nat (n + padding n al) in
  exists s', timeout s' = timeout s /\ db_handle s' = db_handle s
    /\ (exists evs, trace s' = trace s ++ evs /\ sent_packets evs = []
                    /\ received_bytes evs = take want (arriving s))
    /\ ((want <= length (arriving s))%nat -> arriving s' = drop want (arriving s))
    /\ recv_channel n al s =
         if decide (len (arriving s) < n)
         then (Raise (OperationalError "Can not recv() packets" ∅ 0), s')
         else (Ok (take (Z.to_nat n) (arriving s)), s').
Proof.
  intros Hn want. unfold recv_channel.
  pose proof (padding_range n al) as Hp.
  assert (En : (if al && negb (n mod 4 =? 0) then n + (4 - n mod 4) else n)
               = n + padding n al).
  { unfold padding. destruct (al && negb (n mod 4 =? 0)); lia. }
  rewrite En.
  destruct (recv_loop_spec (S (Z.to_nat (n + padding n al))) (n + padding n al) (bs []) s)
    as (s' & El & T & D & Tr & A); [lia|lia|].
  exists s'. split; [done|]. split; [done|]. split; [done|]. split; [done|].
  rewrite (bind_ok _ _ _ _ _ El). cbn [bs app].
  fold want.
  assert (Hlen : len (take want (arriving s)) < n <-> len (arriving s) < n).
  { unfold len. rewrite length_take. subst want. lia. }
  destruct (decide (len (take want (arriving s)) < n)) as [H1|H1];
    destruct (decide (len (arriving s) < n)) as [H2|H2];
    [reflexivity | tauto | tauto | ].
  unfold ret. rewrite take_take. do 3 f_equal. subst want. lia.
Qed.

(** When enough bytes arrive, [recv_channel] returns the first [n] of them
    and takes the padding with them. *)
Lemma recv_channel_ok n al s b pad rest :
  arriving s = b ++ pad ++ rest ->
  len b = n -> len pad = padding n al ->
  exists s', recv_channel n al s = (Ok b, s')
             /\ reads s (b ++ pad) s' /\ arriving s' = rest.
Proof.
  intros A Hb Hp.
  destruct (recv_channel_spec n al s) as (s' & T & D & Tr & Ar & E).
  { subst n. apply len_nonneg. }
  cbv zeta in *.
  assert (Hw : Z.to_nat (n + padding n al) = length (b ++ pad)).
  { rewrite length_app. unfold len in *. lia. }
  rewrite Hw in *.
  assert (Hta : take (length (b ++ pad)) (arriving s) = b ++ pad).
  { rewrite A, app_assoc. apply take_app_length. }
  assert (Hda : drop (length (b ++ pad)) (arriving s) = rest).
  { rewrite A, app_assoc. apply drop_app_length. }
  rewrite Hta in Tr. rewrite Hda in Ar.
  assert (Hall : (length (b ++ pad) <= length (arriving s))%nat).
  { rewrite A, !length_app. lia. }
  specialize (Ar Hall).
  exists s'. split.
  - rewrite E. rewrite decide_False.
    + do 2 f_equal. rewrite A. subst n. unfold len.
      rewrite Nat2Z.id. apply take_app_length.
    + rewrite A, !len_app. pose proof (len_nonneg pad). pose proof (len_nonneg rest). lia.
  - split; [|done]. constructor; try done. rewrite Ar, A, app_assoc. done.
Qed.

Lemma recv_channel_short n al s :
  0 <= n -> len (arriving s) < n ->
  exists s', recv_channel n al s
             = (Raise (OperationalError "Can not recv() packets" ∅ 0), s')
             /\ sent_packets (trace s') = sent_packets (trace s).
Proof.
  intros Hn Hs.
  destruct (recv_channel_spec n al s Hn) as (s' & T & D & (evs & Tr & S & R) & Ar & E).
  exists s'. rewrite E, decide_True by done. split; [done|].
  rewrite Tr, sent_packets_app, S, app_nil_r. done.
Qed.

(** ** Date and time conversion *)

(** C4. [convert_date] is the big-endian 4-byte two's complement of the
    modified Julian offset computed with floor division as the specification
    writes it, and 1858-11-17 encodes the offset 0; [convert_time] is the
    big-endian 4-byte value [(h*3600 + m*60 + s)*10000 + microsecond/100];
    [convert_timestamp] is the date bytes followed by the time bytes. *)
Theorem convert_date_time_spec :
  (forall d, convert_date d = be4 (julian_offset (year d) (month d) (day d)))
  /\ convert_date (mkdate 1858 11 17) = [0; 0; 0; 0]
  /\ bytes_to_bint (convert_date (mkdate 1858 11 17)) = 0
  /\ (forall t, convert_time t
                = be4 (time_ticks (hour t) (minute t) (second t) (microsecond t)))
  /\ (forall d, convert_timestamp d
                = convert_date (dt_date d) ++ convert_time (dt_time d))
  /\ (forall d, length (convert_timestamp d) = 8%nat).
Proof.
  split; [|split; [|split; [|split; [|split]]]].
  - intros d. unfold convert_date, julian_offset. apply bint_to_bytes_4.
  - reflexivity.
  - reflexivity.
  - intros t. unfold convert_time, time_ticks. apply bint_to_bytes_4.
  - reflexivity.
  - intros d. unfold convert_timestamp, convert_date, convert_time.
    rewrite length_app, !length_bint_to_bytes. reflexivity.
Qed.

(** ** [recv_channel] *)

(** C8. For a byte count [n], [recv_channel(n, align)] returns exactly [n]
    bytes whenever it returns; when [n] bytes and the padding arrive it
    returns the first [n] and takes, beyond them, [4 - n mod 4] bytes more
    if [align] is set and [n] is not a multiple of 4 (none otherwise); and
    whenever fewer than [n] bytes arrive before the stream closes or the
    configured timeout expires, it raises an operational error. *)
Theorem recv_channel_exact (n : Z) (al : bool) (s : session) (Hn : 0 <= n) :
  (forall r s', recv_channel n al s = (Ok r, s') -> len r = n)
  /\ (padding n al = if al && negb (n mod 4 =? 0) then 4 - n mod 4 else 0)
  /\ (n + padding n al <= len (arriving s) ->
      exists s',
        recv_channel n al s = (Ok (take (Z.to_nat n) (arriving s)), s')
        /\ arriving s' = drop (Z.to_nat (n + padding n al)) (arriving s)
        /\ received_bytes (trace s')
           = received_bytes (trace s)
             ++ take (Z.to_nat (n + padding n al)) (arriving s))
  /\ (len (arriving s) < n ->
      exists e s', recv_channel n al s = (Raise e, s') /\ is_operational e).
Proof.
  destruct (recv_channel_spec n al s Hn)
    as (s1 & T & D & (evs & Tr & S & R) & Ar & E).
  cbv zeta in *. pose proof (padding_range n al) as Hp.
  split; [|split; [reflexivity|split]].
  - intros r s' Hr. rewrite E in Hr. case_decide as Hlt; [done|].
    injection Hr as <- <-. unfold len in *. rewrite length_take. lia.
  - intros Hav. exists s1. rewrite E, decide_False by lia.
    split; [done|]. split.
    + apply Ar. unfold len in Hav. lia.
    + rewrite Tr, received_bytes_app, R. done.
  - intros Hlt. rewrite E, decide_True by done.
    eexists _, s1. split; [reflexivity|]. exact I.
Qed.

Lemma recv_channel_exact_witness :
  (exists s', recv_channel 3 true (incoming [1; 2; 3; 0; 9]) = (Ok [1; 2; 3], s')
              /\ arriving s' = [9])
  /\ (exists e s', recv_channel 3 true (incoming [1; 2]) = (Raise e, s')
                   /\ is_operational e).
Proof.
  split.
  - destruct (recv_channel_exact 3 true (incoming [1; 2; 3; 0; 9]) ltac:(lia))
      as (_ & _ & H & _).
    destruct (H ltac:(vm_compute; discriminate)) as (s' & E & A & _).
    exists s'. split; [exact E | exact A].
  - destruct (recv_channel_exact 3 true (incoming [1; 2]) ltac:(lia))
      as (_ & _ & _ & H).
    exact (H ltac:(vm_compute; reflexivity)).
Defined.

(** ** Handles *)

Section Issuers.
Context {X : Externals}.

(** C9, as the code has it.  Each issuer that needs [db_handle] raises an
    operational error when it is absent, and leaves the session as it was:
    nothing is sent.  The issuers that end a transaction do not check their
    [trans_handle]: when it is absent, packing it fails with a conversion
    error, again before anything is sent, whether or not the session has a
    database handle. *)
Theorem issue_without_handle (s : session) :
  (db_handle s = None ->
   forall i : db_issue,
     exists e, issue_db i s = (Raise e, s) /\ is_operational e)
  /\ (forall i : trans_issue,
        issue_trans i None s = (Raise ConversionError, s)).
Proof.
  split.
  - intros Hdb i. destruct i; cbn [issue_db];
      unfold _op_detach, _op_drop_database, _op_transaction,
        _op_allocate_statement, _op_info_database, _op_exec_immediate,
        _op_que_events, _op_cancel_events, _op_connect_request,
        _op_service_info, _op_service_start, _op_service_detach;
      unfold bind, get_db_handle; rewrite Hdb; cbn;
      eexists; (split; [reflexivity | exact I]).
  - intros i. destruct i; reflexivity.
Qed.

End Issuers.

Lemma issue_without_handle_witness :
  (exists e, issue_db (X := firebird) IDetach (incoming []) = (Raise e, incoming [])
             /\ is_operational e)
  /\ issue_trans ICommit None (mksession [] [] None (Some 7))
     = (Raise ConversionError, mksession [] [] None (Some 7)).
Proof.
  split.
  - destruct (issue_without_handle (X := firebird) (incoming [])) as [H1 _].
    exact (H1 eq_refl IDetach).
  - destruct (issue_without_handle (X := firebird) (mksession [] [] None (Some 7)))
      as [_ H2].
    exact (H2 ICommit).
Defined.

(** C9 as the specification states it fails on [_op_commit]: with the
    transaction handle absent it raises, but not an operational error. *)
Lemma commit_without_handle_not_operational :
  ~ (forall (i : trans_issue) (s : session),
       exists e s', issue_trans i None s = (Raise e, s')
                    /\ is_operational e).
Proof.
  intros H. destruct (H ICommit (incoming [])) as (e & s' & E & Hop).
  cbv in E. injection E as <- _. exact Hop.
Qed.

(** ** Packets *)

Lemma bind_inv_ok {A B} (c : M A) (k : A -> M B) s b s' :
  bind c k s = (Ok b, s') ->
  exists a s1, c s = (Ok a, s1) /\ k a s1 = (Ok b, s').
Proof.
  unfold bind. destruct (c s) as [[a|e] s1]; [eauto|discriminate].
Qed.

Lemma pack_int_ok x p s :
  - 2 ^ 31 <= x < 2 ^ 31 -> pack_int x p s = (Ok (p ++ be4 x), s).
Proof.
  intros Hx. unfold pack_int. rewrite decide_True by done.
  rewrite bint_to_bytes_4. reflexivity.
Qed.

Lemma pack_handle_ok h p s :
  - 2 ^ 31 <= h < 2 ^ 31 -> pack_handle (Some h) p s = (Ok (p ++ be4 h), s).
Proof. apply pack_int_ok. Qed.


Lemma xdr_pad_range n : 0 <= xdr_pad n < 4 /\ (n + xdr_pad n) mod 4 = 0.
Proof.
  unfold xdr_pad. pose proof (Z.div_mod (n + 3) 4 ltac:(lia)).
  pose proof (Z.mod_pos_bound (n + 3) 4 ltac:(lia)).
  split; [lia|].
  replace (n + ((n + 3) / 4 * 4 - n)) with ((n + 3) / 4 * 4) by lia.
  apply Z.mod_mul. lia.
Qed.

Lemma pack_bytes_ok b p s :
  len b < 2 ^ 32 ->
  pack_bytes b p s = (Ok (p ++ be4 (len b) ++ b ++ rep 0 (xdr_pad (len b))), s).
Proof.
  intros Hb. pose proof (len_nonneg b).
  unfold pack_bytes, pack_uint, pack_fstring, bind, ret, raise.
  rewrite decide_True by lia. cbv beta iota.
  rewrite decide_False by lia.
  rewrite bint_to_bytes_4.
  assert (E : take (Z.to_nat (len b)) b = b).
  { unfold len. rewrite Nat2Z.id. apply firstn_all. }
  rewrite E. unfold xdr_pad. rewrite <- app_assoc. reflexivity.
Qed.

(** Run the next packing step of an issuer. *)
Ltac pack :=
  erewrite bind_ok
    by first [ apply pack_int_ok; first [done | lia]
             | apply pack_handle_ok; first [done | lia]
             | apply pack_bytes_ok; first [done | lia] ].

Lemma land_3 x : Z.land x 3 = x mod 4.
Proof. change 3 with (Z.ones 2). rewrite Z.land_ones by lia. reflexivity. Qed.

(** The packet of [_op_put_segment]: four words, then the segment as it is. *)
Lemma op_put_segment_sends h b s :
  - 2 ^ 31 <= h < 2 ^ 31 -> len b < 2 ^ 31 ->
  _op_put_segment (Some h) b s
  = (Ok tt, log (Sent (be4 op_put_segment ++ be4 h ++ be4 (len b)
                         ++ be4 (len b) ++ b)) s).
Proof.
  intros Hh Hb. pose proof (len_nonneg b). unfold _op_put_segment.
  do 4 pack.
  unfold sock_send, get_buffer, new_Packer. rewrite <- !app_assoc. reflexivity.
Qed.


(** C6 at a segment of one byte: the packet of [_op_put_segment] has 17
    bytes, which is not a whole number of words. *)
Theorem put_segment_packet_unaligned :
  exists pkt,
    _op_put_segment (Some 1) [120] (incoming [])
    = (Ok tt, log (Sent pkt) (incoming []))
    /\ pkt = [0; 0; 0; 37; 0; 0; 0; 1; 0; 0; 0; 1; 0; 0; 0; 1; 120]
    /\ len pkt mod 4 = 1.
Proof. eexists. split; [reflexivity|]. split; reflexivity. Qed.

(** ** Reading step by step *)

Lemma recv_step {B} n al (k : bytes -> M B) s b pad rest :
  arriving s = b ++ pad ++ rest ->
  len b = n -> len pad = padding n al ->
  exists s1, bind (recv_channel n al) k s = k b s1
             /\ reads s (b ++ pad) s1 /\ arriving s1 = rest.
Proof.
  intros A Hb Hp.
  destruct (recv_channel_ok n al s b pad rest A Hb Hp) as (s1 & E & R & A1).
  exists s1. rewrite (bind_ok _ _ _ _ _ E). done.
Qed.

Lemma recv_plain {B} n (k : bytes -> M B) s b rest :
  arriving s = b ++ rest -> len b = n ->
  exists s1, bind (recv_channel n false) k s = k b s1
             /\ reads s b s1 /\ arriving s1 = rest.
Proof.
  intros A Hb.
  destruct (recv_step n false k s b [] rest A Hb eq_refl)
    as (s1 & E & R & A1).
  exists s1. rewrite app_nil_r in R. done.
Qed.

Lemma recv_word {B} (k : bytes -> M B) s x rest :
  arriving s = be4 x ++ rest ->
  exists s1, bind (recv_channel 4 false) k s = k (be4 x) s1
             /\ reads s (be4 x) s1 /\ arriving s1 = rest.
Proof. intros A. apply recv_plain; done. Qed.

Lemma reads_pending s b s' : reads s b s' -> arriving s = b ++ arriving s'.
Proof. intros []. done. Qed.

Section StatusVector.
Context {X : Externals}.

Lemma tags_distinct :
  tags_ok ->
  isc_arg_gds <> isc_arg_end /\ isc_arg_string <> isc_arg_end
  /\ isc_arg_number <> isc_arg_end /\ isc_arg_interpreted <> isc_arg_end
  /\ isc_arg_sql_state <> isc_arg_end
  /\ isc_arg_string <> isc_arg_gds /\ isc_arg_number <> isc_arg_gds
  /\ isc_arg_interpreted <> isc_arg_gds /\ isc_arg_sql_state <> isc_arg_gds
  /\ isc_arg_string <> isc_arg_number /\ isc_arg_interpreted <> isc_arg_number
  /\ isc_arg_sql_state <> isc_arg_number.
Proof.
  intros [Hnd _].
  repeat (apply NoDup_cons in Hnd as [? Hnd]).
  repeat match goal with
         | H : _ ∉ _ :: _ |- _ => apply not_elem_of_cons in H as [? ?]
         end.
  repeat split; congruence.
Qed.

Lemma tags_range t :
  tags_ok ->
  t ∈ [isc_arg_end; isc_arg_gds; isc_arg_string; isc_arg_number;
       isc_arg_interpreted; isc_arg_sql_state] ->
  bytes_to_bint (be4 t) = t.
Proof.
  intros [_ Hr] Ht. apply bytes_to_bint_be4.
  rewrite Forall_forall in Hr. apply Hr. done.
Qed.

Lemma arriving_le_pending s : (length (arriving s) <= pending s)%nat.
Proof.
  unfold arriving, pending. generalize (timeout s) as tmo.
  induction (inbox s) as [|[c|] i IH]; intros tmo; cbn; [lia| |].
  - destruct c as [|x c]; [cbn; lia|].
    specialize (IH tmo). rewrite !length_app. unfold inbox_bytes in IH. lia.
  - destruct tmo; [cbn; lia|]. apply IH.
Qed.

(** A number item met while [gds_code] or [num_arg] is unbound. *)
Lemma sv_number_unbound n l s w rest :
  tags_ok -> n = isc_arg_number ->
  arriving s = w ++ rest -> len w = 4 ->
  gds_code l = None \/ num_arg l = None ->
  exists s', sv_item n l s = (Raise NameError, s').
Proof.
  intros Htags -> A Hw Hu.
  pose proof (tags_distinct Htags) as (G0 & S0 & N0 & I0 & Q0 & SG & NG & _).
  unfold sv_item. rewrite decide_False by done. rewrite decide_True by done.
  edestruct (@recv_plain) as (s2 & E & R2 & A2); [exact A | exact Hw |].
  rewrite E. exists s2.
  destruct (gds_code l) as [g|]; [|reflexivity].
  destruct Hu as [?|Hu]; [done|]. rewrite Hu. reflexivity.
Qed.

(** C10. The parser reads [num_arg], and for a number item [gds_code],
    before any nonzero gds item has assigned them: a status vector whose
    first item is a number item, or a string item, or a number item after a
    gds item of code 0, ends in a name error. *)
Theorem parse_status_vector_unbound (s : session) (Htags : tags_ok) :
  (forall w rest,
     arriving s = be4 isc_arg_number ++ w ++ rest -> len w = 4 ->
     exists s', _parse_status_vector s = (Raise NameError, s'))
  /\ (forall tag body pad rest,
        tag ∈ [isc_arg_string; isc_arg_interpreted; isc_arg_sql_state] ->
        arriving s = be4 tag ++ be4 (len body) ++ body ++ pad ++ rest ->
        len body < 2 ^ 31 -> len pad = padding (len body) true ->
        exists s', _parse_status_vector s = (Raise NameError, s'))
  /\ (forall w rest,
        arriving s = be4 isc_arg_gds ++ be4 0 ++ be4 isc_arg_number ++ w ++ rest ->
        len w = 4 ->
        exists s', _parse_status_vector s = (Raise NameError, s')).
Proof.
  pose proof (tags_distinct Htags) as (G0 & S0 & N0 & I0 & Q0 & SG & NG & IG & QG & SN & IN & QN).
  split; [|split].
  - intros w rest A Hw. unfold _parse_status_vector.
    edestruct (@recv_word) as (s1 & E & R1 & A1); [exact A|]. rewrite E. clear E.
    rewrite (tags_range _ Htags) by set_solver.
    cbn [sv_loop]. rewrite decide_False by done.
    destruct (sv_number_unbound isc_arg_number sv_initial s1 w rest
                Htags eq_refl A1 Hw (or_introl eq_refl)) as (s2 & E).
    rewrite (bind_raise _ _ _ _ _ E). eauto.
  - intros tag body pad rest Ht A Hb Hp. unfold _parse_status_vector.
    edestruct (@recv_word) as (s1 & E & R1 & A1); [exact A|]. rewrite E. clear E.
    assert (Hr : bytes_to_bint (be4 tag) = tag).
    { apply tags_range; [done|]. set_solver. }
    assert (Hc : tag = isc_arg_string \/ tag = isc_arg_interpreted
                 \/ tag = isc_arg_sql_state).
    { rewrite !elem_of_cons, elem_of_nil in Ht. tauto. }
    clear Ht. rewrite Hr.
    cbn [sv_loop]. rewrite decide_False by (destruct Hc as [->|[->| ->]]; done).
    assert (Hi : exists s3, sv_item tag sv_initial s1 = (Raise NameError, s3)).
    { unfold sv_item. rewrite decide_False by (destruct Hc as [->|[->| ->]]; done).
      rewrite decide_False by (destruct Hc as [->|[->| ->]]; done).
      rewrite decide_True by done.
      edestruct (@recv_word) as (s2 & E & R2 & A2); [exact A1|]. rewrite E. clear E.
      pose proof (len_nonneg body).
      rewrite bytes_to_bint_be4 by lia.
      edestruct (@recv_step) as (s3 & E & R3 & A3); [exact A2 | reflexivity | exact Hp |].
      rewrite E. eexists. reflexivity. }
    destruct Hi as (s3 & E). rewrite (bind_raise _ _ _ _ _ E). eauto.
  - intros w rest A Hw. unfold _parse_status_vector.
    edestruct (@recv_word) as (s1 & E & R1 & A1); [exact A|]. rewrite E. clear E.
    rewrite (tags_range _ Htags) by set_solver.
    assert (Hpend : (12 <= pending s)%nat).
    { apply reads_pending in R1. pose proof (arriving_le_pending s) as Hle.
      rewrite R1, A1, !length_app, !length_be4 in Hle. lia. }
    cbn [sv_loop]. rewrite decide_False by done.
    unfold sv_item at 1. rewrite decide_True by done.
    edestruct (@recv_word) as (s2 & E & R2 & A2); [exact A1|].
    erewrite bind_ok; cycle 1.
    { rewrite E. rewrite bytes_to_bint_be4 by lia.
      rewrite decide_False by (intros Hne; apply Hne; reflexivity).
      reflexivity. }
    clear E.
    edestruct (@recv_word) as (s3 & E & R3 & A3); [exact A2|]. rewrite E. clear E.
    rewrite (tags_range _ Htags) by set_solver.
    destruct (pending s) as [|f]; [lia|].
    cbn [sv_loop]. rewrite decide_False by done.
    match goal with
    | |- context [sv_item isc_arg_number ?l] =>
        destruct (sv_number_unbound isc_arg_number l s3 w rest
                    Htags eq_refl A3 Hw (or_intror eq_refl)) as (s4 & E)
    end.
    rewrite (bind_raise _ _ _ _ _ E). eauto.
Qed.

End StatusVector.

Lemma firebird_tags_ok : tags_ok (X := firebird).
Proof.
  split.
  - apply (bool_decide_unpack _). vm_compute. reflexivity.
  - repeat constructor; cbv; discriminate.
Qed.

Lemma parse_status_vector_unbound_witness :
  exists s', _parse_status_vector (X := firebird)
               (incoming (be4 4 ++ be4 7 ++ be4 0))
             = (Raise NameError, s').
Proof.
  destruct (parse_status_vector_unbound (X := firebird)
              (incoming (be4 4 ++ be4 7 ++ be4 0)) firebird_tags_ok)
    as (H & _ & _).
  exact (H (be4 7) (be4 0) eq_refl eq_refl).
Defined.

(** C5 at a status vector that opens with a number item: the words
    [isc_arg_number, 7, isc_arg_end] end in a name error, not in a triple. *)
Theorem parse_status_vector_number_first :
  fst (_parse_status_vector (X := firebird)
         (incoming (be4 4 ++ be4 7 ++ be4 0)))
  = Raise NameError.
Proof. vm_compute. reflexivity. Qed.

(** ** The opcode dispatch of the readers *)


Lemma skip_dummy_spec op rest :
  - 2 ^ 31 <= op < 2 ^ 31 -> op <> op_dummy ->
  forall k fuel s,
    (k < fuel)%nat ->
    arriving s = dummies k ++ be4 op ++ rest ->
    exists s1,
      (let* b := recv_channel 4 false in skip_dummy fuel b) s = (Ok (be4 op), s1)
      /\ reads s (dummies k ++ be4 op) s1 /\ arriving s1 = rest.
Proof.
  intros Hop Hd. induction k as [|k IH]; intros fuel s Hf A.
  - cbn [dummies replicate concat app] in *.
    edestruct (@recv_word) as (s1 & E & R1 & A1); [exact A|]. rewrite E.
    destruct fuel as [|fuel]; [lia|]. cbn [skip_dummy].
    rewrite bytes_to_bint_be4, decide_False by done. eauto.
  - unfold dummies in *. cbn [replicate concat] in *.
    rewrite <- !app_assoc in A.
    edestruct (@recv_word) as (s1 & E & R1 & A1); [exact A|]. rewrite E.
    destruct fuel as [|fuel]; [lia|]. cbn [skip_dummy].
    rewrite bytes_to_bint_be4, decide_True by done.
    destruct (IH fuel s1 ltac:(lia) A1) as (s2 & E2 & R2 & A2).
    exists s2. split; [exact E2|]. split; [|exact A2].
    rewrite <- app_assoc. eapply reads_trans; eassumption.
Qed.

Lemma length_dummies k : length (dummies k) = (4 * k)%nat.
Proof.
  unfold dummies. induction k as [|k IH]; [done|].
  cbn [replicate concat]. rewrite length_app, IH, length_be4. lia.
Qed.

(** Every reader skips the keepalive frames and stops at the first other
    opcode. *)
Lemma read_opcode_skips k op rest s :
  - 2 ^ 31 <= op < 2 ^ 31 -> op <> op_dummy ->
  arriving s = dummies k ++ be4 op ++ rest ->
  exists s1, read_opcode s = (Ok (be4 op), s1)
             /\ reads s (dummies k ++ be4 op) s1 /\ arriving s1 = rest.
Proof.
  intros Hop Hd A. unfold read_opcode.
  apply skip_dummy_spec; try done.
  pose proof (arriving_le_pending s) as Hle.
  rewrite A, !length_app, length_dummies, length_be4 in Hle. lia.
Qed.

Section Readers.
Context {X : Externals}.

(** C7, as the code has it.  After any number of [op_dummy] frames comes an
    opcode [op]; every reader below skips the frames and reads the opcode
    and nothing beyond it ([s1] is the session at that point).  The
    generic, fetch and sql-response readers and the reader inside
    [_op_connect_request] raise an internal error when [op] is neither
    their own opcode nor [op_response]; the fetch and event readers hand an
    [op_response] over to [_parse_op_response]; the event reader raises
    [DisconnectByPeer] on [op_exit], and an internal error on every opcode
    other than [op_event], [op_response], [op_exit] and [op_disconnect]. *)
Theorem readers_dispatch (s : session) (k : nat) (op : Z) (rest : bytes)
    (Hop : - 2 ^ 31 <= op < 2 ^ 31) (Hd : op <> op_dummy)
    (A : arriving s = dummies k ++ be4 op ++ rest) :
  exists s1,
    reads s (dummies k ++ be4 op) s1 /\ arriving s1 = rest
    /\ (op <> op_response -> _op_response s = (Raise InternalError, s1))
    /\ (forall V stmt_handle (xsqlda : list (xsqlvar V)),
          (op <> op_response -> op <> op_fetch_response ->
           _op_fetch_response stmt_handle xsqlda s = (Raise InternalError, s1))
          /\ (op = op_response ->
              _op_fetch_response stmt_handle xsqlda s
              = (let* r := _parse_op_response in ret (Response r)) s1))
    /\ (forall V (xsqlda : list (xsqlvar V)),
          op <> op_response -> op <> op_sql_response ->
          _op_sql_response xsqlda s = (Raise InternalError, s1))
    /\ (op = op_exit -> _op_event s = (Raise DisconnectByPeer, s1))
    /\ (op <> op_response -> op <> op_exit -> op <> op_event ->
        op <> op_disconnect ->
        _op_event s = (Raise InternalError, s1))
    /\ (op = op_response ->
        _op_event s = (let* r := _parse_op_response in ret (Response r)) s1)
    /\ (forall db, db_handle s = Some db -> - 2 ^ 31 <= db < 2 ^ 31 ->
        op <> op_response ->
        exists s2 evs,
          _op_connect_request s = (Raise InternalError, s2)
          /\ trace s2
             = trace s
               ++ Sent (be4 op_connect_request ++ be4 1 ++ be4 db ++ be4 0) :: evs
          /\ sent_packets evs = []
          /\ received_bytes evs = dummies k ++ be4 op
          /\ arriving s2 = rest).
Proof.
  destruct (read_opcode_skips k op rest s Hop Hd A) as (s1 & E & R & A1).
  exists s1. split; [exact R|]. split; [exact A1|].
  split; [|split; [|split; [|split; [|split; [|split]]]]].
  - intros Hr. unfold _op_response. rewrite (bind_ok _ _ _ _ _ E).
    rewrite bytes_to_bint_be4, decide_True by done. reflexivity.
  - intros V stmt xsqlda. split.
    + intros Hr Hf. unfold _op_fetch_response. rewrite (bind_ok _ _ _ _ _ E).
      rewrite bytes_to_bint_be4 by done.
      rewrite decide_False, decide_True by done. reflexivity.
    + intros ->.
      unfold _op_fetch_response. rewrite (bind_ok _ _ _ _ _ E).
      rewrite bytes_to_bint_be4 by done. rewrite decide_True by done.
      reflexivity.
  - intros V xsqlda Hr Hq. unfold _op_sql_response.
    rewrite (bind_ok _ _ _ _ _ E).
    rewrite bytes_to_bint_be4, decide_True by done. reflexivity.
  - intros ->. unfold _op_event. rewrite (bind_ok _ _ _ _ _ E).
    rewrite bytes_to_bint_be4 by done.
    rewrite decide_False by done. rewrite decide_True by (left; done).
    reflexivity.
  - intros Hr He Hv _. unfold _op_event. rewrite (bind_ok _ _ _ _ _ E).
    rewrite bytes_to_bint_be4 by done.
    rewrite decide_False by done. rewrite decide_False by tauto.
    rewrite decide_True by done. reflexivity.
  - intros ->.
    unfold _op_event. rewrite (bind_ok _ _ _ _ _ E).
    rewrite bytes_to_bint_be4 by done. rewrite decide_True by done.
    reflexivity.
  - intros db Hdb Hdbr Hr.
    assert (Hg : get_db_handle s = (Ok (Some db), s)).
    { unfold get_db_handle. rewrite Hdb. reflexivity. }
    set (pkt := be4 op_connect_request ++ be4 1 ++ be4 db ++ be4 0).
    destruct (read_opcode_skips k op rest (log (Sent pkt) s) Hop Hd A)
      as (s2 & E2 & R2 & A2).
    destruct R2 as [_ _ _ (evs & Tr & Se & Re)].
    exists s2, evs. split; [|split; [|done]].
    + unfold _op_connect_request. rewrite (bind_ok _ _ _ _ _ Hg).
      rewrite decide_False by done. do 4 pack.
      assert (Es : sock_send (get_buffer ((((new_Packer ++ be4 op_connect_request)
                      ++ be4 1) ++ be4 db) ++ be4 0)) s
                   = (Ok tt, log (Sent pkt) s)).
      { unfold sock_send, get_buffer, new_Packer, pkt.
        rewrite <- ?app_assoc. reflexivity. }
      rewrite (bind_ok _ _ _ _ _ Es).
      rewrite (bind_ok _ _ _ _ _ E2).
      rewrite bytes_to_bint_be4, decide_True by done. reflexivity.
    + rewrite Tr. cbn [log trace]. rewrite <- app_assoc. reflexivity.
Qed.

End Readers.

Lemma readers_dispatch_witness :
  exists s1,
    _op_event (X := firebird)
      (incoming (be4 op_dummy ++ be4 op_dummy ++ be4 op_exit ++ [1; 2]))
    = (Raise DisconnectByPeer, s1)
    /\ arriving s1 = [1; 2].
Proof.
  destruct (readers_dispatch (X := firebird)
              (incoming (be4 op_dummy ++ be4 op_dummy ++ be4 op_exit ++ [1; 2]))
              2 op_exit [1; 2] ltac:(done) ltac:(done) eq_refl)
    as (s1 & _ & A1 & _ & _ & _ & H & _).
  exists s1. split; [exact (H eq_refl) | exact A1].
Defined.

(** C7 as the specification states it fails twice.  The event reader
    answers [op_exit], which is neither [op_event] nor [op_response], with
    [DisconnectByPeer] and not with an internal error; and the sql-response
    reader does not accept [op_response]: it raises an internal error and
    leaves the response, status vector included, unread. *)
Lemma readers_dispatch_counterexample :
  ~ (forall op s, op <> op_event -> op <> op_response -> op <> op_dummy ->
       arriving s = be4 op ->
       exists s', _op_event (X := firebird) s = (Raise InternalError, s'))
  /\ (let body := be4 0 ++ be4 0 ++ be4 0 ++ be4 0 ++ be4 1 ++ be4 0 ++ be4 0 in
      let r := _op_sql_response (V := unit) [] (incoming (be4 op_response ++ body)) in
      fst r = Raise InternalError /\ arriving (snd r) = body).
Proof.
  split.
  - intros H.
    destruct (H op_exit (incoming (be4 op_exit))) as (s' & E); try done.
  - vm_compute. split; reflexivity.
Qed.

(** ** Successful responses *)


Lemma reads_runs s b s' :
  reads s b s' <->
  exists evs, runs s evs s' /\ sent_packets evs = [] /\ received_bytes evs = b.
Proof.
  split.
  - intros [A T D (evs & Tr & S & R)]. exists evs. split; [|done].
    constructor; try done. rewrite R. done.
  - intros (evs & [Tr A T D] & S & R). constructor; try done.
    + rewrite <- R. done.
    + exists evs. done.
Qed.

Lemma runs_refl s : runs s [] s.
Proof. constructor; try done. rewrite app_nil_r. done. Qed.

Lemma runs_trans s1 e1 s2 e2 s3 :
  runs s1 e1 s2 -> runs s2 e2 s3 -> runs s1 (e1 ++ e2) s3.
Proof.
  intros [T1 A1 M1 D1] [T2 A2 M2 D2]. constructor.
  - rewrite T2, T1, app_assoc. done.
  - rewrite A1, A2, received_bytes_app, app_assoc. done.
  - congruence.
  - congruence.
Qed.

Lemma sock_send_runs p s : runs s [Sent p] (log (Sent p) s).
Proof. constructor; done. Qed.

Lemma exchanges_app l1 l2 t1 t2 :
  exchanges l1 t1 -> exchanges l2 t2 -> exchanges (l1 ++ l2) (t1 ++ t2).
Proof.
  revert t1. induction l1 as [|[p r] l1 IH]; intros t1 H1 H2; cbn in *.
  - subst t1. done.
  - destruct H1 as (evs & t' & -> & S & R & H1).
    exists evs, (t' ++ t2).
    split; [cbn; rewrite <- app_assoc; done|].
    split; [done|]. split; [done|]. apply IH; done.
Qed.

Lemma exchanges_one p r evs :
  sent_packets evs = [] -> received_bytes evs = r ->
  exchanges [(p, r)] (Sent p :: evs).
Proof.
  intros S R. cbn. exists evs, []. rewrite app_nil_r. done.
Qed.

Lemma exchanges_sent l t : exchanges l t -> sent_packets t = map fst l.
Proof.
  revert t. induction l as [|[p r] l IH]; intros t H; cbn in *.
  - subst. done.
  - destruct H as (evs & t' & -> & S & R & H).
    change (Sent p :: evs ++ t') with ([Sent p] ++ evs ++ t').
    rewrite !sent_packets_app, S, (IH _ H). done.
Qed.

Lemma recv_channel_plain n s b rest :
  arriving s = b ++ rest -> len b = n ->
  exists s1, recv_channel n false s = (Ok b, s1)
             /\ reads s b s1 /\ arriving s1 = rest.
Proof.
  intros A Hb.
  destruct (recv_channel_ok n false s b [] rest A Hb eq_refl)
    as (s1 & E & R & A1).
  exists s1. rewrite app_nil_r in R. done.
Qed.

Section Responses.
Context {X : Externals}.

(** The status vector of a success, [isc_arg_gds, 0, isc_arg_end], parses
    to no code, SQL code 0 and the empty message. *)
Lemma parse_status_vector_success s rest :
  tags_ok ->
  arriving s = be4 isc_arg_gds ++ be4 0 ++ be4 isc_arg_end ++ rest ->
  exists s1, _parse_status_vector s = (Ok (∅, 0, ""%string), s1)
             /\ reads s (be4 isc_arg_gds ++ be4 0 ++ be4 isc_arg_end) s1
             /\ arriving s1 = rest.
Proof.
  intros Htags A.
  pose proof (tags_distinct Htags) as (G0 & _).
  unfold _parse_status_vector.
  edestruct (@recv_word) as (s1 & E & R1 & A1); [exact A|]. rewrite E. clear E.
  rewrite (tags_range _ Htags) by set_solver.
  assert (Hpend : (12 <= pending s)%nat).
  { pose proof (arriving_le_pending s) as Hle.
    rewrite A, !length_app, !length_be4 in Hle. lia. }
  cbn [sv_loop]. rewrite decide_False by done.
  unfold sv_item at 1. rewrite decide_True by done.
  edestruct (@recv_word) as (s2 & E & R2 & A2); [exact A1|].
  erewrite bind_ok; cycle 1.
  { rewrite E. rewrite bytes_to_bint_be4 by lia.
    rewrite decide_False by (intros Hne; apply Hne; reflexivity).
    reflexivity. }
  clear E.
  edestruct (@recv_word) as (s3 & E & R3 & A3); [exact A2|]. rewrite E. clear E.
  rewrite (tags_range _ Htags) by set_solver.
  destruct (pending s) as [|f]; [lia|].
  cbn [sv_loop]. rewrite decide_True by done.
  exists s3. split; [reflexivity|]. split; [|done].
  eapply reads_trans; [exact R1|]. eapply reads_trans; eassumption.
Qed.

Lemma slice_app_mid (a b c : bytes) i j :
  len a = i -> len b = j - i -> slice (a ++ b ++ c) i j = b.
Proof.
  intros Ha Hb. unfold slice, len in *.
  assert (E1 : Z.to_nat i = length a) by lia.
  assert (E2 : (Z.to_nat j - Z.to_nat i)%nat = length b) by lia.
  rewrite E2, E1, drop_app_length, take_app_length. done.
Qed.

Lemma slice_app_head (a c : bytes) j :
  len a = j -> slice (a ++ c) 0 j = a.
Proof.
  intros Ha. apply (slice_app_mid [] a c 0 j); [done|lia].
Qed.

(** The body of a successful [op_response] parses to its triple. *)
Lemma parse_op_response_ok s h oid buf rest :
  tags_ok -> wf_response (h, oid, buf) ->
  arriving s = response_body h oid buf ++ rest ->
  exists s1, _parse_op_response s = (Ok (h, oid, buf), s1)
             /\ reads s (response_body h oid buf) s1
             /\ arriving s1 = rest.
Proof.
  intros Htags (Hh & Ho & Hb) A. unfold response_body in *.
  pose proof (len_nonneg buf) as Hb0.
  rewrite <- !app_assoc in A.
  unfold _parse_op_response.
  destruct (recv_channel_plain 16 s (be4 h ++ oid ++ be4 (len buf))
              (buf ++ rep 0 (padding (len buf) true)
               ++ be4 isc_arg_gds ++ be4 0 ++ be4 isc_arg_end ++ rest))
    as (s1 & E & R1 & A1).
  { rewrite <- !app_assoc. exact A. }
  { rewrite !len_app. change (len (be4 ?x)) with 4. lia. }
  rewrite (bind_ok _ _ _ _ _ E). clear E.
  assert (E4 : slice (be4 h ++ oid ++ be4 (len buf)) 0 4 = be4 h)
    by (apply slice_app_head; done).
  assert (E12 : slice (be4 h ++ oid ++ be4 (len buf)) 4 12 = oid)
    by (apply slice_app_mid; [done|lia]).
  assert (Ed : drop 12 (be4 h ++ oid ++ be4 (len buf)) = be4 (len buf)).
  { rewrite app_assoc. apply drop_app_length'. rewrite length_app.
    unfold len in Ho. change (length (be4 h)) with 4%nat. lia. }
  rewrite E4, E12, Ed. rewrite !bytes_to_bint_be4 by lia.
  destruct (recv_channel_ok (len buf) true s1 buf
              (rep 0 (padding (len buf) true))
              (be4 isc_arg_gds ++ be4 0 ++ be4 isc_arg_end ++ rest))
    as (s2 & E & R2 & A2); [exact A1 | reflexivity | |].
  { apply len_rep. apply padding_range. }
  rewrite (bind_ok _ _ _ _ _ E). clear E.
  destruct (parse_status_vector_success s2 rest Htags A2) as (s3 & E & R3 & A3).
  rewrite (bind_ok _ _ _ _ _ E).
  rewrite decide_False by (intros [?|?]; done).
  exists s3. split; [reflexivity|]. split; [|done].
  rewrite !app_assoc. rewrite <- (app_assoc _ (be4 0)), <- (app_assoc _ (be4 isc_arg_gds)).
  eapply reads_trans; [|exact R3].
  rewrite <- !app_assoc. rewrite (app_assoc (be4 h)), (app_assoc _ (be4 (len buf))).
  eapply reads_trans; [|exact R2].
  rewrite <- !app_assoc. exact R1.
Qed.

(** [_op_response] on a successful response, after any number of
    keepalive frames. *)
Lemma op_response_ok s k r rest :
  tags_ok -> wf_response r ->
  arriving s = dummies k ++ ok_response r ++ rest ->
  exists s1, _op_response s = (Ok r, s1)
             /\ reads s (dummies k ++ ok_response r) s1
             /\ arriving s1 = rest.
Proof.
  intros Htags Hr A. destruct r as [[h oid] buf]. unfold ok_response in *.
  rewrite <- !app_assoc in A.
  destruct (read_opcode_skips k op_response _ s ltac:(done) ltac:(done) A)
    as (s1 & E & R1 & A1).
  unfold _op_response. rewrite (bind_ok _ _ _ _ _ E).
  rewrite bytes_to_bint_be4 by done.
  rewrite decide_False by (intros Hne; apply Hne; reflexivity).
  destruct (parse_op_response_ok s1 h oid buf rest Htags Hr A1)
    as (s2 & E2 & R2 & A2).
  exists s2. split; [exact E2|]. split; [|done].
  rewrite app_assoc. eapply reads_trans; eassumption.
Qed.

End Responses.

(** ** BLOB spill *)


Lemma op_create_blob2_sends th s :
  - 2 ^ 31 <= th < 2 ^ 31 ->
  _op_create_blob2 (Some th) s = (Ok tt, log (Sent (create_blob2_packet th)) s).
Proof.
  intros Hh. unfold _op_create_blob2. do 5 pack.
  unfold sock_send, get_buffer, new_Packer, create_blob2_packet.
  rewrite <- !app_assoc. reflexivity.
Qed.

Lemma op_close_blob_sends h s :
  - 2 ^ 31 <= h < 2 ^ 31 ->
  _op_close_blob (Some h) s = (Ok tt, log (Sent (close_blob_packet h)) s).
Proof.
  intros Hh. unfold _op_close_blob. do 2 pack.
  unfold sock_send, get_buffer, new_Packer, close_blob_packet.
  rewrite <- !app_assoc. reflexivity.
Qed.

Section SpillProofs.
Context {X : Externals}.

(** A packet sent, then its successful response read. *)
Lemma exchange_ok (op : M unit) pkt s r rest :
  (forall s0, op s0 = (Ok tt, log (Sent pkt) s0)) ->
  tags_ok -> wf_response r ->
  arriving s = ok_response r ++ rest ->
  exists s' evs, (op ;; _op_response) s = (Ok r, s')
                 /\ runs s evs s' /\ arriving s' = rest
                 /\ exchanges [(pkt, ok_response r)] evs.
Proof.
  intros Hop Htags Hr A.
  rewrite (bind_ok _ _ _ _ _ (Hop s)).
  destruct (op_response_ok (log (Sent pkt) s) 0 r rest Htags Hr A)
    as (s1 & E & R & A1).
  cbn [dummies replicate concat app] in R.
  apply reads_runs in R as (evs & Rn & S & Rb).
  exists s1, (Sent pkt :: evs). split; [exact E|].
  split; [|split; [exact A1|]].
  - apply (runs_trans s [Sent pkt] (log (Sent pkt) s) evs s1);
      [apply sock_send_runs | exact Rn].
  - apply exchanges_one; done.
Qed.

Lemma len_slice b i j :
  0 <= i -> i <= j -> len (slice b i j) = Z.max 0 (Z.min (j - i) (len b - i)).
Proof.
  intros Hi Hj. unfold slice, len. rewrite length_take, length_drop. lia.
Qed.

Lemma segments_from_props (b : bytes) :
  0 < BLOB_SEGMENT_SIZE ->
  forall fuel i,
    0 <= i -> (Z.to_nat (len b - i) <= fuel)%nat ->
    length (segments_from fuel b i)
    = Z.to_nat ((len b - i + BLOB_SEGMENT_SIZE - 1) / BLOB_SEGMENT_SIZE)
    /\ Forall (fun seg => 0 < len seg <= BLOB_SEGMENT_SIZE) (segments_from fuel b i)
    /\ concat (segments_from fuel b i) = drop (Z.to_nat i) b.
Proof.
  intros Hs. induction fuel as [|fuel IH]; intros i Hi Hf.
  - cbn [segments_from]. assert (len b - i <= 0) by lia.
    split; [|split; [constructor|]].
    + cbn [length]. symmetry. apply Z2Nat.nonpos.
      assert ((len b - i + BLOB_SEGMENT_SIZE - 1) / BLOB_SEGMENT_SIZE < 1)
        by (apply Z.div_lt_upper_bound; lia).
      lia.
    + cbn. symmetry. apply drop_ge. unfold len in *. lia.
  - cbn [segments_from]. destruct (decide (i < len b)) as [Hlt|Hge].
    + assert (H1 : 0 <= i + BLOB_SEGMENT_SIZE) by lia.
      assert (H2 : (Z.to_nat (len b - (i + BLOB_SEGMENT_SIZE)) <= fuel)%nat) by lia.
      destruct (IH (i + BLOB_SEGMENT_SIZE) H1 H2) as (Hc & Hb & Hcat).
      split; [|split].
      * cbn [length]. rewrite Hc.
        replace (len b - i + BLOB_SEGMENT_SIZE - 1)
          with ((len b - (i + BLOB_SEGMENT_SIZE) + BLOB_SEGMENT_SIZE - 1)
                + 1 * BLOB_SEGMENT_SIZE) by lia.
        rewrite Z.div_add by lia.
        assert (0 <= (len b - (i + BLOB_SEGMENT_SIZE) + BLOB_SEGMENT_SIZE - 1)
                     / BLOB_SEGMENT_SIZE) by (apply Z.div_pos; lia).
        lia.
      * constructor; [|exact Hb]. rewrite len_slice by lia. lia.
      * cbn [concat]. rewrite Hcat. unfold slice.
        set (k := (Z.to_nat (i + BLOB_SEGMENT_SIZE) - Z.to_nat i)%nat).
        replace (Z.to_nat (i + BLOB_SEGMENT_SIZE)) with (Z.to_nat i + k)%nat
          by (subst k; lia).
        rewrite <- drop_drop. apply take_drop.
    + split; [|split; [constructor|]].
      * cbn [length]. symmetry. apply Z2Nat.nonpos.
        assert ((len b - i + BLOB_SEGMENT_SIZE - 1) / BLOB_SEGMENT_SIZE < 1)
          by (apply Z.div_lt_upper_bound; lia).
        lia.
      * cbn. symmetry. apply drop_ge. unfold len in *. lia.
Qed.

(** The segments of [b]: [ceil(len(b) / BLOB_SEGMENT_SIZE)] of them, none
    empty, none longer than [BLOB_SEGMENT_SIZE], and together [b]. *)
Lemma segments_props (b : bytes) :
  0 < BLOB_SEGMENT_SIZE ->
  length (segments b)
  = Z.to_nat ((len b + BLOB_SEGMENT_SIZE - 1) / BLOB_SEGMENT_SIZE)
  /\ Forall (fun seg => 0 < len seg <= BLOB_SEGMENT_SIZE) (segments b)
  /\ concat (segments b) = b.
Proof.
  intros Hs.
  destruct (segments_from_props b Hs (length b) 0 ltac:(lia))
    as (Hc & Hb & Hcat).
  { unfold len. lia. }
  unfold segments. rewrite Z.sub_0_r in Hc. done.
Qed.

(** The loop of [_create_blob] when every segment is acknowledged. *)
Lemma put_segments_ok (b : bytes) (h : Z) :
  tags_ok -> 0 < BLOB_SEGMENT_SIZE -> - 2 ^ 31 <= h < 2 ^ 31 ->
  len b < 2 ^ 31 ->
  forall fuel i s rs rest,
    0 <= i -> (Z.to_nat (len b - i) <= fuel)%nat ->
    Forall wf_response rs ->
    length rs = length (segments_from fuel b i) ->
    arriving s = concat (map ok_response rs) ++ rest ->
    exists s' evs,
      put_segments fuel h b i s = (Ok tt, s')
      /\ runs s evs s' /\ arriving s' = rest
      /\ exchanges (zip (map (put_segment_packet h) (segments_from fuel b i))
                        (map ok_response rs)) evs.
Proof.
  intros Htags Hs Hh Hb.
  induction fuel as [|fuel IH]; intros i s rs rest Hi Hf Hrs Hlen A.
  - cbn [segments_from length] in *. destruct rs; [|done].
    cbn [put_segments]. rewrite decide_False by lia.
    exists s, []. cbn in *. split; [done|]. split; [apply runs_refl|]. done.
  - cbn [segments_from] in *. cbn [put_segments].
    destruct (decide (i < len b)) as [Hlt|Hge].
    + destruct rs as [|r rs]; [done|]. cbn [length map concat zip zip_with] in *.
      apply Forall_cons in Hrs as [Hr Hrs].
      rewrite <- app_assoc in A.
      pose (seg := slice b i (i + BLOB_SEGMENT_SIZE)).
      assert (Hseg : len seg < 2 ^ 31).
      { unfold seg. rewrite len_slice by lia. lia. }
      destruct (exchange_ok (_op_put_segment (Some h) seg)
                  (put_segment_packet h seg) s r _
                  (fun s0 => op_put_segment_sends h seg s0 Hh Hseg) Htags Hr A)
        as (s1 & e1 & E1 & R1 & A1 & X1).
      assert (H1 : 0 <= i + BLOB_SEGMENT_SIZE) by lia.
      assert (H2 : (Z.to_nat (len b - (i + BLOB_SEGMENT_SIZE)) <= fuel)%nat) by lia.
      assert (H3 : length rs = length (segments_from fuel b (i + BLOB_SEGMENT_SIZE)))
        by lia.
      destruct (IH (i + BLOB_SEGMENT_SIZE) s1 rs rest H1 H2 Hrs H3 A1)
        as (s2 & e2 & E2 & R2 & A2 & X2).
      exists s2, (e1 ++ e2). split.
      * fold seg. unfold bind in E1 |- *.
        destruct (_op_put_segment (Some h) seg s) as [[[]|e] s0]; [|done].
        rewrite E1. exact E2.
      * split; [eapply runs_trans; eassumption|]. split; [exact A2|].
        apply (exchanges_app [_] _ e1 e2); done.
    + cbn [length] in Hlen. destruct rs; [|done].
      exists s, []. cbn in *. split; [done|]. split; [apply runs_refl|]. done.
Qed.

End SpillProofs.

Lemma bind_assoc {A B C} (c : M A) (k : A -> M B) (k' : B -> M C) s :
  bind c (fun a => bind (k a) k') s = bind (bind c k) k' s.
Proof. unfold bind. destruct (c s) as [[a|e] s1]; reflexivity. Qed.

Section SpillTheorem.
Context {X : Externals}.

(** [_create_blob] when the server acknowledges every step. *)
Lemma create_blob_ok (s : session) (th : Z) (b : bytes)
    (bh : Z) (bid buf0 : bytes) (rs : list (Z * bytes * bytes))
    (rc : Z * bytes * bytes) (rest : bytes) :
  tags_ok -> 0 < BLOB_SEGMENT_SIZE ->
  - 2 ^ 31 <= th < 2 ^ 31 -> len b < 2 ^ 31 ->
  wf_response (bh, bid, buf0) -> Forall wf_response rs -> wf_response rc ->
  length rs = length (segments b) ->
  arriving s = ok_response (bh, bid, buf0) ++ concat (map ok_response rs)
               ++ ok_response rc ++ rest ->
  exists s' evs,
    _create_blob (Some th) b s = (Ok bid, s')
    /\ runs s evs s' /\ arriving s' = rest
    /\ exchanges
         ((create_blob2_packet th, ok_response (bh, bid, buf0))
          :: zip (map (put_segment_packet bh) (segments b)) (map ok_response rs)
          ++ [(close_blob_packet bh, ok_response rc)]) evs.
Proof.
  intros Htags Hs Hth Hb Hr0 Hrs Hrc Hlen A.
  assert (Hbh : - 2 ^ 31 <= bh < 2 ^ 31) by (destruct Hr0; done).
  unfold _create_blob.
  destruct (exchange_ok (_op_create_blob2 (Some th)) (create_blob2_packet th)
              s (bh, bid, buf0) _
              (fun s0 => op_create_blob2_sends th s0 Hth) Htags Hr0 A)
    as (s1 & e1 & E1 & R1 & A1 & X1).
  rewrite bind_assoc. rewrite (bind_ok _ _ _ _ _ E1).
  assert (H0 : (Z.to_nat (len b - 0) <= length b)%nat) by (unfold len; lia).
  destruct (put_segments_ok b bh Htags Hs Hbh Hb (length b) 0 s1 rs
              (ok_response rc ++ rest) ltac:(done) H0 Hrs Hlen A1)
    as (s2 & e2 & E2 & R2 & A2 & X2).
  rewrite (bind_ok _ _ _ _ _ E2).
  destruct (exchange_ok (_op_close_blob (Some bh)) (close_blob_packet bh)
              s2 rc rest
              (fun s0 => op_close_blob_sends bh s0 Hbh) Htags Hrc A2)
    as (s3 & e3 & E3 & R3 & A3 & X3).
  rewrite bind_assoc. rewrite (bind_ok _ _ _ _ _ E3).
  exists s3, (e1 ++ e2 ++ e3). split; [reflexivity|].
  split; [|split; [exact A3|]].
  - eapply runs_trans; [exact R1|]. eapply runs_trans; eassumption.
  - apply (exchanges_app [_] _ e1 (e2 ++ e3)); [exact X1|].
    apply exchanges_app; [exact X2 | exact X3].
Qed.

(** C3. A byte string longer than [MAX_CHAR_LENGTH], when the server
    acknowledges every step: the encoder sends one [create_blob2], then one
    [put_segment] for each of the [ceil(len(b) / BLOB_SEGMENT_SIZE)] segments
    of [b], none longer than [BLOB_SEGMENT_SIZE], then [close_blob], and
    reads the response to each packet before it sends the next; the BLR tag
    group is [[9, 0]] and the value bytes are the 8-byte id that the
    response to [create_blob2] carried. *)
Theorem blob_spill (s : session) (th : Z) (b blr values : bytes)
    (bh : Z) (bid buf0 : bytes) (rs : list (Z * bytes * bytes))
    (rc : Z * bytes * bytes) (rest : bytes)
    (Htags : tags_ok) (Hseg : 0 < BLOB_SEGMENT_SIZE)
    (Hth : - 2 ^ 31 <= th < 2 ^ 31) (Hb : len b < 2 ^ 31)
    (Hlong : len b > MAX_CHAR_LENGTH)
    (Hr0 : wf_response (bh, bid, buf0)) (Hrs : Forall wf_response rs)
    (Hrc : wf_response rc) (Hlen : length rs = length (segments b))
    (A : arriving s = ok_response (bh, bid, buf0) ++ concat (map ok_response rs)
                      ++ ok_response rc ++ rest) :
  length (segments b)
  = Z.to_nat ((len b + BLOB_SEGMENT_SIZE - 1) / BLOB_SEGMENT_SIZE)
  /\ Forall (fun seg => len seg <= BLOB_SEGMENT_SIZE) (segments b)
  /\ concat (segments b) = b
  /\ len bid = 8
  /\ exists s' evs,
       blr_param (Some th) (blr, values) (PBytes b) s
       = (Ok (blr ++ [9; 0] ++ [7; 0], values ++ bid ++ [0; 0; 0; 0]), s')
       /\ runs s evs s' /\ arriving s' = rest
       /\ exchanges
            ((create_blob2_packet th, ok_response (bh, bid, buf0))
             :: zip (map (put_segment_packet bh) (segments b))
                    (map ok_response rs)
             ++ [(close_blob_packet bh, ok_response rc)]) evs.
Proof.
  destruct (segments_props b Hseg) as (Hc & Hf & Hcat).
  split; [exact Hc|]. split.
  { eapply Forall_impl; [exact Hf|]. cbn. intros seg Hx. lia. }
  split; [exact Hcat|]. split; [destruct Hr0 as (_ & Ho & _); exact Ho|].
  destruct (create_blob_ok s th b bh bid buf0 rs rc rest
              Htags Hseg Hth Hb Hr0 Hrs Hrc Hlen A)
    as (s' & evs & E & R & A' & Xc).
  exists s', evs. split; [|done].
  unfold blr_param. rewrite decide_True by done.
  assert (Ei : (let* v := _create_blob (Some th) b in ret (v, blr ++ bs [9; 0])) s
               = (Ok (bid, blr ++ [9; 0]), s'))
    by (rewrite (bind_ok _ _ _ _ _ E); reflexivity).
  rewrite (bind_ok _ _ _ _ _ Ei).
  unfold ret, bs, rep. cbn. rewrite <- !app_assoc. reflexivity.
Qed.

End SpillTheorem.


Lemma tiny_tags_ok : tags_ok (X := tiny).
Proof.
  split.
  - apply (bool_decide_unpack _). vm_compute. reflexivity.
  - repeat constructor; cbv; discriminate.
Qed.

Lemma blob_spill_witness :
  exists s' evs,
    blr_param (X := tiny) (Some 1) ([], []) (PBytes [1; 2; 3; 4; 5; 6; 7])
      (incoming (ok_response (X := tiny) (5, [1; 2; 3; 4; 5; 6; 7; 8], [])
                 ++ concat (map (ok_response (X := tiny))
                              [(0, rep 0 8, []); (0, rep 0 8, []); (0, rep 0 8, [])])
                 ++ ok_response (X := tiny) (0, rep 0 8, []) ++ []))
    = (Ok ([] ++ [9; 0] ++ [7; 0], [] ++ [1; 2; 3; 4; 5; 6; 7; 8] ++ [0; 0; 0; 0]), s')
    /\ sent_packets evs
       = [create_blob2_packet 1;
          put_segment_packet 5 [1; 2; 3]; put_segment_packet 5 [4; 5; 6];
          put_segment_packet 5 [7]; close_blob_packet 5].
Proof.
  destruct (blob_spill (X := tiny)
              (incoming (ok_response (X := tiny) (5, [1; 2; 3; 4; 5; 6; 7; 8], [])
                 ++ concat (map (ok_response (X := tiny))
                              [(0, rep 0 8, []); (0, rep 0 8, []); (0, rep 0 8, [])])
                 ++ ok_response (X := tiny) (0, rep 0 8, []) ++ []))
              1 [1; 2; 3; 4; 5; 6; 7] [] []
              5 [1; 2; 3; 4; 5; 6; 7; 8] []
              [(0, rep 0 8, []); (0, rep 0 8, []); (0, rep 0 8, [])]
              (0, rep 0 8, []) [])
    as (_ & _ & _ & _ & s' & evs & E & _ & _ & Xc).
  - exact tiny_tags_ok.
  - reflexivity.
  - split; [discriminate | reflexivity].
  - reflexivity.
  - reflexivity.
  - split; [split; [discriminate | reflexivity] | split; reflexivity].
  - repeat constructor; discriminate.
  - split; [split; [discriminate | reflexivity] | split; reflexivity].
  - reflexivity.
  - reflexivity.
  - exists s', evs. split; [exact E|].
    apply exchanges_sent in Xc. exact Xc.
Defined.

(** ** The BLR encoder *)


Lemma land_255 x : Z.land x 255 = x mod 256.
Proof. change 255 with (Z.ones 8). rewrite Z.land_ones by lia. reflexivity. Qed.

Lemma shiftr_8 x : Z.shiftr x 8 = x / 256.
Proof. rewrite Z.shiftr_div_pow2 by lia. reflexivity. Qed.

Lemma digits_value_mantissa digits :
  digits_value (len digits) digits 0 0 = mantissa digits.
Proof.
  unfold mantissa.
  assert (H : forall ds ln i v acc,
             ln = i + len ds -> 0 <= i ->
             v = acc * 10 ^ len ds ->
             digits_value ln ds i v
             = fold_left (fun a d => 10 * a + d) ds acc).
  { induction ds as [|d ds IH]; intros ln i v acc Hln Hi Hv.
    - cbn. subst v. change (len []) with 0. rewrite Z.pow_0_r. lia.
    - cbn [digits_value fold_left].
      assert (El : len (d :: ds) = len ds + 1) by (unfold len; cbn [length]; lia).
      pose proof (len_nonneg ds).
      apply IH; [lia | lia |].
      subst v ln. rewrite El.
      replace (i + (len ds + 1) - i - 1) with (len ds) by lia.
      rewrite Z.pow_add_r by lia. lia. }
  apply H; [lia | lia | lia].
Qed.

Lemma recv_channel_len n al s r s' :
  0 <= n -> recv_channel n al s = (Ok r, s') -> len r = n.
Proof.
  intros Hn Hr.
  destruct (recv_channel_spec n al s Hn) as (s1 & _ & _ & _ & _ & E).
  cbv zeta in E. rewrite E in Hr. case_decide as Hlt; [done|].
  injection Hr as <- <-. unfold len in *. rewrite length_take. lia.
Qed.

Section Encoder.
Context {X : Externals}.

Lemma op_response_oid_len s h oid buf s' :
  _op_response s = (Ok (h, oid, buf), s') -> len oid = 8.
Proof.
  unfold _op_response. intros H.
  apply bind_inv_ok in H as (b & s1 & _ & H).
  destruct (decide (bytes_to_bint b <> op_response)); [done|].
  unfold _parse_op_response in H.
  apply bind_inv_ok in H as (b16 & s2 & Hb & H).
  apply bind_inv_ok in H as (bf & s3 & _ & H).
  apply bind_inv_ok in H as ([[g c] m] & s4 & _ & H).
  destruct (decide (c <> 0 \/ m <> ""%string)); [done|].
  injection H as _ <- _ _.
  apply recv_channel_len in Hb; [|lia].
  rewrite len_slice by lia. lia.
Qed.

(** The id [_create_blob] returns has 8 bytes. *)
Lemma create_blob_id_len th b s v s' :
  _create_blob th b s = (Ok v, s') -> len v = 8.
Proof.
  unfold _create_blob. intros H.
  apply bind_inv_ok in H as ([] & s1 & _ & H).
  apply bind_inv_ok in H as ([[h oid] buf] & s2 & Hr & H).
  apply bind_inv_ok in H as ([] & s3 & _ & H).
  apply bind_inv_ok in H as ([] & s4 & _ & H).
  apply bind_inv_ok in H as (r & s5 & _ & H).
  injection H as <- _. eapply op_response_oid_len. exact Hr.
Qed.

Lemma zero_padded_eq v : v ++ rep 0 (Z.land (4 - len v) 3) = zero_padded v.
Proof. unfold zero_padded. rewrite land_3. reflexivity. Qed.

Lemma bs_checked_ok (l : list Z) (s : session) :
  Forall (fun x => 0 <= x < 256) l -> bs_checked l s = (Ok l, s).
Proof. intros H. unfold bs_checked. rewrite decide_True by exact H. reflexivity. Qed.

Lemma bs_checked_raises (l : list Z) (s : session) :
  ~ Forall (fun x => 0 <= x < 256) l -> bs_checked l s = (Raise ValueError, s).
Proof. intros H. unfold bs_checked. rewrite decide_False by exact H. reflexivity. Qed.

(** The tag of a string whose length goes into two bytes. *)
Lemma tag14_ok (n : Z) :
  0 <= n < 65536 ->
  Forall (fun x => 0 <= x < 256) [14; Z.land n 255; Z.shiftr n 8].
Proof.
  intros Hn. rewrite land_255, shiftr_8.
  pose proof (Z.mod_pos_bound n 256 ltac:(lia)).
  assert (0 <= n / 256 < 256).
  { split; [apply Z.div_pos; lia | apply Z.div_lt_upper_bound; lia]. }
  repeat constructor; lia.
Qed.

(** One turn of the loop on a parameter that is encodable and does not
    spill: no I/O. *)
Lemma blr_param_pure th blr values p s :
  param_ok p -> spills p = false ->
  blr_param th (blr, values) p s
  = (Ok (blr ++ tag_group p ++ [7; 0],
         values ++ value_bytes p ++ null_indicator p), s).
Proof.
  intros Hok Hp. unfold blr_param.
  destruct p; cbn [param_ok] in Hok;
    cbn [tag_group value_bytes null_indicator string_form default from_option id];
    try contradiction.
  - (* text *)
    specialize (Hok Hp). cbn [string_form default from_option id] in Hok.
    unfold spills in Hp; cbn [string_form] in Hp.
    apply bool_decide_eq_false in Hp.
    rewrite decide_False by exact Hp.
    unfold spills; cbn [string_form].
    rewrite bool_decide_eq_false_2 by exact Hp.
    pose proof (len_nonneg (str_to_bytes s0)).
    unfold bind. rewrite bs_checked_ok by (apply tag14_ok; lia).
    unfold ret, bs.
    rewrite land_255, shiftr_8, zero_padded_eq, <- ?app_assoc. reflexivity.
  - (* bytes *)
    specialize (Hok Hp). cbn [string_form default from_option id] in Hok.
    unfold spills in Hp; cbn [string_form] in Hp.
    apply bool_decide_eq_false in Hp.
    rewrite decide_False by exact Hp.
    unfold spills; cbn [string_form].
    rewrite bool_decide_eq_false_2 by exact Hp.
    pose proof (len_nonneg b).
    unfold bind. rewrite bs_checked_ok by (apply tag14_ok; lia).
    unfold ret, bs.
    rewrite land_255, shiftr_8, zero_padded_eq, <- ?app_assoc. reflexivity.
  - unfold bind, ret, bs. rewrite <- ?app_assoc. reflexivity.
  - unfold bind, ret, bs. rewrite <- ?app_assoc. reflexivity.
  - (* decimal *)
    destruct Hok as (He & _ & _).
    unfold bind.
    rewrite bs_checked_ok
      by (repeat constructor; try lia; case_decide; lia).
    unfold ret, bs. rewrite digits_value_mantissa, <- ?app_assoc.
    destruct sign; [|reflexivity].
    replace (mantissa digits * -1) with (- mantissa digits) by lia. reflexivity.
  - unfold bind, ret, bs. rewrite <- ?app_assoc. reflexivity.
  - unfold bind, ret, bs. rewrite <- ?app_assoc. reflexivity.
  - unfold bind, ret, bs. rewrite <- ?app_assoc. reflexivity.
  - unfold bind, ret, bs. rewrite <- ?app_assoc. reflexivity.
  - (* None *)
    unfold bind.
    rewrite bs_checked_ok by (apply tag14_ok; split; [discriminate | reflexivity]).
    unfold ret, bs. rewrite <- ?app_assoc. reflexivity.
  - (* other *)
    pose proof (len_nonneg (str_to_bytes repr)).
    unfold bind. rewrite bs_checked_ok by (apply tag14_ok; lia).
    unfold ret, bs.
    rewrite land_255, shiftr_8, zero_padded_eq, <- ?app_assoc. reflexivity.
Qed.

(** A decimal or float that is not a finite number: the comparison of its
    exponent with 0 raises [TypeError], before any I/O of this turn. *)
Lemma blr_param_non_finite th blr values sign digits s :
  blr_param th (blr, values) (PNonFinite sign digits) s = (Raise TypeError, s).
Proof. reflexivity. Qed.

(** One turn of the loop on an encodable parameter, whenever it returns. *)
Lemma blr_param_shape th blr values p s blr1 values1 s' :
  param_ok p ->
  blr_param th (blr, values) p s = (Ok (blr1, values1), s') ->
  exists v,
    (if spills p then len v = 8 else v = value_bytes p)
    /\ blr1 = blr ++ tag_group p ++ [7; 0]
    /\ values1 = values ++ v ++ null_indicator p.
Proof.
  intros Hok H. destruct (spills p) eqn:Hp.
  - assert (Hb : exists b, string_form p = Some b /\ len b > MAX_CHAR_LENGTH).
    { unfold spills in Hp. destruct (string_form p) as [b|]; [|done].
      apply bool_decide_eq_true in Hp. eauto. }
    destruct Hb as (b & Hf & Hlong).
    assert (Ht : tag_group p = [9; 0]).
    { destruct p; try done; cbn [tag_group]; rewrite Hp; reflexivity. }
    assert (Hn : null_indicator p = [0; 0; 0; 0]) by (destruct p; done).
    assert (E : blr_param th (blr, values) p s
                = blr_param th (blr, values) (PBytes b) s).
    { destruct p; try done; cbn in Hf; injection Hf as <-; reflexivity. }
    rewrite E in H. unfold blr_param in H.
    rewrite decide_True in H by done.
    apply bind_inv_ok in H as ([v blr'] & s1 & H1 & H).
    apply bind_inv_ok in H1 as (v' & s2 & Hc & H1).
    injection H1 as <- <- _. injection H as <- <- _.
    exists v'. split; [eapply create_blob_id_len; exact Hc|].
    rewrite Ht, Hn. unfold bs, rep. cbn. rewrite <- !app_assoc. done.
  - rewrite (blr_param_pure _ _ _ _ _ Hok Hp) in H. injection H as <- <- _.
    exists (value_bytes p). done.
Qed.

End Encoder.

Section EncoderTheorem.
Context {X : Externals}.

Lemma blr_params_shape th params : forall blr0 v0 s blr values s',
  Forall param_ok params ->
  blr_params th params (blr0, v0) s = (Ok (blr, values), s') ->
  exists vs,
    Forall2 (fun p v => if spills p then len v = 8 else v = value_bytes p)
      params vs
    /\ blr = blr0 ++ concat (map (fun p => tag_group p ++ [7; 0]) params)
    /\ values = v0 ++ concat (zip_with (fun p v => v ++ null_indicator p)
                                params vs).
Proof.
  induction params as [|p params IH]; intros blr0 v0 s blr values s' Hok H.
  - cbn in H. injection H as <- <- _. exists []. cbn.
    rewrite !app_nil_r. split; [constructor|done].
  - apply Forall_cons in Hok as [Hp0 Hok].
    cbn [blr_params] in H.
    apply bind_inv_ok in H as ([blr1 v1] & s1 & Hp & H).
    apply (blr_param_shape _ _ _ _ _ _ _ _ Hp0) in Hp as (v & Hv & -> & ->).
    apply (IH _ _ _ _ _ _ Hok) in H as (vs & Hvs & -> & ->).
    exists (v :: vs). split; [constructor; done|].
    cbn [map concat zip_with]. rewrite <- !app_assoc. done.
Qed.

Lemma blr_params_pure th params : forall blr0 v0 s,
  Forall param_ok params ->
  Forall (fun p => spills p = false) params ->
  blr_params th params (blr0, v0) s
  = (Ok (blr0 ++ concat (map (fun p => tag_group p ++ [7; 0]) params),
         v0 ++ concat (map (fun p => value_bytes p ++ null_indicator p) params)),
     s).
Proof.
  induction params as [|p params IH]; intros blr0 v0 s Hok Hf.
  - cbn. rewrite !app_nil_r. reflexivity.
  - apply Forall_cons in Hf as [Hp Hf]. apply Forall_cons in Hok as [Hp0 Hok].
    cbn [blr_params].
    rewrite (bind_ok _ _ _ _ _ (blr_param_pure th blr0 v0 p s Hp0 Hp)).
    rewrite (IH _ _ _ Hok Hf). cbn [map concat]. rewrite <- !app_assoc.
    reflexivity.
Qed.

(** The prelude of the descriptor, for a count that goes into two bytes. *)
Lemma blr_prelude_ok (params : list param) (s : session) :
  len params < 32768 ->
  bs_checked [5; 2; 4; 0; Z.land (len params * 2) 255;
              Z.shiftr (len params * 2) 8] s
  = (Ok (blr_prelude (len params)), s).
Proof.
  intros Hn. pose proof (len_nonneg params) as H0.
  rewrite bs_checked_ok.
  - unfold blr_prelude. rewrite land_255, shiftr_8.
    replace (len params * 2) with (2 * len params) by lia. reflexivity.
  - rewrite land_255, shiftr_8.
    pose proof (Z.mod_pos_bound (len params * 2) 256 ltac:(lia)).
    assert (0 <= len params * 2 / 256 < 256).
    { split; [apply Z.div_pos; lia | apply Z.div_lt_upper_bound; lia]. }
    repeat constructor; lia.
Qed.

Lemma blr_prelude_raises (params : list param) (s : session) :
  32768 <= len params ->
  bs_checked [5; 2; 4; 0; Z.land (len params * 2) 255;
              Z.shiftr (len params * 2) 8] s
  = (Raise ValueError, s).
Proof.
  intros Hn. apply bs_checked_raises. intros H.
  do 5 apply Forall_cons in H as [_ H]. apply Forall_cons in H as [H _].
  rewrite shiftr_8 in H.
  assert (256 <= len params * 2 / 256) by (apply Z.div_le_lower_bound; lia).
  lia.
Qed.

(** C1, as the code has it.  For a list of fewer than 32768 encodable
    parameters: whenever [params_to_blr] returns, the descriptor is the
    prelude [[5, 2, 4, 0, (2n) mod 256, (2n) div 256]], then for each
    parameter its variant's tag group followed by [[7, 0]], then
    [[255, 76]]; the value buffer holds for each parameter its value bytes
    (the 8-byte BLOB id for a byte string that spills) followed by the null
    indicator, [0x00000000] for a present value and [0xFFFFFFFF] for null;
    when no parameter spills, [params_to_blr] returns, and does no I/O.
    For 32768 parameters or more it raises [ValueError], the count not
    fitting its two bytes.  Null has the tag [[14, 0, 0]] and no value
    bytes. *)
Theorem params_to_blr_shape (th : option Z) (params : list param) (s : session) :
  (len params < 32768 -> Forall param_ok params ->
   (forall blr values s',
      params_to_blr th params s = (Ok (blr, values), s') ->
      exists vs,
        Forall2 (fun p v => if spills p then len v = 8 else v = value_bytes p)
          params vs
        /\ blr = [5; 2; 4; 0; (2 * len params) mod 256; (2 * len params) / 256]
                 ++ concat (map (fun p => tag_group p ++ [7; 0]) params)
                 ++ [255; 76]
        /\ values = concat (zip_with (fun p v => v ++ null_indicator p)
                              params vs))
   /\ (Forall (fun p => spills p = false) params ->
       params_to_blr th params s
       = (Ok (blr_descriptor params,
              concat (map (fun p => value_bytes p ++ null_indicator p) params)),
          s)))
  /\ (32768 <= len params -> params_to_blr th params s = (Raise ValueError, s))
  /\ tag_group PNone = [14; 0; 0] /\ value_bytes PNone = []
  /\ null_indicator PNone = [255; 255; 255; 255]
  /\ (forall p, p <> PNone -> null_indicator p = [0; 0; 0; 0]).
Proof.
  split; [|split; [|split; [done|split; [done|split; [done|]]]]].
  - intros Hn Hok. split.
    + intros blr values s' H. unfold params_to_blr in H.
      rewrite (bind_ok _ _ _ _ _ (blr_prelude_ok params s Hn)) in H.
      apply bind_inv_ok in H as ([blr1 v1] & s1 & Hp & H).
      injection H as <- <- _.
      apply (blr_params_shape _ _ _ _ _ _ _ _ Hok) in Hp as (vs & Hvs & -> & ->).
      exists vs. split; [done|]. unfold blr_prelude, bs. cbn [app].
      rewrite <- ?app_assoc. done.
    + intros Hf. unfold params_to_blr.
      rewrite (bind_ok _ _ _ _ _ (blr_prelude_ok params s Hn)).
      rewrite (bind_ok _ _ _ _ _ (blr_params_pure th params _ _ s Hok Hf)).
      unfold blr_descriptor, bs. cbn [app].
      rewrite <- ?app_assoc. reflexivity.
  - intros Hn. unfold params_to_blr.
    rewrite (bind_raise _ _ _ _ _ (blr_prelude_raises params s Hn)). reflexivity.
  - intros p Hp. destruct p; done.
Qed.

End EncoderTheorem.

Lemma params_to_blr_shape_witness :
  params_to_blr (X := firebird) (Some 1)
    [PInt 42; PText "hi"; PNone; PDate (mkdate 2020 1 1)] (incoming [])
  = (Ok ([5; 2; 4; 0; 8; 0;
          8; 0; 7; 0; 14; 2; 0; 7; 0; 14; 0; 0; 7; 0; 12; 7; 0; 255; 76],
         [0; 0; 0; 42; 0; 0; 0; 0; 104; 105; 0; 0; 0; 0; 0; 0;
          255; 255; 255; 255; 0; 0; 229; 225; 0; 0; 0; 0]),
     incoming []).
Proof.
  destruct (params_to_blr_shape (X := firebird) (Some 1)
              [PInt 42; PText "hi"; PNone; PDate (mkdate 2020 1 1)]
              (incoming [])) as (H & _).
  destruct H as (_ & H).
  - reflexivity.
  - repeat constructor; cbn; try lia; intros _; cbn; lia.
  - exact (H ltac:(repeat constructor)).
Defined.

(** C1 as the specification states it fails: "for every list of parameter
    values" includes the float [1e-300], whose exponent does not fit the
    byte the descriptor has for it; [params_to_blr] raises [ValueError] and
    returns no descriptor. *)
Lemma params_to_blr_shape_counterexample :
  params_to_blr (X := firebird) (Some 1) [PDecimal false [1] (-300)] (incoming [])
  = (Raise ValueError, incoming [])
  /\ ~ (forall params : list param,
         exists blr values s',
           params_to_blr (X := firebird) (Some 1) params (incoming [])
           = (Ok (blr, values), s')).
Proof.
  assert (E : params_to_blr (X := firebird) (Some 1) [PDecimal false [1] (-300)]
                (incoming [])
              = (Raise ValueError, incoming [])).
  { vm_compute. reflexivity. }
  split; [exact E|].
  intros H. destruct (H [PDecimal false [1] (-300)]) as (blr & values & s' & E').
  rewrite E in E'. discriminate E'.
Qed.

(** ** Fetch responses *)


Section FetchProofs.
Context {V : Type}.

Lemma fetch_columns_ok (xs : list (xsqlvar V)) : forall cs done s rest,
  Forall2 wf_cell xs cs ->
  arriving s = enc_cells xs cs ++ rest ->
  exists s',
    fetch_columns xs (length done) (done ++ replicate (length xs) None) s
    = (Ok (done ++ zip_with dec_cell xs cs), s')
    /\ reads s (enc_cells xs cs) s' /\ arriving s' = rest.
Proof.
  induction xs as [|x xs IH]; intros cs done s rest Hwf A.
  - apply Forall2_nil_inv_l in Hwf as ->. cbn in *.
    exists s. split; [done|]. split; [apply reads_refl|done].
  - apply Forall2_cons_inv_l in Hwf as (c & cs' & (Hfix & Hlt & Hpad & Hind) & Hwf & ->).
    unfold enc_cells in A. cbn [zip_with concat] in A.
    unfold enc_cell in A. rewrite <- !app_assoc in A.
    pose proof (len_nonneg (cell_raw c)) as Hr0.
    cbn [fetch_columns].
    (* the length word, when the column is of variable length *)
    assert (Hln : exists s1,
               (if decide (io_length x < 0)
                then let* b := recv_channel 4 false in ret (bytes_to_bint b)
                else ret (io_length x)) s
               = (Ok (len (cell_raw c)), s1)
               /\ reads s (if decide (io_length x < 0)
                           then be4 (len (cell_raw c)) else []) s1
               /\ arriving s1 = cell_raw c ++ cell_pad c ++ cell_ind c
                                ++ concat (zip_with enc_cell xs cs') ++ rest).
    { destruct (decide (io_length x < 0)) as [Hneg|Hpos].
      - destruct (recv_channel_plain 4 s _ _ A eq_refl) as (s1 & E & R & A1).
        exists s1. rewrite (bind_ok _ _ _ _ _ E).
        rewrite bytes_to_bint_be4 by lia. done.
      - exists s. rewrite Hfix by lia. split; [done|].
        split; [apply reads_refl|exact A]. }
    destruct Hln as (s1 & E1 & R1 & A1).
    rewrite (bind_ok _ _ _ _ _ E1).
    destruct (recv_channel_ok (len (cell_raw c)) true s1 (cell_raw c)
                (cell_pad c) _ A1 eq_refl Hpad) as (s2 & E2 & R2 & A2).
    rewrite (bind_ok _ _ _ _ _ E2).
    destruct (recv_channel_plain 4 s2 (cell_ind c) _ A2 Hind) as (s3 & E3 & R3 & A3).
    rewrite (bind_ok _ _ _ _ _ E3).
    assert (Er : (if decide (cell_ind c = rep 0 4)
                  then <[length done := Some (value x (cell_raw c))]>
                         (done ++ replicate (length (x :: xs)) None)
                  else done ++ replicate (length (x :: xs)) None)
                 = (done ++ [dec_cell x c]) ++ replicate (length xs) None).
    { unfold dec_cell. change (rep 0 4) with [0; 0; 0; 0].
      rewrite <- app_assoc. cbn [length replicate app].
      destruct (decide (cell_ind c = [0; 0; 0; 0])); [|done].
      replace (length done) with (length done + 0)%nat at 1 by lia.
      rewrite insert_app_r. done. }
    rewrite Er.
    replace (S (length done)) with (length (done ++ [dec_cell x c]))
      by (rewrite length_app; cbn; lia).
    destruct (IH cs' (done ++ [dec_cell x c]) s3 rest Hwf A3)
      as (s4 & E4 & R4 & A4).
    exists s4. split.
    { rewrite E4. cbn [zip_with]. rewrite <- app_assoc. done. }
    split; [|exact A4].
    unfold enc_cells. cbn [zip_with concat]. unfold enc_cell at 1.
    rewrite <- !app_assoc.
    eapply reads_trans; [exact R1|].
    rewrite (app_assoc (cell_raw c)).
    eapply reads_trans; [exact R2|].
    eapply reads_trans; [exact R3|exact R4].
Qed.

Lemma length_enc_wire_row (xs : list (xsqlvar V)) r :
  (12 <= length (enc_wire_row xs r))%nat.
Proof.
  unfold enc_wire_row. rewrite !length_app, !length_be4. lia.
Qed.

Lemma fetch_rows_ok (xs : list (xsqlvar V)) : forall rows fuel status count acc s rest,
  (length rows < fuel)%nat ->
  chained count rows -> Forall (wf_wire_row xs) rows ->
  arriving s = concat (map (enc_wire_row xs) rows) ++ rest ->
  exists s',
    fetch_rows fuel xs status count acc s
    = (Ok (acc ++ map (dec_row xs) rows,
           bool_decide (final_status status rows <> 100)), s')
    /\ reads s (concat (map (enc_wire_row xs) rows)) s'
    /\ arriving s' = rest.
Proof.
  induction rows as [|r rows IH]; intros fuel status count acc s rest Hf Hc Hwf A.
  - cbn in Hc. subst count. destruct fuel as [|fuel]; [lia|].
    cbn [fetch_rows]. rewrite decide_True by done. cbn in *.
    rewrite app_nil_r. exists s. split; [done|]. split; [apply reads_refl|done].
  - destruct Hc as [Hne Hc]. apply Forall_cons in Hwf as [(Hcs & Ho & Hs & Hn) Hwf].
    destruct fuel as [|fuel]; [cbn in Hf; lia|].
    cbn [fetch_rows]. rewrite decide_False by done.
    cbn [map concat] in A. unfold enc_wire_row at 1 in A.
    rewrite <- !app_assoc in A.
    destruct (fetch_columns_ok xs (row_cells r) [] s _ Hcs A)
      as (s1 & E1 & R1 & A1).
    cbn [length app] in E1. rewrite (bind_ok _ _ _ _ _ E1).
    destruct (recv_channel_plain 12 s1
                (be4 (row_op r) ++ be4 (row_status r) ++ be4 (row_count r))
                (concat (map (enc_wire_row xs) rows) ++ rest))
      as (s2 & E2 & R2 & A2).
    { rewrite <- !app_assoc. exact A1. }
    { reflexivity. }
    rewrite (bind_ok _ _ _ _ _ E2).
    assert (E48 : slice (be4 (row_op r) ++ be4 (row_status r) ++ be4 (row_count r)) 4 8
                  = be4 (row_status r)) by (apply slice_app_mid; done).
    assert (Ed : drop 8 (be4 (row_op r) ++ be4 (row_status r) ++ be4 (row_count r))
                 = be4 (row_count r)) by reflexivity.
    rewrite E48, Ed. rewrite !bytes_to_bint_be4 by done.
    destruct (IH fuel (row_status r) (row_count r)
                (acc ++ [zip_with dec_cell xs (row_cells r)]) s2 rest
                ltac:(cbn in Hf; lia) Hc Hwf A2) as (s3 & E3 & R3 & A3).
    exists s3. split.
    { rewrite E3. cbn [map final_status fold_left]. rewrite <- app_assoc. done. }
    split; [|exact A3].
    cbn [map concat]. unfold enc_wire_row at 1. rewrite <- !app_assoc.
    eapply reads_trans; [exact R1|].
    rewrite (app_assoc (be4 (row_op r))), (app_assoc _ (be4 (row_count r))).
    rewrite <- (app_assoc (be4 (row_op r))).
    eapply reads_trans; [exact R2|exact R3].
Qed.

End FetchProofs.

Section FetchTheorem.
Context {X : Externals} {V : Type}.

(** C2. An [op_fetch_response] payload laid out against the column
    descriptors: after the opcode come a 4-byte status and a 4-byte row
    count; while the count is not zero comes a row, for each descriptor [x]
    a 4-byte length word when [x.io_length < 0] (the length is
    [x.io_length] otherwise), that many bytes padded to a word boundary and
    a 4-byte null indicator, all zero for a present value, and after the row
    a 12-byte trailer with the next opcode, status and count.  The reader
    consumes exactly this payload and returns the decoded rows with
    [more_rows] equal to [final status <> 100]. *)
Theorem op_fetch_response_decodes (s : session) (k : nat)
    (stmt_handle : option Z) (xsqlda : list (xsqlvar V))
    (status count : Z) (rows : list wire_row) (rest : bytes)
    (Hstatus : - 2 ^ 31 <= status < 2 ^ 31)
    (Hcount : - 2 ^ 31 <= count < 2 ^ 31)
    (Hchain : chained count rows)
    (Hrows : Forall (wf_wire_row xsqlda) rows)
    (A : arriving s = dummies k ++ be4 op_fetch_response
                      ++ be4 status ++ be4 count
                      ++ concat (map (enc_wire_row xsqlda) rows) ++ rest) :
  exists s',
    _op_fetch_response stmt_handle xsqlda s
    = (Ok (Payload (map (dec_row xsqlda) rows,
                    bool_decide (final_status status rows <> 100))), s')
    /\ reads s (dummies k ++ be4 op_fetch_response ++ be4 status ++ be4 count
                ++ concat (map (enc_wire_row xsqlda) rows)) s'
    /\ arriving s' = rest.
Proof.
  destruct (read_opcode_skips k op_fetch_response _ s ltac:(done) ltac:(done) A)
    as (s1 & E1 & R1 & A1).
  unfold _op_fetch_response. rewrite (bind_ok _ _ _ _ _ E1).
  rewrite bytes_to_bint_be4 by done.
  rewrite decide_False by done.
  rewrite decide_False by (intros Hne; apply Hne; reflexivity).
  destruct (recv_channel_plain 8 s1 (be4 status ++ be4 count)
              (concat (map (enc_wire_row xsqlda) rows) ++ rest))
    as (s2 & E2 & R2 & A2).
  { rewrite <- !app_assoc. exact A1. }
  { reflexivity. }
  rewrite (bind_ok _ _ _ _ _ E2).
  assert (E04 : slice (be4 status ++ be4 count) 0 4 = be4 status) by reflexivity.
  assert (E48 : slice (be4 status ++ be4 count) 4 8 = be4 count) by reflexivity.
  rewrite E04, E48. rewrite !bytes_to_bint_be4 by done.
  assert (Hfuel : (length rows < S (pending s2))%nat).
  { pose proof (arriving_le_pending s2) as Hle. rewrite A2 in Hle.
    rewrite length_app in Hle.
    assert (Hl : (length rows <= length (concat (map (enc_wire_row xsqlda) rows)))%nat).
    { clear. induction rows as [|r rows IH]; [done|].
      cbn [map concat length]. rewrite length_app.
      pose proof (length_enc_wire_row xsqlda r). lia. }
    lia. }
  destruct (fetch_rows_ok xsqlda rows (S (pending s2)) status count [] s2 rest
              Hfuel Hchain Hrows A2) as (s3 & E3 & R3 & A3).
  exists s3. split.
  { rewrite (bind_ok _ _ _ _ _ E3). reflexivity. }
  split; [|exact A3].
  rewrite (app_assoc (dummies k)), (app_assoc _ (be4 status)).
  rewrite (app_assoc _ (be4 count)), <- (app_assoc _ (be4 status)).
  eapply reads_trans; [|exact R3].
  eapply reads_trans; [exact R1|exact R2].
Qed.

End FetchTheorem.

Lemma op_fetch_response_decodes_witness :
  exists s',
    _op_fetch_response (X := firebird) None [mkxsqlvar (-1) string_of_latin1]
      (incoming (dummies 0 ++ be4 op_fetch_response ++ be4 0 ++ be4 1
                 ++ concat (map (enc_wire_row [mkxsqlvar (-1) string_of_latin1])
                              [mkwire_row [mkcell [97; 98; 99] [0] [0; 0; 0; 0]]
                                 op_fetch_response 100 0])
                 ++ []))
    = (Ok (Payload ([[Some "abc"%string]], false)), s').
Proof.
  destruct (op_fetch_response_decodes (X := firebird)
              (incoming (dummies 0 ++ be4 op_fetch_response ++ be4 0 ++ be4 1
                 ++ concat (map (enc_wire_row [mkxsqlvar (-1) string_of_latin1])
                              [mkwire_row [mkcell [97; 98; 99] [0] [0; 0; 0; 0]]
                                 op_fetch_response 100 0])
                 ++ []))
              0 None [mkxsqlvar (-1) string_of_latin1] 0 1
              [mkwire_row [mkcell [97; 98; 99] [0] [0; 0; 0; 0]]
                 op_fetch_response 100 0] [])
    as (s' & E & _).
  - split; [discriminate | reflexivity].
  - split; [discriminate | reflexivity].
  - split; [discriminate | reflexivity].
  - constructor; [|constructor].
    split; [|split; [|split]]; try (split; [discriminate | reflexivity]).
    constructor; [|constructor].
    split; [intros H; cbn in H; lia|]. split; [reflexivity|].
    split; reflexivity.
  - reflexivity.
  - exists s'. exact E.
Defined.

(** * Further properties of the engine *)

(** ** Status vectors that carry an error *)


Section ErrorVectors.
Context {X : Externals}.

Lemma length_enc_arg a : wf_arg a -> (8 <= length (enc_arg a))%nat.
Proof.
  destruct a as [n|tag body pad]; intros _; cbn [enc_arg];
    rewrite !length_app, !length_be4; lia.
Qed.

(** The arguments of a gds code, read one after the other up to the end
    of the vector. *)
Lemma sv_next_args (Htags : tags_ok) : forall args fuel l s rest g k,
  (length args < fuel)%nat ->
  gds_code l = Some g -> num_arg l = Some k ->
  Forall wf_arg args ->
  arriving s = concat (map enc_arg args) ++ be4 isc_arg_end ++ rest ->
  exists s',
    sv_next fuel l s
    = (Ok (gds_codes l,
           (if decide (g = 335544436) then last_number args (sql_code l)
            else sql_code l),
           substitute (message l) k (map arg_text args)), s')
    /\ reads s (concat (map enc_arg args) ++ be4 isc_arg_end) s'
    /\ arriving s' = rest.
Proof.
  pose proof (tags_distinct Htags)
    as (G0 & S0 & N0 & I0 & Q0 & SG & NG & IG & QG & SN & IN & QN).
  induction args as [|a args IH]; intros fuel l s rest g k Hf Hg Hk Hwf A.
  - cbn [map concat app] in *. unfold sv_next.
    destruct (recv_channel_plain 4 s _ _ A eq_refl) as (s1 & E & R & A1).
    rewrite (bind_ok _ _ _ _ _ E). rewrite (tags_range _ Htags) by set_solver.
    destruct fuel as [|fuel]; [lia|]. cbn [sv_loop].
    rewrite decide_True by done. exists s1. split; [|done].
    cbn. destruct (decide (g = 335544436)); done.
  - apply Forall_cons in Hwf as [Ha Hwf].
    destruct fuel as [|fuel]; [cbn in Hf; lia|].
    cbn [map concat] in A. rewrite <- app_assoc in A.
    assert (Hf' : (length args < fuel)%nat) by (cbn in Hf; lia).
    destruct a as [n|tag body pad].
    + cbn [enc_arg] in A. rewrite <- !app_assoc in A.
      unfold sv_next.
      destruct (recv_channel_plain 4 s _ _ A eq_refl) as (s1 & E1 & R1 & A1).
      rewrite (bind_ok _ _ _ _ _ E1). rewrite (tags_range _ Htags) by set_solver.
      cbn [sv_loop]. rewrite decide_False by done.
      unfold sv_item. rewrite decide_False by done. rewrite decide_True by done.
      destruct (recv_channel_plain 4 s1 _ _ A1 eq_refl) as (s2 & E2 & R2 & A2).
      cbn [wf_arg] in Ha.
      set (l2 := mklocals (if decide (g = 335544436) then n else sql_code l)
                   (gds_codes l)
                   (replace ("@" ++ str_of_Z (k + 1)) (str_of_Z n) (message l))
                   (Some g) (Some (k + 1))).
      assert (Ei : (let* b := recv_channel 4 false in
                    let num := bytes_to_bint b in
                    let* g0 := load (gds_code l) in
                    let sql_code0 := if decide (g0 = 335544436) then num else sql_code l in
                    let* a := load (num_arg l) in
                    let num_arg0 := a + 1 in
                    ret (mklocals sql_code0 (gds_codes l)
                           (replace ("@" ++ str_of_Z num_arg0) (str_of_Z num) (message l))
                           (gds_code l) (Some num_arg0))) s1
                   = (Ok l2, s2)).
      { rewrite (bind_ok _ _ _ _ _ E2). rewrite bytes_to_bint_be4 by done.
        rewrite Hg, Hk. reflexivity. }
      rewrite (bind_ok _ _ _ _ _ Ei).
      destruct (IH fuel l2 s2 rest g (k + 1) Hf' eq_refl eq_refl Hwf A2)
        as (s3 & E3 & R3 & A3).
      fold (sv_next fuel l2). exists s3. split.
      { rewrite E3. cbn [map arg_text substitute last_number fold_left gds_codes
                          sql_code message l2].
        destruct (decide (g = 335544436)); done. }
      split; [|exact A3].
      cbn [map concat enc_arg]. rewrite <- !app_assoc.
      eapply reads_trans; [exact R1|]. eapply reads_trans; [exact R2|exact R3].
    + cbn [enc_arg] in A. rewrite <- !app_assoc in A.
      destruct Ha as (Ht & Hb & Hp). pose proof (len_nonneg body) as Hb0.
      assert (Hr : bytes_to_bint (be4 tag) = tag).
      { apply tags_range; [done|]. set_solver. }
      assert (Hc : tag = isc_arg_string \/ tag = isc_arg_interpreted
                   \/ tag = isc_arg_sql_state).
      { rewrite !elem_of_cons, elem_of_nil in Ht. tauto. }
      clear Ht. unfold sv_next.
      destruct (recv_channel_plain 4 s _ _ A eq_refl) as (s1 & E1 & R1 & A1).
      rewrite (bind_ok _ _ _ _ _ E1). rewrite Hr.
      cbn [sv_loop]. rewrite decide_False by (destruct Hc as [->|[->| ->]]; done).
      unfold sv_item.
      rewrite decide_False by (destruct Hc as [->|[->| ->]]; done).
      rewrite decide_False by (destruct Hc as [->|[->| ->]]; done).
      rewrite decide_True by done.
      destruct (recv_channel_plain 4 s1 _ _ A1 eq_refl) as (s2 & E2 & R2 & A2).
      destruct (recv_channel_ok (len body) true s2 body pad _ A2 eq_refl Hp)
        as (s3 & E3 & R3 & A3).
      set (l2 := mklocals (sql_code l) (gds_codes l)
                   (replace ("@" ++ str_of_Z (k + 1)) (str_of_bytes body) (message l))
                   (Some g) (Some (k + 1))).
      assert (Ei : (let* b := recv_channel 4 false in
                    let nbytes := bytes_to_bint b in
                    let* raw := recv_channel nbytes true in
                    let s0 := str_of_bytes raw in
                    let* a := load (num_arg l) in
                    let num_arg0 := a + 1 in
                    ret (mklocals (sql_code l) (gds_codes l)
                           (replace ("@" ++ str_of_Z num_arg0) s0 (message l))
                           (gds_code l) (Some num_arg0))) s1
                   = (Ok l2, s3)).
      { rewrite (bind_ok _ _ _ _ _ E2). rewrite bytes_to_bint_be4 by lia.
        rewrite (bind_ok _ _ _ _ _ E3). rewrite Hg, Hk. reflexivity. }
      rewrite (bind_ok _ _ _ _ _ Ei).
      destruct (IH fuel l2 s3 rest g (k + 1) Hf' eq_refl eq_refl Hwf A3)
        as (s4 & E4 & R4 & A4).
      fold (sv_next fuel l2). exists s4. split.
      { rewrite E4. cbn [map arg_text substitute last_number fold_left gds_codes
                          sql_code message l2]. done. }
      split; [|exact A4].
      cbn [map concat enc_arg]. rewrite <- !app_assoc.
      eapply reads_trans; [exact R1|]. eapply reads_trans; [exact R2|].
      rewrite (app_assoc body).
      eapply reads_trans; [exact R3|exact R4].
Qed.

(** The parser on one gds code with its arguments. *)
Lemma sv_group_ok (s : session) (g : Z) (args : list sv_arg)
    (rest : bytes)
    (Htags : tags_ok) (Hg : g <> 0) (Hr : - 2 ^ 31 <= g < 2 ^ 31)
    (Hargs : Forall wf_arg args)
    (A : arriving s = error_vector g args ++ rest) :
  exists s',
    _parse_status_vector s
    = (Ok ({[ g ]}, error_sql_code g args, error_message g args), s')
    /\ reads s (error_vector g args) s'
    /\ arriving s' = rest.
Proof.
  pose proof (tags_distinct Htags) as (G0 & _).
  unfold error_vector in *. rewrite <- !app_assoc in A.
  assert (Hpend : (length args < pending s)%nat).
  { pose proof (arriving_le_pending s) as Hle. rewrite A in Hle.
    rewrite !length_app, !length_be4 in Hle.
    assert (Hl : (length args <= length (concat (map enc_arg args)))%nat).
    { clear - Hargs. induction Hargs as [|a args Ha _ IH]; [done|].
      cbn [map concat length]. rewrite length_app.
      pose proof (length_enc_arg a Ha). lia. }
    lia. }
  unfold _parse_status_vector.
  destruct (recv_channel_plain 4 s _ _ A eq_refl) as (s1 & E1 & R1 & A1).
  rewrite (bind_ok _ _ _ _ _ E1). rewrite (tags_range _ Htags) by set_solver.
  cbn [sv_loop]. rewrite decide_False by done.
  unfold sv_item at 1. rewrite decide_True by done.
  destruct (recv_channel_plain 4 s1 _ _ A1 eq_refl) as (s2 & E2 & R2 & A2).
  set (l1 := mklocals 0 (∅ ∪ {[ g ]})
               ("" ++ default "@1"%string (messages !! g)) (Some g) (Some 0)).
  assert (Ei : (let* b := recv_channel 4 false in
                let gds_code0 := bytes_to_bint b in
                if decide (gds_code0 <> 0)
                then ret (mklocals (sql_code sv_initial)
                            (gds_codes sv_initial ∪ {[ gds_code0 ]})
                            (message sv_initial
                             ++ default "@1"%string (messages !! gds_code0))
                            (Some gds_code0) (Some 0))
                else ret (mklocals (sql_code sv_initial) (gds_codes sv_initial)
                            (message sv_initial) (Some gds_code0)
                            (num_arg sv_initial))) s1
               = (Ok l1, s2)).
  { rewrite (bind_ok _ _ _ _ _ E2). rewrite bytes_to_bint_be4 by done.
    rewrite decide_True by done. reflexivity. }
  rewrite (bind_ok _ _ _ _ _ Ei).
  destruct (sv_next_args Htags args (pending s) l1 s2 rest g 0
              Hpend eq_refl eq_refl Hargs A2) as (s3 & E3 & R3 & A3).
  fold (sv_next (pending s) l1). exists s3. split.
  { rewrite E3. unfold error_sql_code, error_message.
    cbn [gds_codes sql_code message l1].
    rewrite (left_id_L ∅ (∪)). reflexivity. }
  split; [|exact A3].
  eapply reads_trans; [exact R1|]. eapply reads_trans; [exact R2|exact R3].
Qed.

(** A status vector of one nonzero gds code with its arguments: the parser
    returns the code, the message of the code with the arguments in the
    places of [@1], [@2], ..., and as SQL code the last number argument when
    the code is 335544436, and 0 otherwise; it reads the vector and no more. *)
Theorem parse_status_vector_group (s : session) (g : Z) (args : list sv_arg)
    (rest : bytes)
    (Htags : tags_ok) (Hg : g <> 0) (Hr : - 2 ^ 31 <= g < 2 ^ 31)
    (Hargs : Forall wf_arg args)
    (A : arriving s = error_vector g args ++ rest) :
  exists s',
    _parse_status_vector s
    = (Ok ({[ g ]}, error_sql_code g args, error_message g args), s')
    /\ reads s (error_vector g args) s'
    /\ arriving s' = rest.
Proof.
  exact (sv_group_ok s g args rest Htags Hg Hr Hargs A).
Qed.

End ErrorVectors.

Lemma reads_eq s b b' s' : reads s b s' -> b = b' -> reads s b' s'.
Proof. intros H <-. exact H. Qed.

Section ErrorResponses.
Context {X : Externals}.

(** [_parse_op_response] up to the status vector. *)
Lemma parse_op_response_frame s h oid buf tail :
  wf_response (h, oid, buf) ->
  arriving s = be4 h ++ oid ++ be4 (len buf) ++ buf
               ++ rep 0 (padding (len buf) true) ++ tail ->
  exists s2,
    reads s (be4 h ++ oid ++ be4 (len buf) ++ buf
             ++ rep 0 (padding (len buf) true)) s2
    /\ arriving s2 = tail
    /\ _parse_op_response s
       = (let* sv := _parse_status_vector in
          let '(gds_codes, sql_code, message) := sv in
          if decide (sql_code <> 0 \/ message <> ""%string)
          then raise (OperationalError message gds_codes sql_code)
          else ret (h, oid, buf)) s2.
Proof.
  intros (Hh & Ho & Hb) A. pose proof (len_nonneg buf) as Hb0.
  unfold _parse_op_response.
  destruct (recv_channel_plain 16 s (be4 h ++ oid ++ be4 (len buf))
              (buf ++ rep 0 (padding (len buf) true) ++ tail))
    as (s1 & E & R1 & A1).
  { rewrite <- !app_assoc. exact A. }
  { rewrite !len_app. change (len (be4 ?x)) with 4. lia. }
  rewrite (bind_ok _ _ _ _ _ E). clear E.
  assert (E4 : slice (be4 h ++ oid ++ be4 (len buf)) 0 4 = be4 h)
    by (apply slice_app_head; done).
  assert (E12 : slice (be4 h ++ oid ++ be4 (len buf)) 4 12 = oid)
    by (apply slice_app_mid; [done|lia]).
  assert (Ed : drop 12 (be4 h ++ oid ++ be4 (len buf)) = be4 (len buf)).
  { rewrite app_assoc. apply drop_app_length'. rewrite length_app.
    unfold len in Ho. change (length (be4 h)) with 4%nat. lia. }
  rewrite E4, E12, Ed. rewrite !bytes_to_bint_be4 by lia.
  destruct (recv_channel_ok (len buf) true s1 buf
              (rep 0 (padding (len buf) true)) tail)
    as (s2 & E & R2 & A2); [exact A1 | reflexivity | |].
  { apply len_rep. apply padding_range. }
  rewrite (bind_ok _ _ _ _ _ E). clear E.
  exists s2. split; [|done].
  eapply reads_eq; [eapply reads_trans; [exact R1|exact R2]|].
  rewrite <- ?app_assoc. reflexivity.
Qed.

(** [_op_response] on a response that carries an error. *)
Lemma op_response_error (s : session) (k : nat) (r : Z * bytes * bytes)
    (g : Z) (args : list sv_arg) (rest : bytes)
    (Htags : tags_ok) (Hr : wf_response r)
    (Hg : g <> 0) (Hgr : - 2 ^ 31 <= g < 2 ^ 31)
    (Hargs : Forall wf_arg args)
    (Herr : error_sql_code g args <> 0 \/ error_message g args <> ""%string)
    (A : arriving s = dummies k ++ failed_response r g args ++ rest) :
  exists s',
    _op_response s
    = (Raise (OperationalError (error_message g args) {[ g ]}
                (error_sql_code g args)), s')
    /\ reads s (dummies k ++ failed_response r g args) s'
    /\ arriving s' = rest.
Proof.
  destruct r as [[h oid] buf]. unfold failed_response in *.
  rewrite <- !app_assoc in A.
  destruct (read_opcode_skips k op_response _ s ltac:(done) ltac:(done) A)
    as (s1 & E1 & R1 & A1).
  unfold _op_response. rewrite (bind_ok _ _ _ _ _ E1).
  rewrite bytes_to_bint_be4 by done.
  rewrite decide_False by (intros Hne; apply Hne; reflexivity).
  destruct (parse_op_response_frame s1 h oid buf _ Hr A1) as (s2 & R2 & A2 & E2).
  rewrite E2.
  destruct (sv_group_ok s2 g args rest Htags Hg Hgr Hargs A2)
    as (s3 & E3 & R3 & A3).
  rewrite (bind_ok _ _ _ _ _ E3). rewrite decide_True by done.
  exists s3. split; [reflexivity|]. split; [|exact A3].
  eapply reads_eq;
    [eapply reads_trans; [exact R1|eapply reads_trans; [exact R2|exact R3]]|].
  rewrite <- ?app_assoc. reflexivity.
Qed.

(** A response whose status vector carries a gds code with a nonzero SQL
    code or a non-empty message: [_op_response] raises the operational error
    with this message, code set and SQL code, after it has read the whole
    response and nothing beyond it. *)
Theorem op_response_raises (s : session) (k : nat) (r : Z * bytes * bytes)
    (g : Z) (args : list sv_arg) (rest : bytes)
    (Htags : tags_ok) (Hr : wf_response r)
    (Hg : g <> 0) (Hgr : - 2 ^ 31 <= g < 2 ^ 31)
    (Hargs : Forall wf_arg args)
    (Herr : error_sql_code g args <> 0 \/ error_message g args <> ""%string)
    (A : arriving s = dummies k ++ failed_response r g args ++ rest) :
  exists s',
    _op_response s
    = (Raise (OperationalError (error_message g args) {[ g ]}
                (error_sql_code g args)), s')
    /\ reads s (dummies k ++ failed_response r g args) s'
    /\ arriving s' = rest.
Proof.
  exact (op_response_error s k r g args rest Htags Hr Hg Hgr Hargs Herr A).
Qed.

End ErrorResponses.

Lemma op_response_raises_witness :
  exists s',
    _op_response (X := firebird)
      (incoming (dummies 1
                 ++ failed_response (X := firebird) (0, rep 0 8, []) 335544344
                      [ArgString 2 [117; 115; 101; 114; 115] [0; 0; 0]]
                 ++ []))
    = (Raise (OperationalError "I/O error for file users" {[ 335544344 ]} 0), s').
Proof.
  destruct (op_response_raises (X := firebird)
              (incoming (dummies 1
                 ++ failed_response (X := firebird) (0, rep 0 8, []) 335544344
                      [ArgString 2 [117; 115; 101; 114; 115] [0; 0; 0]]
                 ++ []))
              1 (0, rep 0 8, []) 335544344
              [ArgString 2 [117; 115; 101; 114; 115] [0; 0; 0]] []
              firebird_tags_ok)
    as (s' & E & _).
  - split; [split; [discriminate | reflexivity] | split; reflexivity].
  - discriminate.
  - split; [discriminate | reflexivity].
  - constructor; [|constructor].
    split; [set_solver|]. split; reflexivity.
  - right. vm_compute. discriminate.
  - reflexivity.
  - exists s'. exact E.
Defined.

Lemma parse_status_vector_group_witness :
  exists s',
    _parse_status_vector (X := firebird)
      (incoming (error_vector (X := firebird) 335544436 [ArgNumber (-901)] ++ []))
    = (Ok ({[ 335544436 ]}, -901, "SQL error code = -901"%string), s').
Proof.
  destruct (parse_status_vector_group (X := firebird)
              (incoming (error_vector (X := firebird) 335544436 [ArgNumber (-901)] ++ []))
              335544436 [ArgNumber (-901)] [] firebird_tags_ok)
    as (s' & E & _).
  - discriminate.
  - split; [discriminate | reflexivity].
  - constructor; [|constructor]. split; [discriminate | reflexivity].
  - reflexivity.
  - exists s'. exact E.
Defined.

(** ** Errors during a BLOB spill *)

Section SpillErrors.
Context {X : Externals}.

(** A packet sent, then an error response read. *)
Lemma exchange_raises (op : M unit) pkt s r g args rest :
  (forall s0, op s0 = (Ok tt, log (Sent pkt) s0)) ->
  tags_ok -> wf_response r -> g <> 0 -> - 2 ^ 31 <= g < 2 ^ 31 ->
  Forall wf_arg args ->
  error_sql_code g args <> 0 \/ error_message g args <> ""%string ->
  arriving s = failed_response r g args ++ rest ->
  exists s' evs,
    (op ;; _op_response) s
    = (Raise (OperationalError (error_message g args) {[ g ]}
                (error_sql_code g args)), s')
    /\ runs s evs s' /\ arriving s' = rest
    /\ sent_packets evs = [pkt].
Proof.
  intros Hop Htags Hr Hg Hgr Hargs Herr A.
  rewrite (bind_ok _ _ _ _ _ (Hop s)).
  destruct (op_response_error (log (Sent pkt) s) 0 r g args rest
              Htags Hr Hg Hgr Hargs Herr A) as (s1 & E & R & A1).
  cbn [dummies replicate concat app] in R.
  apply reads_runs in R as (evs & Rn & S & Rb).
  exists s1, (Sent pkt :: evs). split; [exact E|].
  split; [|split; [exact A1|]].
  - apply (runs_trans s [Sent pkt] (log (Sent pkt) s) evs s1);
      [apply sock_send_runs | exact Rn].
  - change (Sent pkt :: evs) with ([Sent pkt] ++ evs).
    rewrite sent_packets_app, S. reflexivity.
Qed.

(** The loop of [_create_blob] when the response to one of the segments is
    an error: the segments up to this one have been sent, and no more. *)
Lemma put_segments_raises (b : bytes) (h : Z) r g args :
  tags_ok -> 0 < BLOB_SEGMENT_SIZE -> - 2 ^ 31 <= h < 2 ^ 31 ->
  len b < 2 ^ 31 ->
  wf_response r -> g <> 0 -> - 2 ^ 31 <= g < 2 ^ 31 ->
  Forall wf_arg args ->
  error_sql_code g args <> 0 \/ error_message g args <> ""%string ->
  forall fuel i s rs rest,
    0 <= i -> (Z.to_nat (len b - i) <= fuel)%nat ->
    Forall wf_response rs ->
    (length rs < length (segments_from fuel b i))%nat ->
    arriving s = concat (map ok_response rs) ++ failed_response r g args ++ rest ->
    exists s' evs,
      put_segments fuel h b i s
      = (Raise (OperationalError (error_message g args) {[ g ]}
                  (error_sql_code g args)), s')
      /\ runs s evs s' /\ arriving s' = rest
      /\ sent_packets evs
         = map (put_segment_packet h)
             (take (S (length rs)) (segments_from fuel b i)).
Proof.
  intros Htags Hs Hh Hb Hr Hg Hgr Hargs Herr.
  induction fuel as [|fuel IH]; intros i s rs rest Hi Hf Hrs Hlen A.
  - cbn in Hlen. lia.
  - cbn [segments_from] in *. cbn [put_segments].
    destruct (decide (i < len b)) as [Hlt|Hge]; [|cbn in Hlen; lia].
    pose (seg := slice b i (i + BLOB_SEGMENT_SIZE)).
    assert (Hseg : len seg < 2 ^ 31).
    { unfold seg. rewrite len_slice by lia. lia. }
    destruct rs as [|r1 rs].
    + cbn [map concat app length] in *.
      destruct (exchange_raises (_op_put_segment (Some h) seg)
                  (put_segment_packet h seg) s r g args rest
                  (fun s0 => op_put_segment_sends h seg s0 Hh Hseg)
                  Htags Hr Hg Hgr Hargs Herr A)
        as (s1 & e1 & E1 & R1 & A1 & S1).
      exists s1, e1. split.
      * fold seg. rewrite bind_assoc.
        rewrite (bind_raise _ _ _ _ _ E1). reflexivity.
      * split; [exact R1|]. split; [exact A1|]. exact S1.
    + cbn [length map concat] in *. apply Forall_cons in Hrs as [Hr1 Hrs].
      rewrite <- app_assoc in A.
      destruct (exchange_ok (_op_put_segment (Some h) seg)
                  (put_segment_packet h seg) s r1 _
                  (fun s0 => op_put_segment_sends h seg s0 Hh Hseg) Htags Hr1 A)
        as (s1 & e1 & E1 & R1 & A1 & X1).
      assert (H1 : 0 <= i + BLOB_SEGMENT_SIZE) by lia.
      assert (H2 : (Z.to_nat (len b - (i + BLOB_SEGMENT_SIZE)) <= fuel)%nat) by lia.
      assert (H3 : (length rs < length (segments_from fuel b (i + BLOB_SEGMENT_SIZE)))%nat)
        by lia.
      destruct (IH (i + BLOB_SEGMENT_SIZE) s1 rs rest H1 H2 Hrs H3 A1)
        as (s2 & e2 & E2 & R2 & A2 & S2).
      exists s2, (e1 ++ e2). split.
      * fold seg. rewrite bind_assoc.
        rewrite (bind_ok _ _ _ _ _ E1). exact E2.
      * split; [eapply runs_trans; eassumption|]. split; [exact A2|].
        rewrite sent_packets_app, S2, (exchanges_sent _ _ X1). reflexivity.
Qed.

(** When the server answers [create_blob2] with an error, [_create_blob]
    raises it at once: no segment and no [close_blob] is sent. *)
Theorem create_blob_create_fails (s : session) (th : Z) (b : bytes)
    (r : Z * bytes * bytes) (g : Z) (args : list sv_arg) (rest : bytes)
    (Htags : tags_ok) (Hth : - 2 ^ 31 <= th < 2 ^ 31)
    (Hr : wf_response r) (Hg : g <> 0) (Hgr : - 2 ^ 31 <= g < 2 ^ 31)
    (Hargs : Forall wf_arg args)
    (Herr : error_sql_code g args <> 0 \/ error_message g args <> ""%string)
    (A : arriving s = failed_response r g args ++ rest) :
  exists s' evs,
    _create_blob (Some th) b s
    = (Raise (OperationalError (error_message g args) {[ g ]}
                (error_sql_code g args)), s')
    /\ runs s evs s' /\ arriving s' = rest
    /\ sent_packets evs = [create_blob2_packet th].
Proof.
  destruct (exchange_raises (_op_create_blob2 (Some th)) (create_blob2_packet th)
              s r g args rest (fun s0 => op_create_blob2_sends th s0 Hth)
              Htags Hr Hg Hgr Hargs Herr A) as (s1 & e1 & E1 & R1 & A1 & S1).
  exists s1, e1. split; [|done].
  unfold _create_blob. rewrite bind_assoc.
  rewrite (bind_raise _ _ _ _ _ E1). reflexivity.
Qed.

(** When the server answers one of the segments with an error, after it
    acknowledged [length rs] of them, [_create_blob] raises this error: the
    packets sent are [create_blob2] and the segments up to the failing one,
    and the BLOB is left open, [close_blob] is never sent. *)
Theorem create_blob_segment_fails (s : session) (th : Z) (b : bytes)
    (bh : Z) (bid buf0 : bytes) (rs : list (Z * bytes * bytes))
    (r : Z * bytes * bytes) (g : Z) (args : list sv_arg) (rest : bytes)
    (Htags : tags_ok) (Hseg : 0 < BLOB_SEGMENT_SIZE)
    (Hth : - 2 ^ 31 <= th < 2 ^ 31) (Hb : len b < 2 ^ 31)
    (Hr0 : wf_response (bh, bid, buf0)) (Hrs : Forall wf_response rs)
    (Hlen : (length rs < length (segments b))%nat)
    (Hr : wf_response r) (Hg : g <> 0) (Hgr : - 2 ^ 31 <= g < 2 ^ 31)
    (Hargs : Forall wf_arg args)
    (Herr : error_sql_code g args <> 0 \/ error_message g args <> ""%string)
    (A : arriving s = ok_response (bh, bid, buf0) ++ concat (map ok_response rs)
                      ++ failed_response r g args ++ rest) :
  exists s' evs,
    _create_blob (Some th) b s
    = (Raise (OperationalError (error_message g args) {[ g ]}
                (error_sql_code g args)), s')
    /\ runs s evs s' /\ arriving s' = rest
    /\ sent_packets evs
       = create_blob2_packet th
         :: map (put_segment_packet bh) (take (S (length rs)) (segments b))
    /\ close_blob_packet bh ∉ sent_packets evs.
Proof.
  assert (Hbh : - 2 ^ 31 <= bh < 2 ^ 31) by (destruct Hr0; done).
  destruct (exchange_ok (_op_create_blob2 (Some th)) (create_blob2_packet th)
              s (bh, bid, buf0) _
              (fun s0 => op_create_blob2_sends th s0 Hth) Htags Hr0 A)
    as (s1 & e1 & E1 & R1 & A1 & X1).
  assert (H0 : (Z.to_nat (len b - 0) <= length b)%nat) by (unfold len; lia).
  destruct (put_segments_raises b bh r g args Htags Hseg Hbh Hb Hr Hg Hgr Hargs
              Herr (length b) 0 s1 rs rest ltac:(done) H0 Hrs Hlen A1)
    as (s2 & e2 & E2 & R2 & A2 & S2).
  assert (Hsent : sent_packets (e1 ++ e2)
                  = create_blob2_packet th
                    :: map (put_segment_packet bh)
                         (take (S (length rs)) (segments b))).
  { rewrite sent_packets_app, S2, (exchanges_sent _ _ X1). reflexivity. }
  exists s2, (e1 ++ e2). split.
  { unfold _create_blob. rewrite bind_assoc. rewrite (bind_ok _ _ _ _ _ E1).
    rewrite (bind_raise _ _ _ _ _ E2). reflexivity. }
  split; [eapply runs_trans; eassumption|]. split; [exact A2|].
  split; [exact Hsent|].
  rewrite Hsent. intros Hin. apply elem_of_cons in Hin as [Hin|Hin].
  - discriminate Hin.
  - apply list_elem_of_fmap in Hin as (seg & Hin & _). discriminate Hin.
Qed.

End SpillErrors.

Lemma create_blob_create_fails_witness :
  exists s' evs,
    _create_blob (X := tiny) (Some 1) [1; 2; 3; 4; 5; 6; 7]
      (incoming (failed_response (X := tiny) (0, rep 0 8, []) 335544344 [] ++ []))
    = (Raise (OperationalError "@1" {[ 335544344 ]} 0), s')
    /\ sent_packets evs = [create_blob2_packet 1].
Proof.
  destruct (create_blob_create_fails (X := tiny)
              (incoming (failed_response (X := tiny) (0, rep 0 8, []) 335544344 [] ++ []))
              1 [1; 2; 3; 4; 5; 6; 7] (0, rep 0 8, []) 335544344 [] []
              tiny_tags_ok)
    as (s' & evs & E & _ & _ & S).
  - split; [discriminate | reflexivity].
  - split; [split; [discriminate | reflexivity] | split; reflexivity].
  - discriminate.
  - split; [discriminate | reflexivity].
  - constructor.
  - right. discriminate.
  - reflexivity.
  - exists s', evs. split; [exact E | exact S].
Defined.

Lemma create_blob_segment_fails_witness :
  exists s' evs,
    _create_blob (X := tiny) (Some 1) [1; 2; 3; 4; 5; 6; 7]
      (incoming (ok_response (X := tiny) (5, [1; 2; 3; 4; 5; 6; 7; 8], [])
                 ++ concat (map (ok_response (X := tiny)) [(0, rep 0 8, [])])
                 ++ failed_response (X := tiny) (0, rep 0 8, []) 335544344 []
                 ++ []))
    = (Raise (OperationalError "@1" {[ 335544344 ]} 0), s')
    /\ sent_packets evs
       = [create_blob2_packet 1;
          put_segment_packet 5 [1; 2; 3]; put_segment_packet 5 [4; 5; 6]].
Proof.
  destruct (create_blob_segment_fails (X := tiny)
              (incoming (ok_response (X := tiny) (5, [1; 2; 3; 4; 5; 6; 7; 8], [])
                 ++ concat (map (ok_response (X := tiny)) [(0, rep 0 8, [])])
                 ++ failed_response (X := tiny) (0, rep 0 8, []) 335544344 []
                 ++ []))
              1 [1; 2; 3; 4; 5; 6; 7] 5 [1; 2; 3; 4; 5; 6; 7; 8] []
              [(0, rep 0 8, [])] (0, rep 0 8, []) 335544344 [] []
              tiny_tags_ok)
    as (s' & evs & E & _ & _ & S & _).
  - reflexivity.
  - split; [discriminate | reflexivity].
  - reflexivity.
  - split; [split; [discriminate | reflexivity] | split; reflexivity].
  - repeat constructor; discriminate.
  - vm_compute. repeat constructor.
  - split; [split; [discriminate | reflexivity] | split; reflexivity].
  - discriminate.
  - split; [discriminate | reflexivity].
  - constructor.
  - right. discriminate.
  - reflexivity.
  - exists s', evs. split; [exact E | exact S].
Defined.

(** ** More on the framed byte channel *)

(** [recv_channel] checks what it received against [nbytes], not against
    the padded count: when the [n] bytes arrive but the stream closes inside
    the padding, it still returns them, without error. *)
Theorem recv_channel_padding_cut (n : Z) (s : session)
    (Hn : 0 <= n) (Hav : n <= len (arriving s))
    (Hcut : len (arriving s) < n + padding n true) :
  exists s',
    recv_channel n true s = (Ok (take (Z.to_nat n) (arriving s)), s')
    /\ received_bytes (trace s') = received_bytes (trace s) ++ arriving s
    /\ sent_packets (trace s') = sent_packets (trace s).
Proof.
  destruct (recv_channel_spec n true s Hn)
    as (s' & T & D & (evs & Tr & S & R) & Ar & E).
  cbv zeta in *. exists s'. split.
  - rewrite E. rewrite decide_False by lia. reflexivity.
  - rewrite Tr, received_bytes_app, sent_packets_app, R, S, app_nil_r.
    split; [|done]. f_equal. apply take_ge. unfold len in *. lia.
Qed.

Lemma recv_channel_padding_cut_witness :
  exists s', recv_channel 3 true (incoming [1; 2; 3]) = (Ok [1; 2; 3], s').
Proof.
  destruct (recv_channel_padding_cut 3 (incoming [1; 2; 3]))
    as (s' & E & _).
  - lia.
  - vm_compute. discriminate.
  - vm_compute. reflexivity.
  - exists s'. exact E.
Defined.

(** What [recv_channel] returns depends on the bytes that arrive, not on the
    way the network cuts them into chunks. *)
Theorem recv_channel_chunking (n : Z) (al : bool) (s1 s2 : session)
    (Hn : 0 <= n) (Hsame : arriving s1 = arriving s2) :
  fst (recv_channel n al s1) = fst (recv_channel n al s2)
  /\ (n + padding n al <= len (arriving s1) ->
      arriving (snd (recv_channel n al s1)) = arriving (snd (recv_channel n al s2))).
Proof.
  destruct (recv_channel_spec n al s1 Hn) as (s1' & _ & _ & _ & Ar1 & E1).
  destruct (recv_channel_spec n al s2 Hn) as (s2' & _ & _ & _ & Ar2 & E2).
  cbv zeta in *. rewrite E1, E2, Hsame. split.
  - destruct (decide (len (arriving s2) < n)); reflexivity.
  - intros Hav.
    assert (Hl : (Z.to_nat (n + padding n al) <= length (arriving s2))%nat).
    { unfold len in Hav. lia. }
    destruct (decide (len (arriving s2) < n)); cbn [snd];
      rewrite Ar2 by exact Hl; rewrite Ar1 by (rewrite Hsame; exact Hl);
      rewrite Hsame; reflexivity.
Qed.

Lemma recv_channel_chunking_witness :
  fst (recv_channel 4 false (mksession [Data [1]; Data [2; 3]; Data [4; 5]] [] None None))
  = fst (recv_channel 4 false (incoming [1; 2; 3; 4; 5])).
Proof.
  destruct (recv_channel_chunking 4 false
              (mksession [Data [1]; Data [2; 3]; Data [4; 5]] [] None None)
              (incoming [1; 2; 3; 4; 5])) as (H & _).
  - lia.
  - reflexivity.
  - exact H.
Defined.

(** A negative count, as a length word of the server can be, with no
    timeout configured: [sock.recv] refuses it with a [ValueError], unless
    the padding brings the count to 0, in which case nothing is read and the
    empty string returned.  In both cases the session is untouched. *)
Theorem recv_channel_negative (n : Z) (al : bool) (s : session)
    (Hn : n < 0) (Hto : timeout s = None) :
  recv_channel n al s
  = if decide (n + padding n al = 0) then (Ok [], s) else (Raise ValueError, s).
Proof.
  pose proof (padding_range n al) as Hp.
  unfold recv_channel.
  assert (En : (if al && negb (n mod 4 =? 0) then n + (4 - n mod 4) else n)
               = n + padding n al).
  { unfold padding. destruct (al && negb (n mod 4 =? 0)); lia. }
  rewrite En. set (m := n + padding n al).
  assert (Hm : m <= 0).
  { unfold m, padding. destruct (al && negb (n mod 4 =? 0)) eqn:Ea; [|lia].
    apply andb_true_iff in Ea as [_ Ea]. apply negb_true_iff, Z.eqb_neq in Ea.
    pose proof (Z.div_mod n 4 ltac:(lia)).
    pose proof (Z.mod_pos_bound n 4 ltac:(lia)).
    assert (n / 4 < 0) by lia. lia. }
  replace (Z.to_nat m) with 0%nat by (clear - Hm; lia).
  destruct (decide (m = 0)) as [Hz|Hz].
  - assert (El : recv_loop 1 m (bs []) s = (Ok [], s)).
    { cbn [recv_loop]. rewrite decide_True by done. reflexivity. }
    rewrite (bind_ok _ _ _ _ _ El).
    rewrite decide_False by (clear - Hn; unfold len; cbn [length]; lia).
    replace (Z.to_nat n) with 0%nat by (clear - Hn; lia). reflexivity.
  - assert (Es : select_expires s = (Ok false, s)).
    { unfold select_expires. rewrite Hto. reflexivity. }
    assert (Er : sock_recv m s = (Raise ValueError, s)).
    { unfold sock_recv. rewrite decide_True by (clear - Hm Hz; lia). reflexivity. }
    assert (El : recv_loop 1 m (bs []) s = (Raise ValueError, s)).
    { cbn [recv_loop]. rewrite decide_False by done.
      rewrite (bind_ok _ _ _ _ _ Es). cbv beta iota.
      rewrite (bind_raise _ _ _ _ _ Er). reflexivity. }
    rewrite (bind_raise _ _ _ _ _ El). reflexivity.
Qed.

Lemma recv_channel_negative_witness :
  recv_channel (-5) true (incoming [1; 2; 3]) = (Raise ValueError, incoming [1; 2; 3])
  /\ recv_channel (-1) true (incoming [1; 2; 3]) = (Ok [], incoming [1; 2; 3]).
Proof.
  split.
  - exact (recv_channel_negative (-5) true (incoming [1; 2; 3]) ltac:(lia) eq_refl).
  - exact (recv_channel_negative (-1) true (incoming [1; 2; 3]) ltac:(lia) eq_refl).
Defined.

Section ResponseReturns.
Context {X : Externals}.

(** A successful [op_response] frame, after any number of keepalive
    frames: [_op_response] returns the object handle, the 8-byte object id
    and the buffer without its padding, and has read the frames and nothing
    beyond them. *)
Theorem op_response_returns (s : session) (k : nat) (r : Z * bytes * bytes)
    (rest : bytes) (Htags : tags_ok) (Hr : wf_response r)
    (A : arriving s = dummies k ++ ok_response r ++ rest) :
  exists s1, _op_response s = (Ok r, s1)
             /\ reads s (dummies k ++ ok_response r) s1
             /\ arriving s1 = rest.
Proof. exact (op_response_ok s k r rest Htags Hr A). Qed.

End ResponseReturns.

Lemma op_response_returns_witness :
  exists s1,
    _op_response (X := firebird)
      (incoming (dummies 2 ++ ok_response (X := firebird) (7, [1; 2; 3; 4; 5; 6; 7; 8], [9; 9; 9])
                 ++ [42]))
    = (Ok (7, [1; 2; 3; 4; 5; 6; 7; 8], [9; 9; 9]), s1)
    /\ arriving s1 = [42].
Proof.
  destruct (op_response_returns (X := firebird)
              (incoming (dummies 2 ++ ok_response (X := firebird) (7, [1; 2; 3; 4; 5; 6; 7; 8], [9; 9; 9])
                 ++ [42]))
              2 (7, [1; 2; 3; 4; 5; 6; 7; 8], [9; 9; 9]) [42] firebird_tags_ok)
    as (s1 & E & _ & A).
  - split; [split; [discriminate | reflexivity] | split; reflexivity].
  - reflexivity.
  - exists s1. split; [exact E | exact A].
Defined.

(** ** The sql-response reader *)

Section SqlResponse.
Context {V : Type}.

Lemma sql_columns_ok (xs : list (xsqlvar V)) : forall cs done s rest,
  Forall2 wf_cell xs cs ->
  arriving s = enc_cells xs cs ++ rest ->
  exists s',
    sql_columns xs done s = (Ok (done ++ zip_with dec_cell xs cs), s')
    /\ reads s (enc_cells xs cs) s' /\ arriving s' = rest.
Proof.
  induction xs as [|x xs IH]; intros cs done s rest Hwf A.
  - apply Forall2_nil_inv_l in Hwf as ->. cbn in *. rewrite app_nil_r.
    exists s. split; [done|]. split; [apply reads_refl|done].
  - apply Forall2_cons_inv_l in Hwf as (c & cs' & (Hfix & Hlt & Hpad & Hind) & Hwf & ->).
    unfold enc_cells in A. cbn [zip_with concat] in A.
    unfold enc_cell in A. rewrite <- !app_assoc in A.
    pose proof (len_nonneg (cell_raw c)) as Hr0.
    cbn [sql_columns].
    assert (Hln : exists s1,
               (if decide (io_length x < 0)
                then let* b := recv_channel 4 false in ret (bytes_to_bint b)
                else ret (io_length x)) s
               = (Ok (len (cell_raw c)), s1)
               /\ reads s (if decide (io_length x < 0)
                           then be4 (len (cell_raw c)) else []) s1
               /\ arriving s1 = cell_raw c ++ cell_pad c ++ cell_ind c
                                ++ concat (zip_with enc_cell xs cs') ++ rest).
    { destruct (decide (io_length x < 0)) as [Hneg|Hpos].
      - destruct (recv_channel_plain 4 s _ _ A eq_refl) as (s1 & E & R & A1).
        exists s1. rewrite (bind_ok _ _ _ _ _ E).
        rewrite bytes_to_bint_be4 by lia. done.
      - exists s. rewrite Hfix by lia. split; [done|].
        split; [apply reads_refl|exact A]. }
    destruct Hln as (s1 & E1 & R1 & A1).
    rewrite (bind_ok _ _ _ _ _ E1).
    destruct (recv_channel_ok (len (cell_raw c)) true s1 (cell_raw c)
                (cell_pad c) _ A1 eq_refl Hpad) as (s2 & E2 & R2 & A2).
    rewrite (bind_ok _ _ _ _ _ E2).
    destruct (recv_channel_plain 4 s2 (cell_ind c) _ A2 Hind) as (s3 & E3 & R3 & A3).
    rewrite (bind_ok _ _ _ _ _ E3).
    assert (Er : (if decide (cell_ind c = rep 0 4)
                  then done ++ [Some (value x (cell_raw c))]
                  else done ++ [None])
                 = done ++ [dec_cell x c]).
    { unfold dec_cell. change (rep 0 4) with [0; 0; 0; 0].
      destruct (decide (cell_ind c = [0; 0; 0; 0])); done. }
    rewrite Er.
    destruct (IH cs' (done ++ [dec_cell x c]) s3 rest Hwf A3)
      as (s4 & E4 & R4 & A4).
    exists s4. split.
    { rewrite E4. cbn [zip_with]. rewrite <- app_assoc. done. }
    split; [|exact A4].
    eapply reads_eq;
      [eapply reads_trans; [exact R1|eapply reads_trans;
         [exact R2|eapply reads_trans; [exact R3|exact R4]]]|].
    unfold enc_cells. cbn [zip_with concat]. unfold enc_cell at 2.
    rewrite <- ?app_assoc. reflexivity.
Qed.

(** [op_sql_response] carries a count and, when the count is not 0, one row
    laid out like a row of a fetch response, without trailer: the reader
    returns the decoded row and reads nothing beyond it.  When the count is
    0 it returns the empty list, whatever the descriptors, and reads no
    column. *)
Theorem op_sql_response_decodes (s : session) (k : nat)
    (xsqlda : list (xsqlvar V)) (count : Z) (cs : list cell) (rest : bytes)
    (Hcount : - 2 ^ 31 <= count < 2 ^ 31)
    (Hcells : Forall2 wf_cell xsqlda cs) :
  (count <> 0 ->
   arriving s = dummies k ++ be4 op_sql_response ++ be4 count
                ++ enc_cells xsqlda cs ++ rest ->
   exists s',
     _op_sql_response xsqlda s = (Ok (zip_with dec_cell xsqlda cs), s')
     /\ reads s (dummies k ++ be4 op_sql_response ++ be4 count
                 ++ enc_cells xsqlda cs) s'
     /\ arriving s' = rest)
  /\ (count = 0 ->
      arriving s = dummies k ++ be4 op_sql_response ++ be4 count ++ rest ->
      exists s',
        _op_sql_response xsqlda s = (Ok [], s')
        /\ reads s (dummies k ++ be4 op_sql_response ++ be4 count) s'
        /\ arriving s' = rest).
Proof.
  split; intros Hc A.
  - destruct (read_opcode_skips k op_sql_response _ s ltac:(done) ltac:(done) A)
      as (s1 & E1 & R1 & A1).
    unfold _op_sql_response. rewrite (bind_ok _ _ _ _ _ E1).
    rewrite bytes_to_bint_be4 by done.
    rewrite decide_False by (intros Hne; apply Hne; reflexivity).
    destruct (recv_channel_plain 4 s1 _ _ A1 eq_refl) as (s2 & E2 & R2 & A2).
    rewrite (bind_ok _ _ _ _ _ E2).
    change (slice (be4 count) 0 4) with (be4 count).
    rewrite bytes_to_bint_be4 by done. rewrite decide_False by done.
    destruct (sql_columns_ok xsqlda cs [] s2 rest Hcells A2) as (s3 & E3 & R3 & A3).
    exists s3. split; [exact E3|]. split; [|exact A3].
    eapply reads_eq;
      [eapply reads_trans; [exact R1|eapply reads_trans; [exact R2|exact R3]]|].
    rewrite <- ?app_assoc. reflexivity.
  - destruct (read_opcode_skips k op_sql_response _ s ltac:(done) ltac:(done) A)
      as (s1 & E1 & R1 & A1).
    unfold _op_sql_response. rewrite (bind_ok _ _ _ _ _ E1).
    rewrite bytes_to_bint_be4 by done.
    rewrite decide_False by (intros Hne; apply Hne; reflexivity).
    destruct (recv_channel_plain 4 s1 _ _ A1 eq_refl) as (s2 & E2 & R2 & A2).
    rewrite (bind_ok _ _ _ _ _ E2).
    change (slice (be4 count) 0 4) with (be4 count).
    rewrite bytes_to_bint_be4 by done. rewrite decide_True by done.
    exists s2. split; [reflexivity|]. split; [|exact A2].
    eapply reads_eq; [eapply reads_trans; [exact R1|exact R2]|].
    rewrite <- ?app_assoc. reflexivity.
Qed.

End SqlResponse.

Lemma op_sql_response_decodes_witness :
  exists s',
    _op_sql_response [mkxsqlvar 4 bytes_to_bint; mkxsqlvar (-1) bytes_to_bint]
      (incoming (dummies 1 ++ be4 op_sql_response ++ be4 1
                 ++ enc_cells [mkxsqlvar 4 bytes_to_bint; mkxsqlvar (-1) bytes_to_bint]
                      [mkcell [0; 0; 1; 0] [] [0; 0; 0; 0];
                       mkcell [7] [0; 0; 0] [255; 255; 255; 255]]
                 ++ []))
    = (Ok [Some 256; None], s').
Proof.
  destruct (op_sql_response_decodes
              (incoming (dummies 1 ++ be4 op_sql_response ++ be4 1
                 ++ enc_cells [mkxsqlvar 4 bytes_to_bint; mkxsqlvar (-1) bytes_to_bint]
                      [mkcell [0; 0; 1; 0] [] [0; 0; 0; 0];
                       mkcell [7] [0; 0; 0] [255; 255; 255; 255]]
                 ++ []))
              1 [mkxsqlvar 4 bytes_to_bint; mkxsqlvar (-1) bytes_to_bint] 1
              [mkcell [0; 0; 1; 0] [] [0; 0; 0; 0];
               mkcell [7] [0; 0; 0] [255; 255; 255; 255]] [])
    as (H & _).
  - split; [discriminate | reflexivity].
  - constructor; [|constructor; [|constructor]].
    + split; [intros _; reflexivity|]. split; [reflexivity|]. split; reflexivity.
    + split; [intros H; cbn in H; lia|]. split; [reflexivity|]. split; reflexivity.
  - destruct (H ltac:(discriminate) eq_refl) as (s' & E & _).
    exists s'. exact E.
Defined.

(** ** The event reader *)

Section EventReader.
Context {X : Externals}.

(** An [op_event] frame as [_parse_op_event] takes it: the reader asks for
    4096 bytes whatever the notification holds, and returns the first word
    as database handle, the last word of the 4096 bytes as event id and an
    empty table of event names. *)
Theorem op_event_frame (s : session) (k : nat) (h id : Z) (mid rest : bytes)
    (Hh : - 2 ^ 31 <= h < 2 ^ 31) (Hid : - 2 ^ 31 <= id < 2 ^ 31)
    (Hmid : len mid = 4088)
    (A : arriving s = dummies k ++ be4 op_event ++ (be4 h ++ mid ++ be4 id) ++ rest) :
  exists s',
    _op_event s = (Ok (Payload (h, id, [])), s')
    /\ reads s (dummies k ++ be4 op_event ++ be4 h ++ mid ++ be4 id) s'
    /\ arriving s' = rest.
Proof.
  destruct (read_opcode_skips k op_event _ s ltac:(done) ltac:(done) A)
    as (s1 & E1 & R1 & A1).
  unfold _op_event. rewrite (bind_ok _ _ _ _ _ E1).
  rewrite bytes_to_bint_be4 by done.
  rewrite decide_False by done.
  rewrite decide_False by (intros [H|H]; discriminate H).
  rewrite decide_False by (intros Hne; apply Hne; reflexivity).
  assert (Hl : len (be4 h ++ mid ++ be4 id) = 4096).
  { rewrite !len_app, Hmid. reflexivity. }
  destruct (recv_channel_plain 4096 s1 _ _ A1 Hl) as (s2 & E2 & R2 & A2).
  unfold _parse_op_event. rewrite <- bind_assoc.
  rewrite (bind_ok _ _ _ _ _ E2).
  exists s2. split; [|split; [|exact A2]].
  - rewrite slice_app_head by reflexivity.
    assert (Ed : drop (length (be4 h ++ mid ++ be4 id) - 4) (be4 h ++ mid ++ be4 id)
                 = be4 id).
    { rewrite (app_assoc (be4 h) mid (be4 id)).
      replace (length ((be4 h ++ mid) ++ be4 id) - 4)%nat
        with (length (be4 h ++ mid))
        by (rewrite (length_app (be4 h ++ mid)), length_be4; lia).
      apply drop_app_length. }
    rewrite Ed. rewrite !bytes_to_bint_be4 by done. reflexivity.
  - eapply reads_eq; [eapply reads_trans; [exact R1|exact R2]|].
    rewrite <- ?app_assoc. reflexivity.
Qed.

(** A notification shorter than 4096 bytes with nothing behind it before the
    stream closes or the deadline passes: the event reader does not return
    it, it fails with the operational error of [recv_channel], having sent
    nothing. *)
Theorem op_event_short (s : session) (k : nat) (body : bytes)
    (Hshort : len body < 4096)
    (A : arriving s = dummies k ++ be4 op_event ++ body) :
  exists s',
    _op_event s = (Raise (OperationalError "Can not recv() packets" ∅ 0), s')
    /\ sent_packets (trace s') = sent_packets (trace s).
Proof.
  destruct (read_opcode_skips k op_event _ s ltac:(done) ltac:(done) A)
    as (s1 & E1 & R1 & A1).
  unfold _op_event. rewrite (bind_ok _ _ _ _ _ E1).
  rewrite bytes_to_bint_be4 by done.
  rewrite decide_False by done.
  rewrite decide_False by (intros [H|H]; discriminate H).
  rewrite decide_False by (intros Hne; apply Hne; reflexivity).
  destruct (recv_channel_short 4096 false s1 ltac:(done)) as (s2 & E2 & S2).
  { rewrite A1. exact Hshort. }
  unfold _parse_op_event. rewrite <- bind_assoc.
  rewrite (bind_raise _ _ _ _ _ E2).
  exists s2. split; [reflexivity|].
  rewrite S2. destruct R1 as [_ _ _ (evs & Tr & S & _)].
  rewrite Tr, sent_packets_app, S, app_nil_r. reflexivity.
Qed.

End EventReader.

Lemma op_event_frame_witness :
  exists s',
    _op_event (X := firebird)
      (incoming (dummies 1 ++ be4 op_event
                 ++ (be4 3 ++ rep 0 4088 ++ be4 17) ++ [5]))
    = (Ok (Payload (3, 17, [])), s')
    /\ arriving s' = [5].
Proof.
  destruct (op_event_frame (X := firebird)
              (incoming (dummies 1 ++ be4 op_event
                 ++ (be4 3 ++ rep 0 4088 ++ be4 17) ++ [5]))
              1 3 17 (rep 0 4088) [5]) as (s' & E & _ & A).
  - split; [discriminate | reflexivity].
  - split; [discriminate | reflexivity].
  - apply len_rep. discriminate.
  - reflexivity.
  - exists s'. split; [exact E | exact A].
Defined.

Lemma op_event_short_witness :
  exists s',
    _op_event (X := firebird)
      (incoming (dummies 0 ++ be4 op_event
                 ++ (be4 3 ++ be4 5 ++ [1; 1; 97; 0; 0; 0; 1; 0] ++ rep 0 8 ++ be4 17)))
    = (Raise (OperationalError "Can not recv() packets" ∅ 0), s').
Proof.
  destruct (op_event_short (X := firebird)
              (incoming (dummies 0 ++ be4 op_event
                 ++ (be4 3 ++ be4 5 ++ [1; 1; 97; 0; 0; 0; 1; 0] ++ rep 0 8 ++ be4 17)))
              0 (be4 3 ++ be4 5 ++ [1; 1; 97; 0; 0; 0; 1; 0] ++ rep 0 8 ++ be4 17))
    as (s' & E & _).
  - reflexivity.
  - reflexivity.
  - exists s'. exact E.
Defined.


(** ** Word alignment of the packets *)

Lemma aligned_nil : len (@nil Z) mod 4 = 0.
Proof. reflexivity. Qed.

Lemma aligned_be4 x : len (be4 x) mod 4 = 0.
Proof. reflexivity. Qed.

Lemma aligned_app (a b : bytes) :
  len a mod 4 = 0 -> len b mod 4 = 0 -> len (a ++ b) mod 4 = 0.
Proof.
  intros Ha Hb. rewrite len_app.
  rewrite Z.add_mod by lia. rewrite Ha, Hb. reflexivity.
Qed.

Lemma aligned_packed (b : bytes) :
  len (be4 (len b) ++ b ++ rep 0 (xdr_pad (len b))) mod 4 = 0.
Proof.
  apply aligned_app; [reflexivity|].
  rewrite len_app, len_rep by apply xdr_pad_range.
  apply xdr_pad_range.
Qed.

Ltac aligned :=
  repeat first [ apply aligned_nil | apply aligned_be4 | apply aligned_packed
               | apply aligned_app ].

Section IssuerPackets.
Context {X : Externals}.

(** With names whose lengths fit a byte, the loop of [_op_que_events]
    builds the block without raising. *)
Lemma que_events_params_ok (names : list (string * Z)) : forall acc s,
  Forall (fun e => Z.of_nat (String.length (fst e)) < 256 /\ int32 (snd e)) names ->
  que_events_params names acc s
  = (Ok (fold_left (fun params '(name, n) =>
                      params ++ bs [Z.of_nat (String.length name)]
                             ++ str_to_bytes name ++ int_to_bytes n 4)
                   names acc), s).
Proof.
  induction names as [|[name n] names IH]; intros acc s Hok; [reflexivity|].
  apply Forall_cons in Hok as [[Hlen _] Hok]. cbn [fst] in Hlen.
  cbn [que_events_params fold_left].
  rewrite (bind_ok _ _ _ _ _
             (bs_checked_ok [Z.of_nat (String.length name)] s
                ltac:(repeat constructor; lia))).
  rewrite (IH _ _ Hok). unfold bs. rewrite <- ?app_assoc. reflexivity.
Qed.

(** A name of 256 characters or more: [_op_que_events] raises [ValueError]
    and sends nothing. *)
Lemma que_events_long_name (name : string) (n : Z)
    (names : list (string * Z)) (acc : bytes) (s : session) :
  256 <= Z.of_nat (String.length name) ->
  que_events_params ((name, n) :: names) acc s = (Raise ValueError, s).
Proof.
  intros Hlen. cbn [que_events_params].
  assert (Hno : ~ Forall (fun x => 0 <= x < 256) [Z.of_nat (String.length name)]).
  { intros H. apply Forall_cons in H as [H _]. lia. }
  rewrite (bind_raise _ _ _ _ _ (bs_checked_raises _ s Hno)). reflexivity.
Qed.

(** With the handle present and arguments the packer accepts, every issuer
    of the [db_handle] group (apart from [_op_connect_request], which goes
    on to read) and every issuer that ends a transaction sends exactly one
    packet and reads nothing; the packet is a whole number of 4-byte words
    and its first word is the operation's code.  For the issuers that end a
    transaction the packet is the opcode and the handle. *)
Theorem issuers_send_words (s : session) (h : Z)
    (Hh : - 2 ^ 31 <= h < 2 ^ 31) :
  (forall i : db_issue,
     db_handle s = Some h -> db_issue_ok i ->
     exists pkt, issue_db i s = (Ok tt, log (Sent pkt) s)
                 /\ len pkt mod 4 = 0
                 /\ take 4 pkt = be4 (db_opcode i))
  /\ (forall i : trans_issue,
        issue_trans i (Some h) s
        = (Ok tt, log (Sent (be4 (trans_opcode i) ++ be4 h)) s)).
Proof.
  split.
  - intros i Hdb Hi.
    assert (Hg : get_db_handle s = (Ok (Some h), s)).
    { unfold get_db_handle. rewrite Hdb. reflexivity. }
    destruct i; cbn [issue_db db_issue_ok db_opcode] in *; unfold int32 in *;
      try contradiction;
      unfold _op_detach, _op_drop_database, _op_transaction,
        _op_allocate_statement, _op_info_database, _op_exec_immediate,
        _op_que_events, _op_cancel_events,
        _op_service_info, _op_service_start, _op_service_detach, pack_string;
      rewrite (bind_ok _ _ _ _ _ Hg);
      rewrite decide_False by done;
      try match goal with
          | H : Forall _ ?names /\ _ |- _ =>
              cbv zeta;
              rewrite (bind_ok _ _ _ _ _
                         (que_events_params_ok names (bs [1]) s (proj1 H)))
          end;
      repeat match goal with
             | H : _ /\ _ |- _ => destruct H
             | H : exists _, _ |- _ => destruct H
             end; subst;
      repeat pack;
      unfold sock_send, get_buffer, new_Packer;
      (eexists; split; [reflexivity|]; split; [aligned | reflexivity]).
  - intros i. destruct i; cbn [issue_trans trans_opcode];
      unfold _op_commit, _op_rollback, _op_commit_retaining,
        _op_rollback_retaining;
      do 2 pack; reflexivity.
Qed.

End IssuerPackets.

Lemma issuers_send_words_witness :
  (exists pkt,
     issue_db (X := firebird) (ITransaction [3; 9; 6; 15; 17])
       (mksession [] [] None (Some 7))
     = (Ok tt, log (Sent pkt) (mksession [] [] None (Some 7)))
     /\ len pkt mod 4 = 0
     /\ take 4 pkt = be4 op_transaction)
  /\ issue_trans IRollback (Some 7) (mksession [] [] None (Some 7))
     = (Ok tt, log (Sent (be4 op_rollback ++ be4 7)) (mksession [] [] None (Some 7))).
Proof.
  destruct (issuers_send_words (X := firebird) (mksession [] [] None (Some 7)) 7)
    as [H1 H2].
  - split; [discriminate | reflexivity].
  - split; [|exact (H2 IRollback)].
    apply (H1 (ITransaction [3; 9; 6; 15; 17])); [reflexivity|].
    cbn. reflexivity.
Defined.

(** ** The packet of [_op_execute] *)

Section ExecutePacket.
Context {X : Externals}.

Lemma aligned_zero_padded (v : bytes) : len (zero_padded v) mod 4 = 0.
Proof.
  unfold zero_padded.
  pose proof (Z.mod_pos_bound (4 - len v) 4 ltac:(lia)) as Hr.
  rewrite len_app, len_rep by lia.
  pose proof (Z.div_mod (4 - len v) 4 ltac:(lia)) as Hd.
  replace (len v + (4 - len v) mod 4) with ((1 - (4 - len v) / 4) * 4) by lia.
  apply Z.mod_mul. lia.
Qed.

Lemma aligned_bint v n : len (bint_to_bytes v (4 * n)) mod 4 = 0.
Proof.
  unfold len. rewrite length_bint_to_bytes.
  rewrite Nat2Z.inj_mul, Z.mul_comm. apply Z.mod_mul. lia.
Qed.

(** The value bytes of a parameter that does not spill, with the null
    indicator, are a whole number of words. *)
Lemma aligned_value (p : param) :
  len (value_bytes p ++ null_indicator p) mod 4 = 0.
Proof.
  apply aligned_app; [|destruct p; reflexivity].
  destruct p; cbn [value_bytes];
    first [ apply aligned_zero_padded
          | reflexivity
          | apply (aligned_bint _ 1)
          | apply (aligned_bint _ 2)
          | unfold convert_timestamp; apply aligned_app; apply (aligned_bint _ 1)
          | match goal with |- context [if ?b then _ else _] => destruct b end;
            reflexivity ].
Qed.

Lemma aligned_values (params : list param) :
  len (concat (map (fun p => value_bytes p ++ null_indicator p) params)) mod 4 = 0.
Proof.
  induction params as [|p params IH]; [reflexivity|].
  cbn [map concat]. apply aligned_app; [apply aligned_value | exact IH].
Qed.

Lemma params_to_blr_pure th params s :
  len params < 32768 ->
  Forall param_ok params ->
  Forall (fun p => spills p = false) params ->
  params_to_blr th params s
  = (Ok (blr_descriptor params,
         concat (map (fun p => value_bytes p ++ null_indicator p) params)), s).
Proof.
  intros Hn Hok Hf. unfold params_to_blr.
  rewrite (bind_ok _ _ _ _ _ (blr_prelude_ok params s Hn)).
  rewrite (bind_ok _ _ _ _ _ (blr_params_pure th params _ _ s Hok Hf)).
  unfold bs, blr_descriptor. cbn [app]. rewrite <- ?app_assoc. reflexivity.
Qed.

(** [_op_execute] with both handles present and fewer than 32768
    encodable parameters, none of which spills into a BLOB, sends exactly
    one packet and reads nothing: the opcode, the two handles, then either
    three zero words (no parameters) or the descriptor as an XDR byte
    string, the words 0 and 1 and the value buffer.  Unlike the packet of
    [_op_put_segment], it is a whole number of 4-byte words for every such
    parameter list. *)
Theorem op_execute_packet (s : session) (sh th : Z) (params : list param)
    (Hsh : - 2 ^ 31 <= sh < 2 ^ 31) (Hth : - 2 ^ 31 <= th < 2 ^ 31)
    (Hn : len params < 32768)
    (Hok : Forall param_ok params)
    (Hfit : len (blr_descriptor params) < 2 ^ 32)
    (Hplain : Forall (fun p => spills p = false) params) :
  exists pkt,
    _op_execute (Some sh) (Some th) params s = (Ok tt, log (Sent pkt) s)
    /\ len pkt mod 4 = 0
    /\ pkt = be4 op_execute ++ be4 sh ++ be4 th
             ++ match params with
                | [] => be4 0 ++ be4 0 ++ be4 0
                | _ => be4 (len (blr_descriptor params))
                       ++ blr_descriptor params
                       ++ rep 0 (xdr_pad (len (blr_descriptor params)))
                       ++ be4 0 ++ be4 1
                       ++ concat (map (fun p => value_bytes p ++ null_indicator p)
                                    params)
                end.
Proof.
  unfold _op_execute. do 3 pack.
  destruct params as [|p0 params'] eqn:Ep.
  - rewrite decide_True by reflexivity.
    do 3 pack. unfold sock_send, get_buffer, new_Packer.
    eexists. split; [reflexivity|]. split; [reflexivity|].
    cbn [app]. reflexivity.
  - rewrite <- Ep in *.
    rewrite decide_False
      by (rewrite Ep; unfold len; cbn [length]; lia).
    rewrite (bind_ok _ _ _ _ _
               (params_to_blr_pure (Some th) params s Hn Hok Hplain)).
    cbv beta iota. do 3 pack.
    unfold sock_send, get_buffer, new_Packer.
    eexists. split; [reflexivity|]. split.
    + aligned. apply aligned_values.
    + rewrite <- ?app_assoc. reflexivity.
Qed.

(** When a parameter does not fit the descriptor, here a decimal exponent
    below -256, [_op_execute] raises the [ValueError] of the encoder and
    sends nothing. *)
Lemma op_execute_unencodable (s : session) (sh th : Z) (sign : bool)
    (digits : list Z) (exponent : Z) (params : list param) :
  - 2 ^ 31 <= sh < 2 ^ 31 -> - 2 ^ 31 <= th < 2 ^ 31 ->
  len params < 32767 -> exponent < - 256 ->
  _op_execute (Some sh) (Some th) (PDecimal sign digits exponent :: params) s
  = (Raise ValueError, s).
Proof.
  intros Hsh Hth Hn He. unfold _op_execute. do 3 pack.
  pose proof (len_nonneg params) as H0.
  assert (Hl : len (PDecimal sign digits exponent :: params) = 1 + len params).
  { unfold len. cbn [length]. lia. }
  rewrite decide_False by lia.
  assert (Hno : ~ Forall (fun x => 0 <= x < 256)
                    [16; if decide (exponent < 0) then exponent + 256 else exponent]).
  { intros H. apply Forall_cons in H as [_ H]. apply Forall_cons in H as [H _].
    rewrite decide_True in H by lia. lia. }
  assert (E : params_to_blr (Some th) (PDecimal sign digits exponent :: params) s
              = (Raise ValueError, s)).
  { unfold params_to_blr.
    rewrite (bind_ok _ _ _ _ _
               (blr_prelude_ok (PDecimal sign digits exponent :: params) s
                  ltac:(lia))).
    cbn [blr_params]. unfold blr_param at 1.
    rewrite <- !bind_assoc.
    rewrite (bind_raise _ _ _ _ _ (bs_checked_raises _ s Hno)). reflexivity. }
  rewrite (bind_raise _ _ _ _ _ E). reflexivity.
Qed.

End ExecutePacket.

Lemma op_execute_packet_witness :
  exists pkt,
    _op_execute (X := firebird) (Some 5) (Some 9) [PInt 42; PText "hi"; PNone]
      (incoming [])
    = (Ok tt, log (Sent pkt) (incoming []))
    /\ len pkt mod 4 = 0.
Proof.
  destruct (op_execute_packet (X := firebird) (incoming []) 5 9
              [PInt 42; PText "hi"; PNone]) as (pkt & E & Hal & _).
  - split; [discriminate | reflexivity].
  - split; [discriminate | reflexivity].
  - reflexivity.
  - repeat constructor; cbn; try lia; intros _; cbn; lia.
  - vm_compute. reflexivity.
  - repeat constructor.
  - exists pkt. split; [exact E | exact Hal].
Defined.

(** ** Connection parameters *)

Section ConnectChunks.
Variable CNCT_specific_data : Z.

Lemma cnct_frames_app k chunks1 : forall i chunks2,
  cnct_frames k i (chunks1 ++ chunks2)
  = cnct_frames k i chunks1 ++ cnct_frames k (i + len chunks1) chunks2.
Proof.
  induction chunks1 as [|c chunks1 IH]; intros i chunks2.
  - cbn. rewrite Z.add_0_r. reflexivity.
  - cbn [app cnct_frames]. rewrite IH.
    replace (i + 1 + len chunks1) with (i + len (c :: chunks1))
      by (unfold len; cbn [length]; lia).
    rewrite <- ?app_assoc. reflexivity.
Qed.

Lemma len_concat_full (chunks : list bytes) :
  Forall (fun c => len c = 254) chunks -> len (concat chunks) = 254 * len chunks.
Proof.
  induction 1 as [|c chunks Hc _ IH]; [reflexivity|].
  cbn [concat]. rewrite len_app, IH, Hc. unfold len. cbn [length]. lia.
Qed.

Lemma cnct_loop_spec k (Hk : 0 <= k < 256) : forall fuel v b i s,
  (length v <= fuel)%nat ->
  0 <= i -> 254 * i + len v <= 254 * 256 -> (0 < len v \/ i < 256) ->
  exists full last,
    cnct_loop fuel k b v i s
    = (Ok (b ++ cnct_frames k i full, last, i + len full), s)
    /\ v = concat full ++ last
    /\ Forall (fun c => len c = 254) full
    /\ len last <= 254
    /\ (0 < len v -> 0 < len last)
    /\ i + len full < 256.
Proof.
  induction fuel as [|fuel IH]; intros v b i s Hf Hi Hfit Hne.
  - destruct v; [|cbn in Hf; lia]. cbn [cnct_loop].
    rewrite decide_False by (unfold len; cbn; lia).
    exists [], []. cbn. rewrite app_nil_r, Z.add_0_r.
    change (len []) with 0 in *.
    repeat split; try done; lia.
  - cbn [cnct_loop]. destruct (decide (len v > 254)) as [Hgt|Hle].
    + assert (Hd : (length (drop 254 v) <= fuel)%nat).
      { rewrite length_drop. unfold len in Hgt. lia. }
      assert (Hdl : len (drop 254 v) = len v - 254).
      { unfold len in *. rewrite length_drop. lia. }
      assert (Hh : bs_checked [k; 255; i] s = (Ok [k; 255; i], s)).
      { apply bs_checked_ok. repeat constructor; lia. }
      rewrite (bind_ok _ _ _ _ _ Hh).
      destruct (IH (drop 254 v) (b ++ [k; 255; i] ++ slice v 0 254) (i + 1) s Hd)
        as (full & last & E & Hv & Hall & Hlast & Hpos & Hend);
        [lia | lia | left; lia |].
      assert (Hs : slice v 0 254 = take 254 v) by reflexivity.
      assert (Hl : len (take 254 v) = 254).
      { unfold len in *. rewrite length_take. lia. }
      assert (Hc : len (take 254 v :: full) = 1 + len full).
      { unfold len, bytes. cbn [length]. lia. }
      exists (take 254 v :: full), last. rewrite E.
      split; [|split; [|split; [|split; [|split]]]].
      * cbn [cnct_frames]. rewrite Hs, Hl.
        change (254 + 1) with 255.
        rewrite <- ?app_assoc. cbn [app].
        assert (Hi' : i + 1 + len full = i + len (take 254 v :: full))
          by (unfold len, bytes; cbn [length]; lia).
        rewrite Hi'. reflexivity.
      * cbn [concat]. rewrite <- app_assoc, <- Hv. symmetry. apply take_drop.
      * constructor; done.
      * exact Hlast.
      * intros _. apply Hpos. lia.
      * unfold len, bytes in *. cbn [length]. lia.
    + exists [], v. cbn. rewrite app_nil_r, Z.add_0_r.
      pose proof (len_nonneg v).
      repeat split; try done; lia.
Qed.

(** [pack_cnct_param] on the specific-data key, for a key that is a byte
    and a value of at most 254 * 256 bytes (so that the number of every
    chunk is a byte): the value is cut into frames of a three-byte header
    (key, length of the chunk plus one, number of the chunk from 0) and a
    chunk; every frame but the last carries exactly 254 bytes, the last at
    most 254 and at least one unless the value is empty; the chunks put end
    to end are the value, so the length byte never exceeds 255. *)
Theorem pack_cnct_param_chunks (v : bytes) (s : session)
    (Hk : 0 <= CNCT_specific_data < 256) (Hv : len v <= 254 * 256) :
  exists full last,
    pack_cnct_param CNCT_specific_data CNCT_specific_data v s
    = (Ok (cnct_frames CNCT_specific_data 0 (full ++ [last])), s)
    /\ concat (full ++ [last]) = v
    /\ Forall (fun c => len c = 254) full
    /\ len last <= 254
    /\ (0 < len v -> 0 < len last)
    /\ len full = Z.max 0 ((len v - 1) / 254).
Proof.
  unfold pack_cnct_param.
  rewrite decide_False by (intros H; apply H; reflexivity).
  destruct (cnct_loop_spec CNCT_specific_data Hk (length v) v (bs []) 0 s (le_n _))
    as (full & last & E & Hcat & Hall & Hlast & Hne & Hend); [lia|lia|right; lia|].
  exists full, last. rewrite (bind_ok _ _ _ _ _ E). cbv beta iota.
  pose proof (len_nonneg last) as Hl0. pose proof (len_nonneg full) as Hf0.
  assert (Hh : bs_checked [CNCT_specific_data; len last + 1; 0 + len full] s
               = (Ok [CNCT_specific_data; len last + 1; 0 + len full], s)).
  { apply bs_checked_ok. repeat constructor; lia. }
  rewrite (bind_ok _ _ _ _ _ Hh).
  split; [|split; [|split; [done|split; [done|split; [done|]]]]].
  - rewrite cnct_frames_app. cbn [cnct_frames]. unfold bs, ret.
    rewrite app_nil_r. cbn [app]. reflexivity.
  - rewrite concat_app. cbn [concat]. rewrite app_nil_r. symmetry. exact Hcat.
  - pose proof (len_concat_full full Hall) as Hc.
    assert (Hlen : len v = 254 * len full + len last).
    { rewrite Hcat at 1. rewrite len_app, Hc. reflexivity. }
    destruct (decide (len v = 0)) as [Hz|Hnz].
    + rewrite Hz. change ((0 - 1) / 254) with (-1). lia.
    + assert (Hp : 0 < len last) by (apply Hne; lia).
      assert (Hq : len full = (len v - 1) / 254).
      { apply Z.div_unique with (r := len last - 1); lia. }
      lia.
Qed.

End ConnectChunks.

Lemma pack_cnct_param_chunks_witness :
  exists full last,
    pack_cnct_param 7 7 (rep 0 300) (incoming [])
    = (Ok (cnct_frames 7 0 (full ++ [last])), incoming [])
    /\ len full = 1 /\ len last <= 254.
Proof.
  destruct (pack_cnct_param_chunks 7 (rep 0 300) (incoming []))
    as (full & last & E & _ & _ & Hlast & _ & Hn).
  - lia.
  - vm_compute. discriminate.
  - exists full, last. split; [exact E|]. split; [|exact Hlast].
    rewrite Hn. vm_compute. reflexivity.
Defined.

(** ** The resolution of [convert_time] *)

Lemma convert_time_ticks (t : time) :
  valid_time t ->
  convert_time t
  = be4 (time_ticks (hour t) (minute t) (second t) (microsecond t))
  /\ 0 <= time_ticks (hour t) (minute t) (second t) (microsecond t) < 864000000.
Proof.
  intros (Hh & Hm & Hs & Hu). unfold convert_time, time_ticks.
  rewrite bint_to_bytes_4. split; [reflexivity|].
  assert (0 <= microsecond t / 100 < 10000).
  { split; [apply Z.div_pos; lia | apply Z.div_lt_upper_bound; lia]. }
  lia.
Qed.

(** [convert_time] keeps the hour, minute and second of a time of day and
    its microseconds down to a tenth of a millisecond: two valid times have
    the same four bytes exactly when they agree on these, and decoding the
    bytes as a big-endian integer gives back the count of 100-microsecond
    ticks since midnight. *)
Theorem convert_time_resolution (t1 t2 : time)
    (H1 : valid_time t1) (H2 : valid_time t2) :
  bytes_to_bint (convert_time t1)
  = (hour t1 * 3600 + minute t1 * 60 + second t1) * 10000 + microsecond t1 / 100
  /\ (convert_time t1 = convert_time t2
      <-> hour t1 = hour t2 /\ minute t1 = minute t2 /\ second t1 = second t2
          /\ microsecond t1 / 100 = microsecond t2 / 100).
Proof.
  destruct (convert_time_ticks t1 H1) as [E1 R1].
  destruct (convert_time_ticks t2 H2) as [E2 R2].
  split.
  - rewrite E1. rewrite bytes_to_bint_be4 by lia. reflexivity.
  - split.
    + intros E. rewrite E1, E2 in E.
      apply (f_equal bytes_to_bint) in E.
      rewrite !bytes_to_bint_be4 in E by lia.
      unfold time_ticks in *.
      destruct H1 as (Hh1 & Hm1 & Hs1 & Hu1), H2 as (Hh2 & Hm2 & Hs2 & Hu2).
      assert (Ha : 0 <= microsecond t1 / 100 < 10000).
      { split; [apply Z.div_pos; lia | apply Z.div_lt_upper_bound; lia]. }
      assert (Hb : 0 <= microsecond t2 / 100 < 10000).
      { split; [apply Z.div_pos; lia | apply Z.div_lt_upper_bound; lia]. }
      set (a := microsecond t1 / 100) in *. set (b := microsecond t2 / 100) in *.
      clearbody a b. lia.
    + intros (Eh & Em & Es & Eu). unfold convert_time.
      rewrite Eh, Em, Es, Eu. reflexivity.
Qed.

Lemma convert_time_resolution_witness :
  convert_time (mktime 12 30 15 250099) = convert_time (mktime 12 30 15 250000).
Proof.
  destruct (convert_time_resolution (mktime 12 30 15 250099) (mktime 12 30 15 250000))
    as [_ [_ H]].
  - repeat split; cbn; lia.
  - repeat split; cbn; lia.
  - apply H. repeat split; reflexivity.
Defined.

(** ** Waiting for an event *)

Section EventWait.
Context {X : Externals} {C : EventCodec}.

(** After the keepalive frames the loop is at the first other opcode. *)
Lemma wait_loop_dummies op rest (eid : Z) (en : gmap string Z) :
  - 2 ^ 31 <= op < 2 ^ 31 -> op <> op_dummy ->
  forall k fuel s,
    (k < fuel)%nat ->
    arriving s = dummies k ++ be4 op ++ rest ->
    exists s1,
      wait_loop fuel eid en s
      = (if decide (op = op_exit \/ op = op_disconnect)
         then ret (Waited eid en)
         else if decide (op = op_event) then wait_event_arm en
         else raise InternalError) s1
      /\ reads s (dummies k ++ be4 op) s1 /\ arriving s1 = rest.
Proof.
  intros Hop Hd. induction k as [|k IH]; intros fuel s Hf A.
  - cbn [dummies replicate concat app] in *.
    destruct fuel as [|fuel]; [lia|]. cbn [wait_loop].
    edestruct (@recv_word) as (s1 & E & R1 & A1); [exact A|]. rewrite E.
    rewrite bytes_to_bint_be4 by done. rewrite decide_False by done. eauto.
  - unfold dummies in *. cbn [replicate concat] in *.
    rewrite <- !app_assoc in A.
    destruct fuel as [|fuel]; [lia|]. cbn [wait_loop].
    edestruct (@recv_word) as (s1 & E & R1 & A1); [exact A|]. rewrite E.
    rewrite bytes_to_bint_be4 by done. rewrite decide_True by done.
    destruct (IH fuel s1 ltac:(lia) A1) as (s2 & E2 & R2 & A2).
    exists s2. split; [exact E2|]. split; [|exact A2].
    rewrite <- app_assoc. eapply reads_trans; eassumption.
Qed.

Lemma wait_for_event_opcode op rest k s tmo :
  - 2 ^ 31 <= op < 2 ^ 31 -> op <> op_dummy ->
  arriving s = dummies k ++ be4 op ++ rest ->
  exists s1,
    _wait_for_event tmo s
    = (if decide (op = op_exit \/ op = op_disconnect)
       then ret (Waited 0 ∅)
       else if decide (op = op_event) then wait_event_arm ∅
       else raise InternalError) s1
    /\ reads s (dummies k ++ be4 op) s1 /\ arriving s1 = rest.
Proof.
  intros Hop Hd A. unfold _wait_for_event.
  apply wait_loop_dummies; try done.
  pose proof (arriving_le_pending s) as Hle.
  rewrite A, !length_app, length_dummies, length_be4 in Hle. lia.
Qed.

(** After any number of keepalive frames, [_wait_for_event] answers
    [op_exit] and [op_disconnect] by returning event id 0 and an empty table
    (it does not raise [DisconnectByPeer] as [_op_event] does), and every
    opcode other than these, [op_dummy] and [op_event] with an internal
    error; in both cases it has read the opcode and nothing beyond, and
    sent nothing. *)
Theorem wait_for_event_dispatch (s : session) (k : nat) (op : Z)
    (rest : bytes) (tmo : option Z)
    (Hop : - 2 ^ 31 <= op < 2 ^ 31) (Hd : op <> op_dummy)
    (He : op <> op_event)
    (A : arriving s = dummies k ++ be4 op ++ rest) :
  exists s',
    _wait_for_event tmo s
    = ((if decide (op = op_exit \/ op = op_disconnect)
        then Ok (Waited 0 ∅) else Raise InternalError), s')
    /\ reads s (dummies k ++ be4 op) s' /\ arriving s' = rest.
Proof.
  destruct (wait_for_event_opcode op rest k s tmo Hop Hd A) as (s1 & E & R & A1).
  exists s1. split; [|done]. rewrite E.
  destruct (decide (op = op_exit \/ op = op_disconnect)); [reflexivity|].
  rewrite decide_False by done. reflexivity.
Qed.

End EventWait.

Lemma wait_for_event_dispatch_witness :
  (exists s',
     _wait_for_event (C := little_endian) None
       (incoming (dummies 2 ++ be4 op_disconnect ++ [9]))
     = (Ok (Waited 0 ∅), s') /\ arriving s' = [9])
  /\ (exists s',
        _wait_for_event (C := little_endian) None
          (incoming (dummies 0 ++ be4 op_response ++ []))
        = (Raise InternalError, s')).
Proof.
  split.
  - destruct (wait_for_event_dispatch (C := little_endian)
                (incoming (dummies 2 ++ be4 op_disconnect ++ [9]))
                2 op_disconnect [9] None) as (s' & E & _ & A).
    + split; [discriminate | reflexivity].
    + discriminate.
    + discriminate.
    + reflexivity.
    + exists s'. split; [exact E | exact A].
  - destruct (wait_for_event_dispatch (C := little_endian)
                (incoming (dummies 0 ++ be4 op_response ++ []))
                0 op_response [] None) as (s' & E & _).
    + split; [discriminate | reflexivity].
    + discriminate.
    + discriminate.
    + reflexivity.
    + exists s'. exact E.
Defined.

Section EventNames.
Context {X : Externals} {C : EventCodec}.

Lemma event_fold_eq (names : list (string * Z)) : forall acc : bytes,
  fold_left (fun params '(name, n) =>
               params ++ bs [Z.of_nat (String.length name)]
                      ++ str_to_bytes name ++ int_to_bytes n 4)
            names acc
  = acc ++ concat (map entry_bytes names).
Proof.
  induction names as [|[name n] names IH]; intros acc.
  - cbn [fold_left map concat]. rewrite app_nil_r. reflexivity.
  - cbn [fold_left map concat]. rewrite IH.
    unfold entry_bytes at 2. cbn [fst snd]. rewrite <- ?app_assoc. reflexivity.
Qed.

Lemma event_block_eq (names : list (string * Z)) :
  event_block names = [1] ++ concat (map entry_bytes names).
Proof. unfold event_block. apply event_fold_eq. Qed.

Lemma length_int_to_bytes n k : length (int_to_bytes n k) = k.
Proof. revert n. induction k as [|k IH]; intros n; cbn; [done|]. rewrite IH. done. Qed.

Lemma length_entries (names : list (string * Z)) :
  (length names <= length (concat (map entry_bytes names)))%nat.
Proof.
  induction names as [|e names IH]; [done|].
  cbn [map concat length]. rewrite length_app.
  unfold entry_bytes at 1. cbn [bs app length]. lia.
Qed.

(** The loop over the buffer reads back the entries of the block. *)
Lemma event_names_loop_ok (names : list (string * Z)) :
  forall pre fuel acc s,
    Forall event_entry_ok names ->
    (length names <= fuel)%nat ->
    event_names_loop fuel (pre ++ concat (map entry_bytes names)) (len pre) acc s
    = (Ok (fold_left (fun m e => <[ fst e := snd e ]> m) names acc), s).
Proof.
  induction names as [|[name n] names IH]; intros pre fuel acc s Hok Hf.
  - cbn [map concat fold_left]. rewrite app_nil_r.
    destruct fuel; cbn [event_names_loop];
      rewrite decide_False by lia; reflexivity.
  - apply Forall_cons in Hok as [(Hlen & Hshort & Hstr & Hint) Hok].
    cbn [fst snd] in *.
    destruct fuel as [|fuel]; [cbn in Hf; lia|].
    cbn [map concat]. unfold entry_bytes at 1. cbn [fst snd]. unfold bs.
    set (ln := Z.of_nat (String.length name)) in *.
    set (sb := str_to_bytes name) in *.
    set (ib := int_to_bytes n 4).
    set (tl := concat (map entry_bytes names)).
    assert (Hib : len ib = 4).
    { unfold len, ib. rewrite length_int_to_bytes. reflexivity. }
    pose proof (len_nonneg pre) as Hp0. pose proof (len_nonneg sb) as Hs0.
    cbn [event_names_loop].
    pose proof (len_nonneg tl) as Ht0.
    rewrite decide_True
      by (rewrite !len_app; unfold len at 3; cbn [length]; lia).
    assert (Hnth : nth (Z.to_nat (len pre)) (pre ++ ([ln] ++ sb ++ ib) ++ tl) 0 = ln).
    { unfold len. rewrite Nat2Z.id. rewrite <- !app_assoc. cbn [app].
      apply nth_middle. }
    rewrite Hnth.
    assert (Hs1 : slice (pre ++ ([ln] ++ sb ++ ib) ++ tl) (len pre + 1) (len pre + 1 + ln)
                  = sb).
    { replace (pre ++ ([ln] ++ sb ++ ib) ++ tl)
        with ((pre ++ [ln]) ++ sb ++ (ib ++ tl))
        by (rewrite <- ?app_assoc; reflexivity).
      apply slice_app_mid.
      - rewrite len_app. reflexivity.
      - lia. }
    assert (Hs2 : slice (pre ++ ([ln] ++ sb ++ ib) ++ tl)
                    (len pre + 1 + ln) (len pre + 1 + ln + 4) = ib).
    { replace (pre ++ ([ln] ++ sb ++ ib) ++ tl)
        with ((pre ++ [ln] ++ sb) ++ ib ++ tl)
        by (rewrite <- ?app_assoc; reflexivity).
      apply slice_app_mid.
      - rewrite !len_app. unfold len at 2. cbn [length]. lia.
      - lia. }
    rewrite Hs1, Hs2. fold ib in Hint. rewrite Hstr, Hint.
    replace (len pre + (ln + 5)) with (len (pre ++ [ln] ++ sb ++ ib))
      by (rewrite !len_app; unfold len at 2; cbn [length]; lia).
    rewrite (app_assoc pre ([ln] ++ sb ++ ib) tl).
    cbn [fold_left fst snd].
    apply IH; [exact Hok | cbn in Hf; lia].
Qed.

(** The buffer of an [op_event] notification that holds the parameter block
    of [_op_que_events] for the names [names]: [_wait_for_event] returns the
    event id and the table with every name and its count, a later entry of
    the same name replacing an earlier one, and has read the notification
    and nothing beyond it. *)
Theorem wait_for_event_names (s : session) (k : nat) (tmo : option Z)
    (h pad ast rest : bytes) (names : list (string * Z)) (id : Z)
    (Hh : len h = 4) (Hast : len ast = 8)
    (Hid : - 2 ^ 31 <= id < 2 ^ 31)
    (Hfit : len (event_block names) < 2 ^ 31)
    (Hpad : len pad = padding (len (event_block names)) true)
    (Hnames : Forall event_entry_ok names)
    (A : arriving s = dummies k ++ be4 op_event
                      ++ (h ++ be4 (len (event_block names))
                            ++ event_block names ++ pad ++ ast ++ be4 id)
                      ++ rest) :
  exists s',
    _wait_for_event tmo s
    = (Ok (Waited id (fold_left (fun m e => <[ fst e := snd e ]> m) names ∅)), s')
    /\ reads s (dummies k ++ be4 op_event
                ++ h ++ be4 (len (event_block names))
                ++ event_block names ++ pad ++ ast ++ be4 id) s'
    /\ arriving s' = rest.
Proof.
  destruct (wait_for_event_opcode op_event _ k s tmo ltac:(done) ltac:(done) A)
    as (s1 & E & R1 & A1).
  rewrite E. rewrite decide_False by (intros [H|H]; discriminate H).
  rewrite decide_True by reflexivity.
  rewrite <- !app_assoc in A1.
  pose proof (len_nonneg (event_block names)) as Hb0.
  unfold wait_event_arm.
  destruct (recv_channel_plain 4 s1 h _ A1 Hh) as (s2 & E2 & R2 & A2).
  rewrite (bind_ok _ _ _ _ _ E2).
  destruct (recv_channel_plain 4 s2 _ _ A2 eq_refl) as (s3 & E3 & R3 & A3).
  rewrite (bind_ok _ _ _ _ _ E3).
  rewrite bytes_to_bint_be4 by lia.
  destruct (recv_channel_ok (len (event_block names)) true s3 (event_block names)
              pad _ A3 eq_refl Hpad) as (s4 & E4 & R4 & A4).
  rewrite (bind_ok _ _ _ _ _ E4).
  pose proof (event_block_eq names) as Hb.
  destruct (event_block names) as [|b0 bl] eqn:Eb; [discriminate Hb|].
  cbn [app] in Hb. injection Hb as -> ->.
  rewrite decide_True by reflexivity.
  assert (El : event_names_loop (length (1 :: concat (map entry_bytes names)))
                 ([1] ++ concat (map entry_bytes names)) (len [1]) ∅ s4
               = (Ok (fold_left (fun m e => <[ fst e := snd e ]> m) names ∅), s4)).
  { apply (event_names_loop_ok names [1]); [exact Hnames|].
    cbn [length]. pose proof (length_entries names). lia. }
  change (len [1]) with 1 in El. cbn [app] in El.
  rewrite (bind_ok _ _ _ _ _ El).
  destruct (recv_channel_plain 8 s4 ast _ A4 Hast) as (s5 & E5 & R5 & A5).
  rewrite (bind_ok _ _ _ _ _ E5).
  destruct (recv_channel_plain 4 s5 _ _ A5 eq_refl) as (s6 & E6 & R6 & A6).
  rewrite (bind_ok _ _ _ _ _ E6).
  rewrite bytes_to_bint_be4 by done.
  exists s6. split; [reflexivity|]. split; [|exact A6].
  eapply reads_eq;
    [eapply reads_trans; [exact R1|eapply reads_trans; [exact R2|
       eapply reads_trans; [exact R3|eapply reads_trans; [exact R4|
         eapply reads_trans; [exact R5|exact R6]]]]]|].
  rewrite <- ?app_assoc. reflexivity.
Qed.

End EventNames.

Lemma wait_for_event_names_witness :
  exists s',
    _wait_for_event (C := little_endian) None
      (incoming (dummies 1 ++ be4 op_event
                 ++ (be4 3 ++ be4 (len (event_block (X := firebird) [("ab"%string, 2); ("c"%string, 7)]))
                       ++ event_block (X := firebird) [("ab"%string, 2); ("c"%string, 7)]
                       ++ [0; 0] ++ rep 0 8 ++ be4 17)
                 ++ [5]))
    = (Ok (Waited 17 (<[ "c"%string := 7 ]> (<[ "ab"%string := 2 ]> ∅))), s')
    /\ arriving s' = [5].
Proof.
  destruct (wait_for_event_names (X := firebird) (C := little_endian)
              (incoming (dummies 1 ++ be4 op_event
                 ++ (be4 3 ++ be4 (len (event_block (X := firebird) [("ab"%string, 2); ("c"%string, 7)]))
                       ++ event_block (X := firebird) [("ab"%string, 2); ("c"%string, 7)]
                       ++ [0; 0] ++ rep 0 8 ++ be4 17)
                 ++ [5]))
              1 None (be4 3) [0; 0] (rep 0 8) [5]
              [("ab"%string, 2); ("c"%string, 7)] 17) as (s' & E & _ & A).
  - reflexivity.
  - reflexivity.
  - split; [discriminate | reflexivity].
  - reflexivity.
  - reflexivity.
  - repeat constructor.
  - reflexivity.
  - exists s'. split; [exact E | exact A].
Defined.

